(** * A shallow embedding of the graphsync transport of go-data-transfer

    The development follows [transport/graphsync/graphsync.go] (the
    [Transport] type, its façade operations, the hooks it registers with
    graphsync and the request executor), [impl/restart.go] (the restart
    coordinator of the manager) and [message.NewRequest].

    Conventions of the embedding:
    - a Go [map[K]V] is a [gmap K V]; a [map[K]struct{}] is a [gset K];
    - a Go [error] value is an [option error] ([None] is [nil]);
    - every operation returns the registry it leaves behind together with
      the ordered list of the calls it made on its collaborators (session
      callbacks, hook actions, engine calls, lock operations);
    - channels of type [chan struct{}] and cancellable contexts are
      identified by the number under which [OpenChannel] allocated them;
      closing a latch and cancelling a context are entries of the trace. *)

From Stdlib Require Import ZArith Lia.
From stdpp Require Import base gmap strings list fin_maps pretty.

Local Open Scope string_scope.
Local Open Scope list_scope.
Local Open Scope Z_scope.

(** ** Data model *)

Definition peer_ID := string.
Definition TransferID := N.
Definition RequestID := Z.
Definition ExtensionName := string.
Definition Cid := string.
Definition Link := string.
Definition Node := string.
Definition CtxID := nat.
Definition LatchID := nat.

(** [cid.Undef], the zero value of a CID. *)
Definition cid_Undef : Cid := "".

(** [datatransfer.ChannelID] *)
Record ChannelID := mkChannelID {
  Initiator : peer_ID;
  Responder : peer_ID;
  ID : TransferID
}.

#[global] Instance ChannelID_eq_dec : EqDecision ChannelID.
Proof. solve_decision. Defined.

#[global] Instance ChannelID_countable : Countable ChannelID.
Proof.
  refine (inj_countable'
            (fun c => (Initiator c, Responder c, ID c))
            (fun x => match x with (i, r, n) => mkChannelID i r n end) _).
  by intros [].
Defined.

(** [graphsyncKey]: the engine request number qualified by the peer that
    owns the request on the wire. *)
Record graphsyncKey := mkKey {
  requestID : RequestID;
  p : peer_ID
}.

#[global] Instance graphsyncKey_eq_dec : EqDecision graphsyncKey.
Proof. solve_decision. Defined.

#[global] Instance graphsyncKey_countable : Countable graphsyncKey.
Proof.
  refine (inj_countable'
            (fun k => (requestID k, p k))
            (fun x => match x with (i, q) => mkKey i q end) _).
  by intros [].
Defined.

(** The zero value [graphsyncKey{}]. *)
Definition zeroKey : graphsyncKey := mkKey 0 "".

#[global] Instance byte_eq_dec : EqDecision Byte.byte := Byte.byte_eq_dec.

(** [graphsync.ExtensionData] *)
Record ExtensionData := mkExt {
  Name : ExtensionName;
  Data : list Byte.byte
}.

#[global] Instance ExtensionData_eq_dec : EqDecision ExtensionData.
Proof. solve_decision. Defined.

(** Errors.  The sentinels of the [datatransfer] package, the two typed
    errors of graphsync the executor inspects, the errors of a context,
    and errors built by [errors.New] and [xerrors.Errorf]: [Errorf] with
    the arguments of its format, [ErrorfW] when the format wraps an error
    with [%w]. *)
Inductive error :=
| ErrPause
| ErrChannelNotFound
| ErrHandlerNotSet
| ErrHandlerAlreadySet
| RequestContextCancelledErr
| RequestCancelledErr
| ContextCanceled
| ContextDeadlineExceeded
| ErrorNew (msg : string)
| Errorf (format : string) (args : list string)
| ErrorfW (format : string) (wrapped : error).

#[global] Instance error_eq_dec : EqDecision error.
Proof. solve_decision. Defined.

(** [transferRequest] and [transferResponse] of the message package. *)
Record Request := mkRequest {
  Pull : bool;
  Rest : bool;
  Vouch : list Byte.byte;
  Stor : Node;
  BCid : option Cid;
  VTyp : string;
  XferID : N;
  Canc : bool
}.

Record Response := mkResponse {
  Acpt : bool;
  RespXferID : N
}.

(** [datatransfer.Message]: a request or a response. *)
Inductive Message :=
| MsgRequest (r : Request)
| MsgResponse (r : Response).

Definition IsRequest (m : Message) : bool :=
  match m with MsgRequest _ => true | MsgResponse _ => false end.

Definition MsgTransferID (m : Message) : TransferID :=
  match m with
  | MsgRequest r => XferID r
  | MsgResponse r => RespXferID r
  end.

(** [graphsync.RequestData] and [graphsync.ResponseData], as far as the
    transport reads them: the request number and the extensions. *)
Record RequestData := mkRequestData {
  req_ID : RequestID;
  req_exts : list ExtensionData
}.

Record ResponseData := mkResponseData {
  resp_RequestID : RequestID;
  resp_exts : list ExtensionData
}.

(** [graphsync.BlockData] *)
Record BlockData := mkBlock {
  blk_Link : Link;
  BlockSize : N;
  BlockSizeOnWire : N
}.

(** [graphsync.ResponseStatusCode]: the codes the transport names in
    [gsResponseStatusCodes], and any other code. *)
Inductive ResponseStatusCode :=
| RequestAcknowledged
| AdditionalPeers
| NotEnoughGas
| OtherProtocol
| PartialResponse
| RequestPaused
| RequestCompletedFull
| RequestCompletedPartial
| RequestRejected
| RequestFailedBusy
| RequestFailedUnknown
| RequestFailedLegal
| RequestFailedContentNotFound
| RequestCancelled
| UnlistedStatus (code : Z).

#[global] Instance ResponseStatusCode_eq_dec : EqDecision ResponseStatusCode.
Proof. solve_decision. Defined.

(** The eleven hooks and listeners registered with graphsync. *)
Inductive HookKind :=
| IncomingRequestHook
| CompletedResponseListener
| IncomingBlockHook
| OutgoingBlockHook
| BlockSentListener
| OutgoingRequestHook
| IncomingResponseHook
| RequestUpdatedHook
| RequestorCancelledListener
| NetworkErrorListener
| ReceiverNetworkErrorListener.

(** ** Collaborators and traces *)

(** [datatransfer.EventsHandler], the session side. *)
Record EventsHandler := mkEvents {
  OnChannelOpened : ChannelID -> option error;
  OnRequestReceived : ChannelID -> Request -> option Message * option error;
  OnResponseReceived : ChannelID -> Response -> option error;
  OnDataReceived : ChannelID -> Link -> N -> option error;
  OnDataQueued : ChannelID -> Link -> N -> option Message * option error;
  OnDataSent : ChannelID -> Link -> N -> option error;
  OnRequestTimedOut : ChannelID -> error -> option error;
  OnSendDataError : ChannelID -> error -> option error;
  OnReceiveDataError : ChannelID -> error -> option error;
  OnChannelCompleted : ChannelID -> option error -> option error
}.

(** A call of a session callback, as recorded in a trace. *)
Inductive Event :=
| EvChannelOpened (chid : ChannelID)
| EvRequestReceived (chid : ChannelID) (req : Request)
| EvResponseReceived (chid : ChannelID) (resp : Response)
| EvDataReceived (chid : ChannelID) (l : Link) (size : N)
| EvDataQueued (chid : ChannelID) (l : Link) (size : N)
| EvDataSent (chid : ChannelID) (l : Link) (size : N)
| EvRequestTimedOut (chid : ChannelID) (err : error)
| EvSendDataError (chid : ChannelID) (err : error)
| EvReceiveDataError (chid : ChannelID) (err : error)
| EvChannelCompleted (chid : ChannelID) (err : option error).

(** The hook actions graphsync hands to a hook. *)
Inductive HookAction :=
| TerminateWithError (err : option error)
| SendExtensionData (ext : ExtensionData)
| UpdateRequestWithExtensions (ext : ExtensionData)
| PauseResponse
| PauseRequest
| ValidateRequest
| UsePersistenceOption (name : string).

(** The methods of [graphsync.GraphExchange] the façade calls. *)
Inductive EngineCall :=
| GsRequest (ctx : CtxID) (to : peer_ID) (root : Link) (stor : Node)
            (exts : list ExtensionData)
| GsPauseRequest (id : RequestID)
| GsUnpauseRequest (id : RequestID) (exts : list ExtensionData)
| GsPauseResponse (to : peer_ID) (id : RequestID)
| GsUnpauseResponse (to : peer_ID) (id : RequestID) (exts : list ExtensionData)
| GsCancelResponse (to : peer_ID) (id : RequestID)
| GsRegisterPersistenceOption (name : string)
| GsUnregisterPersistenceOption (name : string)
| GsRegisterHook (h : HookKind).

(** One entry of the trace of an operation. *)
Inductive Call :=
| Lock | Unlock | RLock | RUnlock
| ChanLock (chid : ChannelID) | ChanUnlock (chid : ChannelID)
| Ev (e : Event)
| Act (a : HookAction)
| Gs (c : EngineCall)
| CancelCtx (c : CtxID)
| CloseLatch (l : LatchID)
| UnregisterHook (h : HookKind)
| GoExecuteGsRequest (ctx : CtxID) (chid : ChannelID) (onComplete : LatchID)
| CompletedRequestListenerCall (chid : ChannelID)
| CompletedResponseListenerCall (chid : ChannelID)
| Panic.

(** [cancelRequest]: the cancel function of the derived context and the
    [completed] latch. *)
Record cancelRequest := mkCancelRequest {
  cancel : CtxID;
  completed : LatchID
}.

(** [Transport].  [nextID] numbers the latches and contexts allocated by
    [make(chan struct{})] and [context.WithCancel]. *)
Record Transport := mkTransport {
  events : option EventsHandler;
  gs : EngineCall -> option error;
  peerID : peer_ID;
  graphsyncRequestMap : gmap graphsyncKey ChannelID;
  channelIDMap : gmap ChannelID graphsyncKey;
  contextCancelMap : gmap ChannelID cancelRequest;
  pending : gmap ChannelID LatchID;
  requestorCancelledMap : gset ChannelID;
  channelXferStarted : gmap ChannelID bool;
  pendingExtensions : gmap ChannelID (list ExtensionData);
  stores : gset ChannelID;
  supportedExtensions : list ExtensionName;
  unregisterFuncs : list HookKind;
  completedRequestListener : bool;
  completedResponseListener : bool;
  nextID : nat
}.

(** Field updates of [Transport]. *)
Definition set_events (v : option EventsHandler) (t : Transport) : Transport :=
  mkTransport v (gs t) (peerID t) (graphsyncRequestMap t) (channelIDMap t)
    (contextCancelMap t) (pending t) (requestorCancelledMap t)
    (channelXferStarted t) (pendingExtensions t) (stores t)
    (supportedExtensions t) (unregisterFuncs t) (completedRequestListener t)
    (completedResponseListener t) (nextID t).

Definition set_graphsyncRequestMap (v : gmap graphsyncKey ChannelID)
  (t : Transport) : Transport :=
  mkTransport (events t) (gs t) (peerID t) v (channelIDMap t)
    (contextCancelMap t) (pending t) (requestorCancelledMap t)
    (channelXferStarted t) (pendingExtensions t) (stores t)
    (supportedExtensions t) (unregisterFuncs t) (completedRequestListener t)
    (completedResponseListener t) (nextID t).

Definition set_channelIDMap (v : gmap ChannelID graphsyncKey)
  (t : Transport) : Transport :=
  mkTransport (events t) (gs t) (peerID t) (graphsyncRequestMap t) v
    (contextCancelMap t) (pending t) (requestorCancelledMap t)
    (channelXferStarted t) (pendingExtensions t) (stores t)
    (supportedExtensions t) (unregisterFuncs t) (completedRequestListener t)
    (completedResponseListener t) (nextID t).

Definition set_contextCancelMap (v : gmap ChannelID cancelRequest)
  (t : Transport) : Transport :=
  mkTransport (events t) (gs t) (peerID t) (graphsyncRequestMap t)
    (channelIDMap t) v (pending t) (requestorCancelledMap t)
    (channelXferStarted t) (pendingExtensions t) (stores t)
    (supportedExtensions t) (unregisterFuncs t) (completedRequestListener t)
    (completedResponseListener t) (nextID t).

Definition set_pending (v : gmap ChannelID LatchID) (t : Transport)
  : Transport :=
  mkTransport (events t) (gs t) (peerID t) (graphsyncRequestMap t)
    (channelIDMap t) (contextCancelMap t) v (requestorCancelledMap t)
    (channelXferStarted t) (pendingExtensions t) (stores t)
    (supportedExtensions t) (unregisterFuncs t) (completedRequestListener t)
    (completedResponseListener t) (nextID t).

Definition set_requestorCancelledMap (v : gset ChannelID) (t : Transport)
  : Transport :=
  mkTransport (events t) (gs t) (peerID t) (graphsyncRequestMap t)
    (channelIDMap t) (contextCancelMap t) (pending t) v
    (channelXferStarted t) (pendingExtensions t) (stores t)
    (supportedExtensions t) (unregisterFuncs t) (completedRequestListener t)
    (completedResponseListener t) (nextID t).

Definition set_channelXferStarted (v : gmap ChannelID bool) (t : Transport)
  : Transport :=
  mkTransport (events t) (gs t) (peerID t) (graphsyncRequestMap t)
    (channelIDMap t) (contextCancelMap t) (pending t)
    (requestorCancelledMap t) v (pendingExtensions t) (stores t)
    (supportedExtensions t) (unregisterFuncs t) (completedRequestListener t)
    (completedResponseListener t) (nextID t).

Definition set_pendingExtensions (v : gmap ChannelID (list ExtensionData))
  (t : Transport) : Transport :=
  mkTransport (events t) (gs t) (peerID t) (graphsyncRequestMap t)
    (channelIDMap t) (contextCancelMap t) (pending t)
    (requestorCancelledMap t) (channelXferStarted t) v (stores t)
    (supportedExtensions t) (unregisterFuncs t) (completedRequestListener t)
    (completedResponseListener t) (nextID t).

Definition set_stores (v : gset ChannelID) (t : Transport) : Transport :=
  mkTransport (events t) (gs t) (peerID t) (graphsyncRequestMap t)
    (channelIDMap t) (contextCancelMap t) (pending t)
    (requestorCancelledMap t) (channelXferStarted t) (pendingExtensions t) v
    (supportedExtensions t) (unregisterFuncs t) (completedRequestListener t)
    (completedResponseListener t) (nextID t).

Definition set_unregisterFuncs (v : list HookKind) (t : Transport)
  : Transport :=
  mkTransport (events t) (gs t) (peerID t) (graphsyncRequestMap t)
    (channelIDMap t) (contextCancelMap t) (pending t)
    (requestorCancelledMap t) (channelXferStarted t) (pendingExtensions t)
    (stores t) (supportedExtensions t) v (completedRequestListener t)
    (completedResponseListener t) (nextID t).

Definition set_nextID (v : nat) (t : Transport) : Transport :=
  mkTransport (events t) (gs t) (peerID t) (graphsyncRequestMap t)
    (channelIDMap t) (contextCancelMap t) (pending t)
    (requestorCancelledMap t) (channelXferStarted t) (pendingExtensions t)
    (stores t) (supportedExtensions t) (unregisterFuncs t)
    (completedRequestListener t) (completedResponseListener t) v.

(** Modelled from the spec: the extension package and graphsync's constants
    are not among the sources.  The spec has two named extension versions,
    newest first ([extension.ExtensionDataTransfer1_1], then
    [extension.ExtensionDataTransfer1_0]) and the engine-defined
    [do-not-send-cids] extension ([graphsync.ExtensionDoNotSendCIDs]). *)
Definition ExtensionDataTransfer1_1 : ExtensionName := "fil/data-transfer/1.1".
Definition ExtensionDataTransfer1_0 : ExtensionName := "fil/data-transfer".
Definition ExtensionDoNotSendCIDs : ExtensionName := "graphsync/do-not-send-cids".

Definition defaultSupportedExtensions : list ExtensionName :=
  [ExtensionDataTransfer1_1; ExtensionDataTransfer1_0].

(** The constants of the cancel-and-reopen wait, in milliseconds. *)
Definition minGSCancelWait : Z := 100.
Definition maxGSCancelWait : Z := 1000.

(** [NewTransport], before any option is applied. *)
Definition NewTransport (peerID : peer_ID) (gs : EngineCall -> option error)
  : Transport :=
  mkTransport None gs peerID ∅ ∅ ∅ ∅ ∅ ∅ ∅ ∅ defaultSupportedExtensions []
    false false 0.

(** ** The transport *)

Section Transport.

(** The extension codec ([extension.GetTransferData] and
    [extension.ToExtensionData]), [ChannelID.String] and
    [cidset.EncodeCidSet] live outside the sources: the transport is
    parameterised by them.  Results are Go pairs: a value and an error. *)
Variable GetTransferData : list ExtensionData -> option Message * option error.
Variable ToExtensionData :
  Message -> list ExtensionName -> list ExtensionData * option error.
Variable ChannelID_String : ChannelID -> string.
Variable EncodeCidSet : gset Cid -> list Byte.byte * option error.

(** The name ["data-transfer-" + chid.String()] of a persistence option. *)
Definition persistenceOption (chid : ChannelID) : string :=
  "data-transfer-" +:+ ChannelID_String chid.

Definition isPause (err : option error) : bool :=
  bool_decide (err = Some ErrPause).

(** [err != nil && err != datatransfer.ErrPause] *)
Definition isFatal (err : option error) : bool :=
  bool_decide (err ≠ None) && negb (isPause err).

(** A method call on a nil [t.events] panics; the trace then ends. *)
Definition panic : list Call := [Panic].

(** *** The hooks *)

(** [gsOutgoingRequestHook] *)
Definition gsOutgoingRequestHook (t : Transport) (p : peer_ID)
  (request : RequestData) : Transport * list Call :=
  match fst (GetTransferData (req_exts request)) with
  | None => (t, [])
  | Some message =>
    match events t with
    | None => (t, panic)
    | Some h =>
      let initiator := if IsRequest message then peerID t else p in
      let responder := if IsRequest message then p else peerID t in
      let chid := mkChannelID initiator responder (MsgTransferID message) in
      let err := OnChannelOpened h chid in
      let key := mkKey (req_ID request) (peerID t) in
      let t1 :=
        match err with
        | None =>
          set_channelIDMap (<[chid := key]> (channelIDMap t))
            (set_graphsyncRequestMap
               (<[key := chid]> (graphsyncRequestMap t)) t)
        | Some _ => t
        end in
      let closing :=
        match pending t1 !! chid with
        | Some l => (set_pending (delete chid (pending t1)) t1, [CloseLatch l])
        | None => (t1, [])
        end in
      let use_store :=
        if decide (chid ∈ stores t)
        then [Act (UsePersistenceOption (persistenceOption chid))] else [] in
      (fst closing,
       [Ev (EvChannelOpened chid); Lock] ++ snd closing ++ use_store ++ [Unlock])
    end
  end.

(** [gsIncomingBlockHook] *)
Definition gsIncomingBlockHook (t : Transport) (p : peer_ID)
  (response : ResponseData) (block : BlockData) : Transport * list Call :=
  match graphsyncRequestMap t !! mkKey (resp_RequestID response) (peerID t) with
  | None => (t, [RLock; RUnlock])
  | Some chid =>
    match events t with
    | None => (t, [RLock; RUnlock] ++ panic)
    | Some h =>
      let err := OnDataReceived h chid (blk_Link block) (BlockSize block) in
      let ev := Ev (EvDataReceived chid (blk_Link block) (BlockSize block)) in
      if isFatal err
      then (t, [RLock; RUnlock; ev; Act (TerminateWithError err)])
      else if isPause err
      then (t, [RLock; RUnlock; ev; Act PauseRequest])
      else (t, [RLock; RUnlock; ev])
    end
  end.

(** [gsBlockSentHook] *)
Definition gsBlockSentHook (t : Transport) (p : peer_ID)
  (request : RequestData) (block : BlockData) : Transport * list Call :=
  if (BlockSizeOnWire block =? 0)%N then (t, [])
  else
    match graphsyncRequestMap t !! mkKey (req_ID request) p with
    | None => (t, [RLock; RUnlock])
    | Some chid =>
      match events t with
      | None => (t, [RLock; RUnlock] ++ panic)
      | Some h =>
        (t, [RLock; RUnlock;
             Ev (EvDataSent chid (blk_Link block) (BlockSize block))])
      end
    end.

(** [gsOutgoingBlockHook] *)
Definition gsOutgoingBlockHook (t : Transport) (p : peer_ID)
  (request : RequestData) (block : BlockData) : Transport * list Call :=
  if (BlockSizeOnWire block =? 0)%N then (t, [])
  else
    match graphsyncRequestMap t !! mkKey (req_ID request) p with
    | None => (t, [RLock; RUnlock])
    | Some chid =>
      match events t with
      | None => (t, [RLock; RUnlock] ++ panic)
      | Some h =>
        let '(msg, err) :=
          OnDataQueued h chid (blk_Link block) (BlockSize block) in
        let ev := Ev (EvDataQueued chid (blk_Link block) (BlockSize block)) in
        if isFatal err
        then (t, [RLock; RUnlock; ev; Act (TerminateWithError err)])
        else
          let pause := if isPause err then [Act PauseResponse] else [] in
          match msg with
          | None => (t, [RLock; RUnlock; ev] ++ pause)
          | Some m =>
            match ToExtensionData m (supportedExtensions t) with
            | (_, Some err') =>
              (t, [RLock; RUnlock; ev] ++ pause
                    ++ [Act (TerminateWithError (Some err'))])
            | (extensions, None) =>
              (t, [RLock; RUnlock; ev] ++ pause
                    ++ map (fun e => Act (SendExtensionData e)) extensions)
            end
          end
      end
    end.

(** [gsReqRecdHook], the incoming-request hook. *)
Definition gsReqRecdHook (t : Transport) (p : peer_ID)
  (request : RequestData) : Transport * list Call :=
  match GetTransferData (req_exts request) with
  | (_, Some err) => (t, [Act (TerminateWithError (Some err))])
  | (None, None) => (t, [])
  | (Some msg, None) =>
    match events t with
    | None => (t, panic)
    | Some h =>
      (* the channel, the session's answer and the callback made *)
      let '(chid, responseMessage, err, ev) :=
        match msg with
        | MsgRequest req =>
          let chid := mkChannelID p (peerID t) (MsgTransferID msg) in
          let '(rm, err) := OnRequestReceived h chid req in
          (chid, rm, err, Ev (EvRequestReceived chid req))
        | MsgResponse resp =>
          let chid := mkChannelID (peerID t) p (MsgTransferID msg) in
          (chid, None, OnResponseReceived h chid resp,
           Ev (EvResponseReceived chid resp))
        end in
      (* if responseMessage != nil *)
      let serialized :=
        match responseMessage with
        | None => ([], None)
        | Some rm => ToExtensionData rm (supportedExtensions t)
        end in
      match serialized with
      | (_, Some extensionErr) => (t, [ev; Act (TerminateWithError err)])
      | (extensions, None) =>
        let sent := map (fun e => Act (SendExtensionData e)) extensions in
        if isFatal err
        then (t, [ev] ++ sent ++ [Act (TerminateWithError err)])
        else
          let paused := isPause err in
          let pause1 := if paused then [Act PauseResponse] else [] in
          (* t.dataLock.Lock() *)
          let force :=
            match channelXferStarted t !! chid with
            | Some hasXferStarted => negb hasXferStarted && negb paused
            | None => false
            end in
          let paused' := paused || force in
          let pause2 := if force then [Act PauseResponse] else [] in
          let t1 :=
            set_channelXferStarted
              (<[chid := negb paused']> (channelXferStarted t)) t in
          let gsKey := mkKey (req_ID request) p in
          let replay :=
            if decide (chid ∈ requestorCancelledMap t1)
            then
              (set_pendingExtensions (delete chid (pendingExtensions t1))
                 (set_requestorCancelledMap
                    (requestorCancelledMap t1 ∖ {[chid]}) t1),
               map (fun e => Act (SendExtensionData e))
                 (default [] (pendingExtensions t1 !! chid)))
            else (t1, []) in
          let t2 := fst replay in
          let t3 :=
            set_channelIDMap (<[chid := gsKey]> (channelIDMap t2))
              (set_graphsyncRequestMap
                 (<[gsKey := chid]> (graphsyncRequestMap t2)) t2) in
          let use_store :=
            if decide (chid ∈ stores t3)
            then [Act (UsePersistenceOption (persistenceOption chid))]
            else [] in
          (t3, [ev] ++ sent ++ pause1 ++ [Lock] ++ pause2 ++ snd replay
                 ++ use_store ++ [Unlock; Act ValidateRequest])
      end
    end
  end.

(** [gsResponseStatusCodes] *)
Definition gsResponseStatusCodes (code : ResponseStatusCode) : option string :=
  match code with
  | RequestAcknowledged => Some "RequestAcknowledged"
  | AdditionalPeers => Some "AdditionalPeers"
  | NotEnoughGas => Some "NotEnoughGas"
  | OtherProtocol => Some "OtherProtocol"
  | PartialResponse => Some "PartialResponse"
  | RequestPaused => Some "RequestPaused"
  | RequestCompletedFull => Some "RequestCompletedFull"
  | RequestCompletedPartial => Some "RequestCompletedPartial"
  | RequestRejected => Some "RequestRejected"
  | RequestFailedBusy => Some "RequestFailedBusy"
  | RequestFailedUnknown => Some "RequestFailedUnknown"
  | RequestFailedLegal => Some "RequestFailedLegal"
  | RequestFailedContentNotFound => Some "RequestFailedContentNotFound"
  | RequestCancelled => Some "RequestCancelled"
  | UnlistedStatus _ => None
  end.

(** [gsResponseStatusCodeString] *)
Definition gsResponseStatusCodeString (code : ResponseStatusCode) : string :=
  match gsResponseStatusCodes code with
  | Some str => str
  | None => default "" (gsResponseStatusCodes RequestFailedUnknown)
  end.

(** [gsCompletedResponseListener] *)
Definition gsCompletedResponseListener (t : Transport) (p : peer_ID)
  (request : RequestData) (status : ResponseStatusCode)
  : Transport * list Call :=
  match graphsyncRequestMap t !! mkKey (req_ID request) p with
  | None => (t, [RLock; RUnlock])
  | Some chid =>
    if decide (status = RequestCancelled) then (t, [RLock; RUnlock])
    else
      let completeErr :=
        if decide (status ≠ RequestCompletedFull)
        then Some (Errorf
          "graphsync response to peer %s did not complete: response status code %s"
          [p; gsResponseStatusCodeString status])
        else None in
      let listener :=
        if completedResponseListener t
        then [CompletedResponseListenerCall chid] else [] in
      match events t with
      | None => (t, [RLock; RUnlock] ++ listener ++ panic)
      | Some h =>
        (t, [RLock; RUnlock] ++ listener
              ++ [Ev (EvChannelCompleted chid completeErr)])
      end
  end.

(** [cleanupChannel] *)
Definition cleanupChannel (t : Transport) (chid : ChannelID)
  (gsKey : graphsyncKey) : Transport * list Call :=
  let t1 := set_channelIDMap (delete chid (channelIDMap t)) t in
  let t2 := set_contextCancelMap (delete chid (contextCancelMap t1)) t1 in
  let t3 := set_pending (delete chid (pending t2)) t2 in
  let t4 := set_graphsyncRequestMap (delete gsKey (graphsyncRequestMap t3)) t3 in
  let t5 := set_pendingExtensions (delete chid (pendingExtensions t4)) t4 in
  let t6 :=
    set_requestorCancelledMap (requestorCancelledMap t5 ∖ {[chid]}) t5 in
  let t7 := set_channelXferStarted (delete chid (channelXferStarted t6)) t6 in
  let unregister :=
    if decide (chid ∈ stores t7)
    then [Gs (GsUnregisterPersistenceOption (persistenceOption chid))]
    else [] in
  (set_stores (stores t7 ∖ {[chid]}) t7, unregister).

(** [processExtension]: the message and error it returns, and the session
    callback it made. *)
Definition processExtension (t : Transport) (h : EventsHandler)
  (chid : ChannelID) (gsMsg : list ExtensionData) (p : peer_ID)
  : option Message * option error * list Call :=
  match GetTransferData gsMsg with
  | (_, Some err) => (None, Some err, [])
  | (None, None) => (None, None, [])
  | (Some (MsgRequest dtRequest as msg), None) =>
    if decide (chid ≠ mkChannelID p (peerID t) (MsgTransferID msg))
    then (None, Some (ErrorNew "received request on response channel"), [])
    else (OnRequestReceived h chid dtRequest,
          [Ev (EvRequestReceived chid dtRequest)])
  | (Some (MsgResponse dtResponse as msg), None) =>
    if decide (chid ≠ mkChannelID (peerID t) p (MsgTransferID msg))
    then (None, Some (ErrorNew "received response on request channel"), [])
    else (None, OnResponseReceived h chid dtResponse,
          [Ev (EvResponseReceived chid dtResponse)])
  end.

(** [gsRequestUpdatedHook] *)
Definition gsRequestUpdatedHook (t : Transport) (p : peer_ID)
  (request update : RequestData) : Transport * list Call :=
  match graphsyncRequestMap t !! mkKey (req_ID request) p with
  | None => (t, [RLock; RUnlock])
  | Some chid =>
    match events t with
    | None => (t, [RLock; RUnlock] ++ panic)
    | Some h =>
      let '(responseMessage, err, evs) :=
        processExtension t h chid (req_exts update) p in
      let serialized :=
        match responseMessage with
        | None => ([], None)
        | Some rm => ToExtensionData rm (supportedExtensions t)
        end in
      match serialized with
      | (_, Some extensionErr) =>
        (t, [RLock; RUnlock] ++ evs ++ [Act (TerminateWithError err)])
      | (extensions, None) =>
        (t, [RLock; RUnlock] ++ evs
              ++ map (fun e => Act (SendExtensionData e)) extensions
              ++ (if isFatal err then [Act (TerminateWithError err)] else []))
      end
    end
  end.

(** [gsIncomingResponseHook] *)
Definition gsIncomingResponseHook (t : Transport) (p : peer_ID)
  (response : ResponseData) : Transport * list Call :=
  match graphsyncRequestMap t !! mkKey (resp_RequestID response) (peerID t) with
  | None => (t, [RLock; RUnlock])
  | Some chid =>
    match events t with
    | None => (t, [RLock; RUnlock] ++ panic)
    | Some h =>
      let '(responseMessage, err, evs) :=
        processExtension t h chid (resp_exts response) p in
      let serialized :=
        match responseMessage with
        | None => ([], None)
        | Some rm => ToExtensionData rm (supportedExtensions t)
        end in
      match serialized with
      | (_, Some extensionErr) =>
        (t, [RLock; RUnlock] ++ evs ++ [Act (TerminateWithError err)])
      | (extensions, None) =>
        (t, [RLock; RUnlock] ++ evs
              ++ map (fun e => Act (UpdateRequestWithExtensions e)) extensions
              ++ (if bool_decide (err ≠ None)
                  then [Act (TerminateWithError err)] else []))
      end
    end
  end.

(** [gsRequestorCancelledListener] *)
Definition gsRequestorCancelledListener (t : Transport) (p : peer_ID)
  (request : RequestData) : Transport * list Call :=
  match graphsyncRequestMap t !! mkKey (req_ID request) p with
  | Some chid =>
    (set_requestorCancelledMap ({[chid]} ∪ requestorCancelledMap t) t,
     [Lock; Unlock])
  | None => (t, [Lock; Unlock])
  end.

(** [gsNetworkSendErrorListener] *)
Definition gsNetworkSendErrorListener (t : Transport) (p : peer_ID)
  (request : RequestData) (gserr : error) : Transport * list Call :=
  let found :=
    match graphsyncRequestMap t !! mkKey (req_ID request) p with
    | Some chid => Some chid
    | None => graphsyncRequestMap t !! mkKey (req_ID request) (peerID t)
    end in
  match found with
  | None => (t, [Lock; Unlock])
  | Some chid =>
    match events t with
    | None => (t, [Lock] ++ panic ++ [Unlock])
    | Some h => (t, [Lock; Ev (EvSendDataError chid gserr); Unlock])
    end
  end.

(** [gsNetworkReceiveErrorListener].  Go ranges over the map in an
    unspecified order; the embedding takes the order of [map_to_list]. *)
Definition gsNetworkReceiveErrorListener (t : Transport) (p : peer_ID)
  (gserr : error) : Transport * list Call :=
  let hit :=
    filter (fun chid => ¬ (Initiator chid ≠ p ∧ Responder chid ≠ p))
      (map snd (map_to_list (graphsyncRequestMap t))) in
  match hit, events t with
  | [], _ => (t, [Lock; Unlock])
  | _ :: _, None => (t, [Lock] ++ panic ++ [Unlock])
  | _ :: _, Some h =>
    (t, [Lock] ++ map (fun chid => Ev (EvReceiveDataError chid gserr)) hit
          ++ [Unlock])
  end.

(** *** The request executor *)

(** [consumeResponses]: the progress stream is drained, then the error
    stream; the last error read is returned. *)
Definition consumeResponses (errChan : list error) : option error :=
  last errChan.

(** [executeGsRequest].  [internalCtxErr] is [internalCtx.Err()] when the
    streams are drained; [onComplete] closes the [completed] latch of the
    cancel handle and is deferred, so it ends every trace. *)
Definition executeGsRequest (t : Transport) (internalCtxErr : option error)
  (channelID : ChannelID) (errChan : list error) (onComplete : LatchID)
  : list Call :=
  let lastError := consumeResponses errChan in
  let body :=
    match lastError with
    | Some RequestContextCancelledErr =>
      match events t with
      | None => panic
      | Some h =>
        [Ev (EvRequestTimedOut channelID
               (Errorf "graphsync request context cancelled" []))]
      end
    | Some RequestCancelledErr => []
    | _ =>
      match internalCtxErr with
      | Some _ => []
      | None =>
        let completeErr :=
          match lastError with
          | Some e =>
            Some (ErrorfW "graphsync request failed to complete: %w" e)
          | None => None
          end in
        let listener :=
          if completedRequestListener t
          then [CompletedRequestListenerCall channelID] else [] in
        match events t with
        | None => listener ++ panic
        | Some h => listener ++ [Ev (EvChannelCompleted channelID completeErr)]
        end
      end
    end in
  body ++ [CloseLatch onComplete].

(** *** Waiting *)

(** A [select] whose cases become ready at known instants (in
    milliseconds; [None]: never).  A case that is ready before [now] is
    ready at [now].  The cases ready earliest can be chosen; when several
    are, Go picks one of them at random, so all of them are returned. *)
Definition select {A} (now : Z) (cases : list (option Z * A)) : list (Z * A) :=
  let armed :=
    omap (fun c => (fun i => (Z.max now i, snd c)) <$> fst c) cases in
  match armed with
  | [] => []
  | c :: cs =>
    let first := foldr Z.min (fst c) (map fst cs) in
    filter (fun c => fst c = first) armed
  end.

(** A [context.Context]: the instant at which it is done, if ever, and
    the error it then reports. *)
Record Context := mkContext {
  ctx_Done : option Z;
  ctx_Err : error
}.

Inductive cancelWake := LatchCompleted | CeilingReached | CallerDone.

(** [waitForCancelComplete], entered at [now]; [completed] is the instant
    at which the latch is closed.  Each outcome is the instant of the
    return and the error returned. *)
Definition waitForCancelComplete (now : Z) (ctx : Context)
  (completed : option Z) : list (Z * option error) :=
  flat_map
    (fun w1 =>
       match snd w1 with
       | LatchCompleted =>
         map (fun w2 =>
                (fst w2, if snd w2 : bool then Some (ctx_Err ctx) else None))
           (select (fst w1)
              [(Some (fst w1 + minGSCancelWait), false); (ctx_Done ctx, true)])
       | CeilingReached => [(fst w1, None)]
       | CallerDone => [(fst w1, Some (ctx_Err ctx))]
       end)
    (select now
       [(completed, LatchCompleted);
        (Some (now + maxGSCancelWait), CeilingReached);
        (ctx_Done ctx, CallerDone)]).

(** *** The façade *)

(** [OpenChannel], called at instant [now]; [closedAt l] is the instant at
    which latch [l] is closed.  No other goroutine touches the registry
    while the call waits.  Each outcome is the error returned, the registry
    and the trace; the deferred [unlockChannel] ends every trace that took
    the channel lock. *)
Definition OpenChannel (t : Transport) (now : Z) (ctx : Context)
  (closedAt : LatchID -> option Z) (dataSender : peer_ID)
  (channelID : ChannelID) (root : Link) (stor : Node)
  (doNotSendCids : list Cid) (msg : Message)
  : list (option error * Transport * list Call) :=
  match events t with
  | None => [(Some ErrHandlerNotSet, t, [])]
  | Some _ =>
    match ToExtensionData msg (supportedExtensions t) with
    | (_, Some err) => [(Some err, t, [])]
    | (exts, None) =>
      (* the cancel-and-reopen path *)
      let waits :=
        match contextCancelMap t !! channelID with
        | Some cancelRQ =>
          map (fun w =>
                 (snd w,
                  [ChanLock channelID; Lock; CancelCtx (cancel cancelRQ);
                   Unlock]))
            (waitForCancelComplete now ctx (closedAt (completed cancelRQ)))
        | None => [(None, [ChanLock channelID])]
        end in
      map (fun w =>
             match fst w with
             | Some err => (Some err, t, snd w ++ [ChanUnlock channelID])
             | None =>
               let pendingLatch := nextID t in
               let internalCtx := S (nextID t) in
               let cancelRQ := mkCancelRequest internalCtx (S (S (nextID t))) in
               let t1 :=
                 set_nextID (S (S (S (nextID t))))
                   (set_contextCancelMap
                      (<[channelID := cancelRQ]> (contextCancelMap t))
                      (set_pending
                         (<[channelID := pendingLatch]> (pending t)) t)) in
               let opened := snd w ++ [Lock; Unlock] in
               let doNotSend :=
                 match doNotSendCids with
                 | [] => ([], None)
                 | _ :: _ =>
                   let bz := EncodeCidSet (list_to_set doNotSendCids) in
                   ([mkExt ExtensionDoNotSendCIDs (fst bz)], snd bz)
                 end in
               match snd doNotSend with
               | Some err =>
                 (Some (ErrorfW "failed to encode cid set: %w" err), t1,
                  opened ++ [ChanUnlock channelID])
               | None =>
                 (None, t1,
                  opened
                    ++ [Gs (GsRequest internalCtx dataSender root stor
                              (exts ++ fst doNotSend));
                        GoExecuteGsRequest internalCtx channelID
                          (completed cancelRQ);
                        ChanUnlock channelID])
               end
             end)
        waits
    end
  end.

(** What wakes a caller blocked on the pending latch: its context, or the
    latch, closed by the outgoing-request hook, in which case the caller
    finds the registry as other goroutines left it. *)
Inductive wake :=
| CtxDone
| LatchClosed (t' : Transport).

(** [gsKeyFromChannelID].  The loop runs once per entry of [ws]; [None]
    means that the caller is still blocked when [ws] is used up. *)
Fixpoint gsKeyFromChannelID (t : Transport) (ws : list wake)
  (chid : ChannelID)
  : option (graphsyncKey * option error * Transport * list Call) :=
  match channelIDMap t !! chid with
  | Some gsKey => Some (gsKey, None, t, [RLock; RUnlock])
  | None =>
    match pending t !! chid with
    | None => Some (zeroKey, Some ErrChannelNotFound, t, [RLock; RUnlock])
    | Some _ =>
      match ws with
      | [] => None
      | CtxDone :: _ =>
        Some (zeroKey, Some ErrChannelNotFound, t, [RLock; RUnlock])
      | LatchClosed t' :: ws' =>
        match gsKeyFromChannelID t' ws' chid with
        | Some (k, e, t'', tr) => Some (k, e, t'', [RLock; RUnlock] ++ tr)
        | None => None
        end
      end
    end
  end.

(** [PauseChannel] *)
Definition PauseChannel (t : Transport) (ws : list wake) (chid : ChannelID)
  : option (option error * Transport * list Call) :=
  match events t with
  | None => Some (Some ErrHandlerNotSet, t, [])
  | Some _ =>
    match gsKeyFromChannelID t ws chid with
    | None => None
    | Some (_, Some err, t', tr) => Some (Some err, t', tr)
    | Some (gsKey, None, t', tr) =>
      if decide (p gsKey = peerID t')
      then
        let c := GsPauseRequest (requestID gsKey) in
        Some (gs t' c, t', tr ++ [Gs c])
      else if decide (chid ∈ requestorCancelledMap t')
      then Some (None, t', tr ++ [RLock; RUnlock])
      else
        let c := GsPauseResponse (p gsKey) (requestID gsKey) in
        Some (gs t' c, t', tr ++ [RLock; Gs c; RUnlock])
    end
  end.

(** [ResumeChannel]; [msg] may be nil. *)
Definition ResumeChannel (t : Transport) (ws : list wake)
  (msg : option Message) (chid : ChannelID)
  : option (option error * Transport * list Call) :=
  match events t with
  | None => Some (Some ErrHandlerNotSet, t, [])
  | Some _ =>
    match gsKeyFromChannelID t ws chid with
    | None => None
    | Some (_, Some err, t', tr) => Some (Some err, t', tr)
    | Some (gsKey, None, t', tr) =>
      let serialized :=
        match msg with
        | None => ([], None)
        | Some m => ToExtensionData m (supportedExtensions t')
        end in
      match serialized with
      | (_, Some err) => Some (Some err, t', tr)
      | (extensions, None) =>
        if decide (p gsKey = peerID t')
        then
          let c := GsUnpauseRequest (requestID gsKey) extensions in
          Some (gs t' c, t', tr ++ [Gs c])
        else if decide (chid ∈ requestorCancelledMap t')
        then
          Some (None,
                set_pendingExtensions
                  (<[chid := default [] (pendingExtensions t' !! chid)
                               ++ extensions]> (pendingExtensions t')) t',
                tr ++ [Lock; Unlock])
        else
          let c := GsUnpauseResponse (p gsKey) (requestID gsKey) extensions in
          Some (gs t' c,
                set_channelXferStarted
                  (<[chid := true]> (channelXferStarted t')) t',
                tr ++ [Lock; Gs c; Unlock])
      end
    end
  end.

(** [CloseChannel] *)
Definition CloseChannel (t : Transport) (ws : list wake) (chid : ChannelID)
  : option (option error * Transport * list Call) :=
  match events t with
  | None => Some (Some ErrHandlerNotSet, t, [])
  | Some _ =>
    match gsKeyFromChannelID t ws chid with
    | None => None
    | Some (_, Some err, t', tr) => Some (Some err, t', tr)
    | Some (gsKey, None, t', tr) =>
      if decide (p gsKey = peerID t')
      then
        match contextCancelMap t' !! chid with
        | None => Some (Some ErrChannelNotFound, t', tr ++ [RLock; RUnlock])
        | Some cancelRQ =>
          Some (None, t', tr ++ [RLock; RUnlock; CancelCtx (cancel cancelRQ)])
        end
      else if decide (chid ∈ requestorCancelledMap t')
      then Some (None, t', tr ++ [Lock; Unlock])
      else
        let c := GsCancelResponse (p gsKey) (requestID gsKey) in
        Some (gs t' c, t', tr ++ [Lock; Unlock; Gs c])
    end
  end.

(** [CleanupChannel] *)
Definition CleanupChannel (t : Transport) (chid : ChannelID)
  : Transport * list Call :=
  match channelIDMap t !! chid with
  | Some gsKey =>
    let r := cleanupChannel t chid gsKey in
    (fst r, [Lock] ++ snd r ++ [Unlock])
  | None => (t, [Lock; Unlock])
  end.

(** The hooks in the order in which [SetEventHandler] registers them. *)
Definition registeredHooks : list HookKind :=
  [IncomingRequestHook; CompletedResponseListener; IncomingBlockHook;
   OutgoingBlockHook; BlockSentListener; OutgoingRequestHook;
   IncomingResponseHook; RequestUpdatedHook; RequestorCancelledListener;
   NetworkErrorListener; ReceiverNetworkErrorListener].

(** [SetEventHandler] *)
Definition SetEventHandler (t : Transport) (h : EventsHandler)
  : option error * Transport * list Call :=
  match events t with
  | Some _ => (Some ErrHandlerAlreadySet, t, [])
  | None =>
    (None,
     set_unregisterFuncs (unregisterFuncs t ++ registeredHooks)
       (set_events (Some h) t),
     map (fun k => Gs (GsRegisterHook k)) registeredHooks)
  end.

(** [Shutdown].  Go ranges over [contextCancelMap] in an unspecified
    order; the embedding takes the order of [map_to_list]. *)
Definition Shutdown (t : Transport) : option error * Transport * list Call :=
  (None, t,
   map UnregisterHook (unregisterFuncs t)
     ++ [RLock]
     ++ map (fun e => CancelCtx (cancel (snd e)))
          (map_to_list (contextCancelMap t))
     ++ [RUnlock]).

(** [UseStore]; the loader and the storer are handed to the engine. *)
Definition UseStore (t : Transport) (channelID : ChannelID)
  : option error * Transport * list Call :=
  if decide (channelID ∈ stores t) then (None, t, [Lock; Unlock])
  else
    let c := GsRegisterPersistenceOption (persistenceOption channelID) in
    match gs t c with
    | Some err => (Some err, t, [Lock; Gs c; Unlock])
    | None =>
      (None, set_stores ({[channelID]} ∪ stores t) t, [Lock; Gs c; Unlock])
    end.

End Transport.

(** ** The restart coordinator ([impl/restart.go]) *)

Module Restart.

(** A voucher: its type identifier and its content. *)
Record Voucher := mkVoucher {
  voucher_Type : string;
  voucher_Body : list Byte.byte
}.

(** [datatransfer.ChannelState], as far as the coordinator reads it. *)
Record ChannelState := mkChannelState {
  cs_ChannelID : ChannelID;
  cs_Voucher : Voucher;
  cs_BaseCID : Cid;
  cs_Selector : Node;
  cs_OtherParty : peer_ID -> peer_ID
}.

(** The messages the manager hands to the peer-to-peer messaging layer:
    [message.RestartRequest(chid)] and a data-transfer request. *)
Inductive NetMessage :=
| RestartRequest (chid : ChannelID)
| TransferRequest (req : Request).

(** What a restart does to its collaborators, in order. *)
Inductive Effect :=
| ValidateVoucher (sender : peer_ID) (req : Request) (isPull : bool)
                  (baseCid : Cid) (selector : Node)
| SendMessage (to : peer_ID) (msg : NetMessage).

Definition isSend (e : Effect) : bool :=
  match e with SendMessage _ _ => true | ValidateVoucher _ _ _ _ _ => false end.

Section Manager.

(** [encoding.Encode], the manager's [validateVoucher] (of which only the
    error is used) and the outcome of [dataTransferNetwork.SendMessage]
    are outside the sources. *)
Variable Encode : Voucher -> list Byte.byte * option error.
Variable validateVoucher :
  peer_ID -> Request -> bool -> Cid -> Node -> option error.
Variable networkSend : peer_ID -> NetMessage -> option error.

(** The manager's own peer. *)
Variable peerID : peer_ID.

(** [message.NewRequest], with the restart flag that [restart.go] passes
    as its second argument. *)
Definition NewRequest (id : TransferID) (isRestart isPull : bool)
  (vtype : string) (voucher : Voucher) (baseCid : Cid) (selector : Node)
  : option Request * option error :=
  match Encode voucher with
  | (_, Some err) => (None, Some (ErrorfW "Creating request: %w" err))
  | (vbytes, None) =>
    if decide (baseCid = cid_Undef)
    then (None, Some (Errorf "base CID must be defined" []))
    else
      (Some (mkRequest isPull isRestart vbytes selector (Some baseCid) vtype
               id false),
       None)
  end.

(** [validateRestartVoucher] *)
Definition validateRestartVoucher (channel : ChannelState) (isPull : bool)
  : option error * list Effect :=
  let chid := cs_ChannelID channel in
  match NewRequest (ID chid) false isPull (voucher_Type (cs_Voucher channel))
          (cs_Voucher channel) (cs_BaseCID channel) (cs_Selector channel) with
  | (_, Some err) => (Some err, [])
  | (None, None) => (None, [])
  | (Some req, None) =>
    let sender := cs_OtherParty channel peerID in
    (validateVoucher sender req isPull (cs_BaseCID channel)
       (cs_Selector channel),
     [ValidateVoucher sender req isPull (cs_BaseCID channel)
        (cs_Selector channel)])
  end.

(** [restartManagerPeerReceivePush] *)
Definition restartManagerPeerReceivePush (channel : ChannelState)
  : option error * list Effect :=
  match validateRestartVoucher channel false with
  | (Some err, effs) => (Some err, effs)
  | (None, effs) =>
    let req := RestartRequest (cs_ChannelID channel) in
    let to := cs_OtherParty channel peerID in
    (networkSend to req, effs ++ [SendMessage to req])
  end.

(** [restartManagerPeerReceivePull] *)
Definition restartManagerPeerReceivePull (channel : ChannelState)
  : option error * list Effect :=
  match validateRestartVoucher channel true with
  | (Some err, effs) => (Some err, effs)
  | (None, effs) =>
    let req := RestartRequest (cs_ChannelID channel) in
    let to := cs_OtherParty channel peerID in
    (networkSend to req, effs ++ [SendMessage to req])
  end.

End Manager.

End Restart.

(** ** Observable registry states *)

(** The operations of the transport: the façade and the eleven hooks.  A
    façade call that awaits the engine key either finds the registry
    settled or gives up because its context is done ([ctxDone]). *)
Inductive Op :=
| OpSetEventHandler (h : EventsHandler)
| OpOpenChannel (now : Z) (ctx : Context) (closedAt : LatchID -> option Z)
    (dataSender : peer_ID) (channelID : ChannelID) (root : Link) (stor : Node)
    (doNotSendCids : list Cid) (msg : Message)
| OpPauseChannel (ctxDone : bool) (chid : ChannelID)
| OpResumeChannel (ctxDone : bool) (msg : option Message) (chid : ChannelID)
| OpCloseChannel (ctxDone : bool) (chid : ChannelID)
| OpCleanupChannel (chid : ChannelID)
| OpUseStore (chid : ChannelID)
| OpShutdown
| OpOutgoingRequestHook (p : peer_ID) (request : RequestData)
| OpReqRecdHook (p : peer_ID) (request : RequestData)
| OpIncomingBlockHook (p : peer_ID) (response : ResponseData) (block : BlockData)
| OpOutgoingBlockHook (p : peer_ID) (request : RequestData) (block : BlockData)
| OpBlockSentHook (p : peer_ID) (request : RequestData) (block : BlockData)
| OpIncomingResponseHook (p : peer_ID) (response : ResponseData)
| OpRequestUpdatedHook (p : peer_ID) (request update : RequestData)
| OpCompletedResponseListener (p : peer_ID) (request : RequestData)
    (status : ResponseStatusCode)
| OpRequestorCancelledListener (p : peer_ID) (request : RequestData)
| OpNetworkSendErrorListener (p : peer_ID) (request : RequestData)
    (gserr : error)
| OpNetworkReceiveErrorListener (p : peer_ID) (gserr : error).

Section Observable.

Variable GetTransferData : list ExtensionData -> option Message * option error.
Variable ToExtensionData :
  Message -> list ExtensionName -> list ExtensionData * option error.
Variable ChannelID_String : ChannelID -> string.
Variable EncodeCidSet : gset Cid -> list Byte.byte * option error.

Definition wakes (ctxDone : bool) : list wake :=
  if ctxDone then [CtxDone] else [].

(** The registries an operation can leave behind. *)
Definition run (o : Op) (t : Transport) : list Transport :=
  match o with
  | OpSetEventHandler h => [snd (fst (SetEventHandler t h))]
  | OpOpenChannel now ctx closedAt dataSender channelID root stor dns msg =>
    map (fun r => snd (fst r))
      (OpenChannel ToExtensionData EncodeCidSet t now ctx closedAt dataSender
         channelID root stor dns msg)
  | OpPauseChannel d chid =>
    match PauseChannel t (wakes d) chid with
    | Some r => [snd (fst r)]
    | None => []
    end
  | OpResumeChannel d msg chid =>
    match ResumeChannel ToExtensionData t (wakes d) msg chid with
    | Some r => [snd (fst r)]
    | None => []
    end
  | OpCloseChannel d chid =>
    match CloseChannel t (wakes d) chid with
    | Some r => [snd (fst r)]
    | None => []
    end
  | OpCleanupChannel chid => [fst (CleanupChannel ChannelID_String t chid)]
  | OpUseStore chid => [snd (fst (UseStore ChannelID_String t chid))]
  | OpShutdown => [snd (fst (Shutdown t))]
  | OpOutgoingRequestHook p request =>
    [fst (gsOutgoingRequestHook GetTransferData ChannelID_String t p request)]
  | OpReqRecdHook p request =>
    [fst (gsReqRecdHook GetTransferData ToExtensionData ChannelID_String
            t p request)]
  | OpIncomingBlockHook p response block =>
    [fst (gsIncomingBlockHook t p response block)]
  | OpOutgoingBlockHook p request block =>
    [fst (gsOutgoingBlockHook ToExtensionData t p request block)]
  | OpBlockSentHook p request block =>
    [fst (gsBlockSentHook t p request block)]
  | OpIncomingResponseHook p response =>
    [fst (gsIncomingResponseHook GetTransferData ToExtensionData t p response)]
  | OpRequestUpdatedHook p request update =>
    [fst (gsRequestUpdatedHook GetTransferData ToExtensionData t p request
            update)]
  | OpCompletedResponseListener p request status =>
    [fst (gsCompletedResponseListener t p request status)]
  | OpRequestorCancelledListener p request =>
    [fst (gsRequestorCancelledListener t p request)]
  | OpNetworkSendErrorListener p request gserr =>
    [fst (gsNetworkSendErrorListener t p request gserr)]
  | OpNetworkReceiveErrorListener p gserr =>
    [fst (gsNetworkReceiveErrorListener t p gserr)]
  end.

(** The registry states that can be observed: a new transport, and what
    any operation leaves behind. *)
Inductive observable : Transport -> Prop :=
| observable_new peerID gs : observable (NewTransport peerID gs)
| observable_step o t t' :
    observable t -> In t' (run o t) -> observable t'.

(** The engine key a hook is about to install. *)
Definition installs (o : Op) (t : Transport) : option graphsyncKey :=
  match o with
  | OpOutgoingRequestHook _ request => Some (mkKey (req_ID request) (peerID t))
  | OpReqRecdHook p request => Some (mkKey (req_ID request) p)
  | _ => None
  end.

(** The engine numbers its requests afresh: a key about to be installed
    is not yet in the key-to-channel map. *)
Definition engine_key_fresh (o : Op) (t : Transport) : Prop :=
  match installs o t with
  | Some k => graphsyncRequestMap t !! k = None
  | None => True
  end.

(** The states observed when the engine never reuses a request key. *)
Inductive observable_fresh : Transport -> Prop :=
| observable_fresh_new peerID gs : observable_fresh (NewTransport peerID gs)
| observable_fresh_step o t t' :
    observable_fresh t -> engine_key_fresh o t -> In t' (run o t) ->
    observable_fresh t'.

End Observable.

(** [key(c)] and [channelOf(k)] are mutual inverses. *)
Definition mutual_inverses (t : Transport) : Prop :=
  (forall c k, channelIDMap t !! c = Some k ->
               graphsyncRequestMap t !! k = Some c) /\
  (forall k c, graphsyncRequestMap t !! k = Some c ->
               channelIDMap t !! c = Some k).

(** Every engine key of a channel leads back to the channel. *)
Definition keys_lead_back (t : Transport) : Prop :=
  forall c k, channelIDMap t !! c = Some k ->
              graphsyncRequestMap t !! k = Some c.

(** ** A concrete instance

    A small codec, a session that accepts everything and an engine whose
    calls succeed; the scenarios below run the transport on them. *)

Module Sample.

(** The codec writes a message as two bytes, the kind and the transfer
    number, once per supported extension; transfer numbers above 255 do
    not fit and make the payload malformed. *)
Definition malformed : error := ErrorNew "malformed payload".

Definition ToExtensionData (msg : Message) (names : list ExtensionName)
  : list ExtensionData * option error :=
  match Byte.of_N (MsgTransferID msg) with
  | None => ([], Some malformed)
  | Some b =>
    (map (fun n => mkExt n [if IsRequest msg then Byte.x00 else Byte.x01; b])
       names,
     None)
  end.

Definition blankRequest (id : N) : Request :=
  mkRequest true false [] "" None "" id false.

Definition decode (data : list Byte.byte) : option Message * option error :=
  match data with
  | [Byte.x00; b] => (Some (MsgRequest (blankRequest (Byte.to_N b))), None)
  | [Byte.x01; b] =>
    (Some (MsgResponse (mkResponse true (Byte.to_N b))), None)
  | _ => (None, Some malformed)
  end.

Definition GetTransferData (exts : list ExtensionData)
  : option Message * option error :=
  match
    List.find (fun e => bool_decide (Name e ∈ defaultSupportedExtensions)) exts
  with
  | Some e => decode (Data e)
  | None => (None, None)
  end.

Definition ChannelID_String (c : ChannelID) : string :=
  Initiator c +:+ "-" +:+ Responder c +:+ "-" +:+ pretty (ID c).

Definition EncodeCidSet (s : gset Cid) : list Byte.byte * option error :=
  ([], None).

(** An engine whose calls all succeed. *)
Definition engine (c : EngineCall) : option error := None.

(** A session that answers [OnRequestReceived] and [OnDataQueued] with
    [answer] and accepts everything else. *)
Definition session (answer : option Message * option error) : EventsHandler :=
  mkEvents (fun _ => None) (fun _ _ => answer) (fun _ _ => None)
    (fun _ _ _ => None) (fun _ _ _ => answer) (fun _ _ _ => None)
    (fun _ _ => None) (fun _ _ => None) (fun _ _ => None) (fun _ _ => None).

Definition self : peer_ID := "self".
Definition remote : peer_ID := "remote".

(** A transport bound to a session. *)
Definition bound (answer : option Message * option error) : Transport :=
  snd (fst (SetEventHandler (NewTransport self engine) (session answer))).

(** The pull channel 7 opened by this node, and two engine requests that
    carry its data-transfer request. *)
Definition pull7 : ChannelID := mkChannelID self remote 7%N.
Definition request7 : Message := MsgRequest (blankRequest 7%N).

Definition engineRequest (id : RequestID) : RequestData :=
  mkRequestData id (fst (ToExtensionData request7 defaultSupportedExtensions)).

(** The caller never gives up, and the executor of a cancelled request
    closes its latch after 50 ms. *)
Definition patient : Context := mkContext None ContextCanceled.
Definition closedAt (l : LatchID) : option Z := Some 50.

Definition open (t : Transport) : Transport :=
  match
    OpenChannel ToExtensionData EncodeCidSet t 0 patient closedAt remote pull7
      "root" "selector" [] request7
  with
  | r :: _ => snd (fst r)
  | [] => t
  end.

(** A response whose transfer number the codec cannot write. *)
Definition tooBig : Message := MsgResponse (mkResponse true 300%N).

(** The channel of a pull requested by the remote peer, and a transport
    whose registry knows one engine request for it. *)
Definition served7 : ChannelID := mkChannelID remote self 7%N.

Definition serving (answer : option Message * option error)
  (key : graphsyncKey) : Transport :=
  set_channelIDMap {[served7 := key]}
    (set_graphsyncRequestMap {[key := served7]} (bound answer)).

(** The responder has answered the pull and is still paused. *)
Definition pausedServing : Transport :=
  set_channelXferStarted {[served7 := false]}
    (serving (None, None) (mkKey 1 remote)).

(** The requestor has cancelled its engine request. *)
Definition cancelledServing : Transport :=
  fst (gsRequestorCancelledListener (serving (None, None) (mkKey 1 remote))
         remote (engineRequest 1)).

(** The response the session sends along when it resumes. *)
Definition accepted7 : Message := MsgResponse (mkResponse true 7%N).

Definition deferred7 : list ExtensionData :=
  fst (ToExtensionData accepted7 defaultSupportedExtensions).

(** The registry once [ResumeChannel] has queued that response. *)
Definition deferring : Transport :=
  set_pendingExtensions
    (<[served7 := default [] (pendingExtensions cancelledServing !! served7)
                    ++ deferred7]> (pendingExtensions cancelledServing))
    cancelledServing.

Definition block : BlockData := mkBlock "link" 1024%N 1024%N.

Definition reopen : Op :=
  OpOpenChannel 0 patient closedAt remote pull7 "root" "selector" [] request7.

(** A pull is opened and the outgoing-request hook fires for engine
    request 1; the pull is restarted, which cancels request 1, and the
    hook fires again, for engine request 2. *)
Definition requested : Transport := open (bound (None, None)).

Definition opened : Transport :=
  fst (gsOutgoingRequestHook GetTransferData ChannelID_String
         requested remote (engineRequest 1)).

Definition rerequested : Transport := open opened.

Definition restarted : Transport :=
  fst (gsOutgoingRequestHook GetTransferData ChannelID_String
         rerequested remote (engineRequest 2)).

End Sample.

(** ** Vocabulary of the properties *)

(** How one operation changes the two identifier maps; [ko] is the key
    the operation may install. *)
Inductive maps_change (ko : option graphsyncKey) (t t' : Transport) : Prop :=
| maps_same :
    channelIDMap t' = channelIDMap t ->
    graphsyncRequestMap t' = graphsyncRequestMap t ->
    maps_change ko t t'
| maps_installed c k :
    ko = Some k ->
    channelIDMap t' = <[c := k]> (channelIDMap t) ->
    graphsyncRequestMap t' = <[k := c]> (graphsyncRequestMap t) ->
    maps_change ko t t'
| maps_removed c k :
    channelIDMap t !! c = Some k ->
    channelIDMap t' = delete c (channelIDMap t) ->
    graphsyncRequestMap t' = delete k (graphsyncRequestMap t) ->
    maps_change ko t t'.


(** The session callbacks of a trace, in order. *)
Definition session_events (tr : list Call) : list Event :=
  omap (fun c => match c with Ev e => Some e | _ => None end) tr.

(** The error [executeGsRequest] builds for [OnRequestTimedOut]. *)
Definition timedOutErr : error :=
  Errorf "graphsync request context cancelled" [].

(** The error [gsCompletedResponseListener] builds for a status. *)
Definition statusErr (p : peer_ID) (status : ResponseStatusCode) : error :=
  Errorf
    "graphsync response to peer %s did not complete: response status code %s"
    [p; gsResponseStatusCodeString status].

(** The classification on the executor side, for a request whose streams
    ended with [errChan] while [internalCtx.Err()] was [ctxErr]. *)
Definition executor_classifies (t : Transport) : Prop :=
  forall ctxErr chid errChan latch,
    let evs := session_events (executeGsRequest t ctxErr chid errChan latch) in
    let lastError := consumeResponses errChan in
    (lastError = Some RequestContextCancelledErr ->
     evs = [EvRequestTimedOut chid timedOutErr]) /\
    (lastError = Some RequestCancelledErr -> evs = []) /\
    (lastError <> Some RequestContextCancelledErr ->
     lastError <> Some RequestCancelledErr ->
     (ctxErr <> None -> evs = []) /\
     (ctxErr = None ->
      exists err,
        evs = [EvChannelCompleted chid err] /\
        (err = None <-> lastError = None) /\
        (forall e, lastError = Some e ->
           err = Some (ErrorfW "graphsync request failed to complete: %w" e)))).

(** The classification on the responder side, for a request the registry
    knows. *)
Definition responder_classifies (t : Transport) : Prop :=
  forall p0 request status chid,
    graphsyncRequestMap t !! mkKey (req_ID request) p0 = Some chid ->
    let evs :=
      session_events (snd (gsCompletedResponseListener t p0 request status)) in
    (status = RequestCancelled -> evs = []) /\
    (status <> RequestCancelled ->
     exists err,
       evs = [EvChannelCompleted chid err] /\
       (err = None <-> status = RequestCompletedFull) /\
       (status <> RequestCompletedFull -> err = Some (statusErr p0 status))).


(** The wait as the spec words it, to compare with [waitForCancelComplete]:
    wait for the latch or the ceiling, then, in either case, sleep
    [minGSCancelWait]; the context aborts both waits. *)
Definition waitForCancelComplete_as_specified (now : Z) (ctx : Context)
  (completed : option Z) : list (Z * option error) :=
  flat_map
    (fun w1 =>
       match snd w1 with
       | LatchCompleted | CeilingReached =>
         map (fun w2 =>
                (fst w2, if snd w2 : bool then Some (ctx_Err ctx) else None))
           (select (fst w1)
              [(Some (fst w1 + minGSCancelWait), false); (ctx_Done ctx, true)])
       | CallerDone => [(fst w1, Some (ctx_Err ctx))]
       end)
    (select now
       [(completed, LatchCompleted);
        (Some (now + maxGSCancelWait), CeilingReached);
        (ctx_Done ctx, CallerDone)]).

(** The hook actions of a trace, in order. *)
Definition hook_actions (tr : list Call) : list HookAction :=
  omap (fun c => match c with Act a => Some a | _ => None end) tr.

#[global] Instance HookAction_eq_dec : EqDecision HookAction.
Proof. solve_decision. Defined.

(** The channel an incoming request belongs to and the session's answer
    to it, as [gsReqRecdHook] computes them. *)
Definition incomingChannel (t : Transport) (p : peer_ID) (msg : Message)
  : ChannelID :=
  match msg with
  | MsgRequest _ => mkChannelID p (peerID t) (MsgTransferID msg)
  | MsgResponse _ => mkChannelID (peerID t) p (MsgTransferID msg)
  end.

Definition incomingAnswer (h : EventsHandler) (t : Transport) (p : peer_ID)
  (msg : Message) : option Message * option error :=
  match msg with
  | MsgRequest req => OnRequestReceived h (incomingChannel t p msg) req
  | MsgResponse resp =>
    (None, OnResponseReceived h (incomingChannel t p msg) resp)
  end.

(** An invocation of the incoming-request hook that gets as far as the
    registry: the request carries our extension [msg], the session answers
    it with [rm] and with [err], which is nil or the pause sentinel, and
    [rm], if any, serializes to [exts]. *)
Record reaches_registry
  (GetTransferData : list ExtensionData -> option Message * option error)
  (ToExtensionData :
     Message -> list ExtensionName -> list ExtensionData * option error)
  (t : Transport) (p : peer_ID) (request : RequestData) (msg : Message)
  (rm : option Message) (err : option error) (exts : list ExtensionData)
  : Prop := mkReaches {
  reaches_ours : GetTransferData (req_exts request) = (Some msg, None);
  reaches_answer :
    exists h, events t = Some h /\ incomingAnswer h t p msg = (rm, err);
  reaches_not_fatal : err = None \/ err = Some ErrPause;
  reaches_serialized :
    match rm with
    | Some m => ToExtensionData m (supportedExtensions t)
    | None => ([], None)
    end = (exts, None)
}.

(** The response is paused by this hook invocation. *)
Definition pauses_response (tr : list Call) : bool :=
  bool_decide (PauseResponse ∈ hook_actions tr).

(** The trace that sends a list of extensions, in order. *)
Definition sends (exts : list ExtensionData) : list Call :=
  map (fun e => Act (SendExtensionData e)) exts.

(** The engine calls of a trace, in order. *)
Definition engine_calls (tr : list Call) : list EngineCall :=
  omap (fun c => match c with Gs c => Some c | _ => None end) tr.


(** Revalidation of the voucher fails with [e]: the original request
    cannot be reconstructed, or the validator rejects it. *)
Definition revalidation_fails
  (Encode : Restart.Voucher -> list Byte.byte * option error)
  (validateVoucher : peer_ID -> Request -> bool -> Cid -> Node -> option error)
  (peerID : peer_ID) (channel : Restart.ChannelState) (isPull : bool)
  (e : error) : Prop :=
  let rebuilt :=
    Restart.NewRequest Encode (ID (Restart.cs_ChannelID channel)) false isPull
      (Restart.voucher_Type (Restart.cs_Voucher channel))
      (Restart.cs_Voucher channel) (Restart.cs_BaseCID channel)
      (Restart.cs_Selector channel) in
  snd rebuilt = Some e \/
  exists req,
    rebuilt = (Some req, None) /\
    validateVoucher (Restart.cs_OtherParty channel peerID) req isPull
      (Restart.cs_BaseCID channel) (Restart.cs_Selector channel) = Some e.

(** The messages a restart hands to the messaging layer. *)
Definition sent_messages (effs : list Restart.Effect) : list Restart.Effect :=
  filter (fun e => Restart.isSend e = true) effs.

(** The peer-received restart of either flavour. *)
Definition restartManagerPeerReceive
  (Encode : Restart.Voucher -> list Byte.byte * option error)
  (validateVoucher : peer_ID -> Request -> bool -> Cid -> Node -> option error)
  (networkSend : peer_ID -> Restart.NetMessage -> option error)
  (peerID : peer_ID) (isPull : bool) (channel : Restart.ChannelState)
  : option error * list Restart.Effect :=
  if isPull
  then Restart.restartManagerPeerReceivePull Encode validateVoucher networkSend
         peerID channel
  else Restart.restartManagerPeerReceivePush Encode validateVoucher networkSend
         peerID channel.

(** A manager for the scenarios: vouchers encode to their body, and the
    validator rejects vouchers of type ["forged"]. *)
Definition sampleEncode (v : Restart.Voucher) : list Byte.byte * option error :=
  (Restart.voucher_Body v, None).

Definition rejected : error := ErrorNew "voucher rejected".

Definition sampleValidateVoucher (sender : peer_ID) (req : Request)
  (isPull : bool) (baseCid : Cid) (selector : Node) : option error :=
  if decide (VTyp req = "forged") then Some rejected else None.

Definition sampleNetworkSend (to : peer_ID) (msg : Restart.NetMessage)
  : option error := None.

Definition forgedChannel : Restart.ChannelState :=
  Restart.mkChannelState Sample.served7 (Restart.mkVoucher "forged" [])
    "base" "selector" (fun _ => Sample.remote).

Definition rootlessChannel : Restart.ChannelState :=
  Restart.mkChannelState Sample.served7 (Restart.mkVoucher "deal" [])
    cid_Undef "selector" (fun _ => Sample.remote).

(** Whether a trace keeps the session callbacks out of the registry lock;
    [held] tells whether the lock is held when the trace starts. *)
Fixpoint callbacks_unlocked (held : bool) (tr : list Call) : bool :=
  match tr with
  | [] => true
  | Lock :: tr' | RLock :: tr' => callbacks_unlocked true tr'
  | Unlock :: tr' | RUnlock :: tr' => callbacks_unlocked false tr'
  | Ev _ :: tr' => negb held && callbacks_unlocked held tr'
  | _ :: tr' => callbacks_unlocked held tr'
  end.


(** A network error reported by the engine. *)
Definition connectionReset : error := ErrorNew "connection reset".

(** How one operation changes the pending latches and the cancel
    handles. *)
Inductive latches_change (t t' : Transport) : Prop :=
| latches_same :
    pending t' = pending t -> contextCancelMap t' = contextCancelMap t ->
    latches_change t t'
| latches_opened c l rq :
    pending t' = <[c := l]> (pending t) ->
    contextCancelMap t' = <[c := rq]> (contextCancelMap t) ->
    latches_change t t'
| latches_closed c :
    pending t' = delete c (pending t) ->
    contextCancelMap t' = contextCancelMap t ->
    latches_change t t'
| latches_cleaned c :
    pending t' = delete c (pending t) ->
    contextCancelMap t' = delete c (contextCancelMap t) ->
    latches_change t t'.

(** How one operation changes the deferred extensions and the
    requestor-cancelled flags. *)
Inductive deferred_change (t t' : Transport) : Prop :=
| deferred_same :
    pendingExtensions t' = pendingExtensions t ->
    requestorCancelledMap t' = requestorCancelledMap t ->
    deferred_change t t'
| deferred_flagged c :
    pendingExtensions t' = pendingExtensions t ->
    requestorCancelledMap t' = {[c]} ∪ requestorCancelledMap t ->
    deferred_change t t'
| deferred_queued c l :
    c ∈ requestorCancelledMap t ->
    pendingExtensions t' = <[c := l]> (pendingExtensions t) ->
    requestorCancelledMap t' = requestorCancelledMap t ->
    deferred_change t t'
| deferred_dropped c :
    pendingExtensions t' = delete c (pendingExtensions t) ->
    requestorCancelledMap t' = requestorCancelledMap t ∖ {[c]} ->
    deferred_change t t'.


(** A pending latch belongs to a request this node opened: the channel
    has a cancel handle. *)
Definition pending_has_handle (t : Transport) : Prop :=
  forall c, is_Some (pending t !! c) -> is_Some (contextCancelMap t !! c).

(** Extensions are deferred only for a channel whose requestor has
    cancelled. *)
Definition deferred_only_while_cancelled (t : Transport) : Prop :=
  forall c, is_Some (pendingExtensions t !! c) -> c ∈ requestorCancelledMap t.


(** A session that refuses every channel in [OnChannelOpened], and a
    transport bound to it that has opened the pull of the sample. *)
Definition refused : error := ErrorNew "channel refused".

Definition refusingSession : EventsHandler :=
  mkEvents (fun _ => Some refused) (fun _ _ => (None, None)) (fun _ _ => None)
    (fun _ _ _ => None) (fun _ _ _ => (None, None)) (fun _ _ _ => None)
    (fun _ _ => None) (fun _ _ => None) (fun _ _ => None) (fun _ _ => None).


(** The registry lock, as a trace leaves it. *)
Inductive lockState := Free | Reading | Writing.

(** Whether a trace uses the registry lock properly from state [s]: it
    locks only a free lock, unlocks only the kind of lock it holds, and
    ends with the lock free. *)
Fixpoint well_locked (s : lockState) (tr : list Call) : bool :=
  match tr with
  | [] => match s with Free => true | _ => false end
  | Lock :: tr' => match s with Free => well_locked Writing tr' | _ => false end
  | Unlock :: tr' =>
    match s with Writing => well_locked Free tr' | _ => false end
  | RLock :: tr' => match s with Free => well_locked Reading tr' | _ => false end
  | RUnlock :: tr' =>
    match s with Reading => well_locked Free tr' | _ => false end
  | _ :: tr' => well_locked s tr'
  end.

Definition is_lock_op (c : Call) : bool :=
  match c with Lock | Unlock | RLock | RUnlock => true | _ => false end.

Section Traces.

Variable GetTransferData : list ExtensionData -> option Message * option error.
Variable ToExtensionData :
  Message -> list ExtensionName -> list ExtensionData * option error.
Variable ChannelID_String : ChannelID -> string.
Variable EncodeCidSet : gset Cid -> list Byte.byte * option error.

(** The traces an operation can leave. *)
Definition traces (o : Op) (t : Transport) : list (list Call) :=
  match o with
  | OpSetEventHandler h => [snd (SetEventHandler t h)]
  | OpOpenChannel now ctx closedAt dataSender channelID root stor dns msg =>
    map snd
      (OpenChannel ToExtensionData EncodeCidSet t now ctx closedAt dataSender
         channelID root stor dns msg)
  | OpPauseChannel d chid =>
    match PauseChannel t (wakes d) chid with
    | Some r => [snd r]
    | None => []
    end
  | OpResumeChannel d msg chid =>
    match ResumeChannel ToExtensionData t (wakes d) msg chid with
    | Some r => [snd r]
    | None => []
    end
  | OpCloseChannel d chid =>
    match CloseChannel t (wakes d) chid with
    | Some r => [snd r]
    | None => []
    end
  | OpCleanupChannel chid => [snd (CleanupChannel ChannelID_String t chid)]
  | OpUseStore chid => [snd (UseStore ChannelID_String t chid)]
  | OpShutdown => [snd (Shutdown t)]
  | OpOutgoingRequestHook p request =>
    [snd (gsOutgoingRequestHook GetTransferData ChannelID_String t p request)]
  | OpReqRecdHook p request =>
    [snd (gsReqRecdHook GetTransferData ToExtensionData ChannelID_String
            t p request)]
  | OpIncomingBlockHook p response block =>
    [snd (gsIncomingBlockHook t p response block)]
  | OpOutgoingBlockHook p request block =>
    [snd (gsOutgoingBlockHook ToExtensionData t p request block)]
  | OpBlockSentHook p request block =>
    [snd (gsBlockSentHook t p request block)]
  | OpIncomingResponseHook p response =>
    [snd (gsIncomingResponseHook GetTransferData ToExtensionData t p response)]
  | OpRequestUpdatedHook p request update =>
    [snd (gsRequestUpdatedHook GetTransferData ToExtensionData t p request
            update)]
  | OpCompletedResponseListener p request status =>
    [snd (gsCompletedResponseListener t p request status)]
  | OpRequestorCancelledListener p request =>
    [snd (gsRequestorCancelledListener t p request)]
  | OpNetworkSendErrorListener p request gserr =>
    [snd (gsNetworkSendErrorListener t p request gserr)]
  | OpNetworkReceiveErrorListener p gserr =>
    [snd (gsNetworkReceiveErrorListener t p gserr)]
  end.

End Traces.

(** ** Reopening a channel on restart ([impl/restart.go], second half) *)

Module RestartOpen.

(** What a restart that reopens a channel does to its collaborators: it
    runs the transport configurer registered for the voucher type,
    protects the connection, sends a request or opens the channel on the
    transport, and records an error on the channel. *)
Inductive Effect :=
| Configure (chid : ChannelID) (voucher : Restart.Voucher)
| Protect (to : peer_ID) (tag : string)
| Send (to : peer_ID) (req : Request)
| TransportOpen (to : peer_ID) (chid : ChannelID) (root : Link)
                (selector : Node) (req : Request)
| RecordError (chid : ChannelID) (err : error).

Section Manager.

(** Outside the sources: [encoding.Encode], whether
    [transportConfigurers.Processor] has a configurer for a voucher type,
    the outcome of [dataTransferNetwork.SendMessage], the manager's
    [newRequest], the outcome of [transport.OpenChannel], and
    [ChannelID.String]. *)
Variable Encode : Restart.Voucher -> list Byte.byte * option error.
Variable hasConfigurer : string -> bool.
Variable networkSend : peer_ID -> Request -> option error.
Variable newRequest :
  Node -> bool -> Restart.Voucher -> Cid -> peer_ID ->
  option Request * option error.
Variable transportOpen :
  peer_ID -> ChannelID -> Link -> Node -> Request -> option error.
Variable ChannelID_String : ChannelID -> string.
Variable peerID : peer_ID.

Definition configure (chid : ChannelID) (voucher : Restart.Voucher)
  : list Effect :=
  if hasConfigurer (Restart.voucher_Type voucher)
  then [Configure chid voucher] else [].


(** [openPullRestartChannel] *)
Definition openPullRestartChannel (channel : Restart.ChannelState)
  : option error * list Effect :=
  let selector := Restart.cs_Selector channel in
  let voucher := Restart.cs_Voucher channel in
  let baseCid := Restart.cs_BaseCID channel in
  let requestTo := Restart.cs_OtherParty channel peerID in
  let chid := Restart.cs_ChannelID channel in
  match newRequest selector true voucher baseCid requestTo with
  | (_, Some err) => (Some err, [])
  | (None, None) => (None, [])
  | (Some req, None) =>
    let prepared :=
      configure chid voucher ++ [Protect requestTo (ChannelID_String chid)] in
    match transportOpen requestTo chid baseCid selector req with
    | Some err =>
      let err' := ErrorfW "Unable to send request: %w" err in
      (Some err',
       prepared ++ [TransportOpen requestTo chid baseCid selector req;
                    RecordError chid err'])
    | None =>
      (None, prepared ++ [TransportOpen requestTo chid baseCid selector req])
    end
  end.

End Manager.

End RestartOpen.


Definition soundChannel : Restart.ChannelState :=
  Restart.mkChannelState Sample.pull7 (Restart.mkVoucher "deal" [])
    "base" "selector" (fun _ => Sample.remote).

(** ** A restart the session turns down

    A codec that also carries the restart bit of a request, and a session
    that pauses a new pull until its data is ready and refuses a restart.
    The responder answers the pull of the remote peer (engine request 1),
    the requestor cancels that engine request, the session resumes the
    channel, and the requestor restarts the pull (engine request 2). *)
Module Refusal.

Definition restartRequest (id : N) : Request :=
  mkRequest true true [] "" None "" id false.

Definition decode (data : list Byte.byte) : option Message * option error :=
  match data with
  | [Byte.x02; b] => (Some (MsgRequest (restartRequest (Byte.to_N b))), None)
  | _ => Sample.decode data
  end.

Definition GetTransferData (exts : list ExtensionData)
  : option Message * option error :=
  match
    List.find (fun e => bool_decide (Name e ∈ defaultSupportedExtensions)) exts
  with
  | Some e => decode (Data e)
  | None => (None, None)
  end.

Definition session : EventsHandler :=
  mkEvents (fun _ => None)
    (fun _ req =>
       if Rest req then (None, Some refused) else (None, Some ErrPause))
    (fun _ _ => None) (fun _ _ _ => None) (fun _ _ _ => (None, None))
    (fun _ _ _ => None) (fun _ _ => None) (fun _ _ => None) (fun _ _ => None)
    (fun _ _ => None).

Definition restart7 : Message := MsgRequest (restartRequest 7%N).

(** The engine request that carries the restart of transfer 7. *)
Definition restartOf7 (id : RequestID) : RequestData :=
  mkRequestData id
    (map (fun n => mkExt n [Byte.x02; Byte.x07]) defaultSupportedExtensions).

Definition bound : Transport :=
  snd (fst (SetEventHandler (NewTransport Sample.self Sample.engine) session)).

Definition hook (t : Transport) (request : RequestData)
  : Transport * list Call :=
  gsReqRecdHook GetTransferData Sample.ToExtensionData Sample.ChannelID_String
    t Sample.remote request.

(** The pull is answered and paused. *)
Definition paused : Transport := fst (hook bound (Sample.engineRequest 1)).

(** The requestor has cancelled engine request 1. *)
Definition cancelled : Transport :=
  fst (gsRequestorCancelledListener paused Sample.remote
         (Sample.engineRequest 1)).

(** The session has resumed the channel with its response. *)
Definition resumed : Transport :=
  match
    ResumeChannel Sample.ToExtensionData cancelled [] (Some Sample.accepted7)
      Sample.served7
  with
  | Some r => snd (fst r)
  | None => cancelled
  end.

End Refusal.

(** The same exchange with the session of the sample, which accepts
    every request: the pull is answered, the requestor cancels its engine
    request and the session resumes the channel. *)
Definition answeredServing : Transport :=
  fst (gsReqRecdHook Sample.GetTransferData Sample.ToExtensionData
         Sample.ChannelID_String (Sample.bound (None, None)) Sample.remote
         (Sample.engineRequest 1)).

Definition answeredCancelled : Transport :=
  fst (gsRequestorCancelledListener answeredServing Sample.remote
         (Sample.engineRequest 1)).

Definition answeredDeferring : Transport :=
  match
    ResumeChannel Sample.ToExtensionData answeredCancelled []
      (Some Sample.accepted7) Sample.served7
  with
  | Some r => snd (fst r)
  | None => answeredCancelled
  end.

(** ** Properties of the registry *)

Section RegistryProperties.

Variable GetTransferData : list ExtensionData -> option Message * option error.
Variable ToExtensionData :
  Message -> list ExtensionName -> list ExtensionData * option error.
Variable ChannelID_String : ChannelID -> string.
Variable EncodeCidSet : gset Cid -> list Byte.byte * option error.

Local Abbreviation run' :=
  (run GetTransferData ToExtensionData ChannelID_String EncodeCidSet).

Lemma gsKeyFromChannelID_settled t d chid k e t' tr :
  gsKeyFromChannelID t (wakes d) chid = Some (k, e, t', tr) -> t' = t.
Proof.
  destruct d; simpl; repeat case_match; intros; simplify_eq; reflexivity.
Qed.

Ltac same_maps :=
  repeat case_match; simpl in *; simplify_eq; simpl;
  try (apply maps_same; reflexivity).

Ltac settle Hin :=
  repeat case_match; simplify_eq; simpl in Hin; try contradiction;
  destruct Hin as [<- | []]; same_maps.

Lemma run_maps o t t' :
  In t' (run' o t) -> maps_change (installs o t) t t'.
Proof.
  destruct o; simpl.
  - (* SetEventHandler *)
    intros [<- | []]. unfold SetEventHandler. same_maps.
  - (* OpenChannel *)
    unfold OpenChannel. intros Hin.
    repeat case_match; simpl in Hin;
      repeat (rewrite in_map_iff in Hin; destruct Hin as (? & <- & Hin));
      try (destruct Hin as [<- | []]); same_maps.
  - (* PauseChannel *)
    unfold PauseChannel.
    destruct (events t); [| intros [<- | []]; same_maps].
    destruct (gsKeyFromChannelID t (wakes ctxDone) chid)
      as [[[[k0 e0] t1] tr0] |] eqn:Hk; [| intros []].
    apply gsKeyFromChannelID_settled in Hk as ->.
    intros Hin. settle Hin.
  - (* ResumeChannel *)
    unfold ResumeChannel.
    destruct (events t); [| intros [<- | []]; same_maps].
    destruct (gsKeyFromChannelID t (wakes ctxDone) chid)
      as [[[[k0 e0] t1] tr0] |] eqn:Hk; [| intros []].
    apply gsKeyFromChannelID_settled in Hk as ->.
    intros Hin. settle Hin.
  - (* CloseChannel *)
    unfold CloseChannel.
    destruct (events t); [| intros [<- | []]; same_maps].
    destruct (gsKeyFromChannelID t (wakes ctxDone) chid)
      as [[[[k0 e0] t1] tr0] |] eqn:Hk; [| intros []].
    apply gsKeyFromChannelID_settled in Hk as ->.
    intros Hin. settle Hin.
  - (* CleanupChannel *)
    intros [<- | []]. unfold CleanupChannel.
    destruct (channelIDMap t !! chid) as [k |] eqn:Hk; simpl.
    + eapply maps_removed; [exact Hk | reflexivity | reflexivity].
    + apply maps_same; reflexivity.
  - (* UseStore *)
    intros [<- | []]. unfold UseStore. same_maps.
  - (* Shutdown *)
    intros [<- | []]. apply maps_same; reflexivity.
  - (* gsOutgoingRequestHook *)
    intros [<- | []]. unfold gsOutgoingRequestHook.
    repeat case_match; simpl; try (apply maps_same; reflexivity);
      eapply maps_installed; reflexivity.
  - (* gsReqRecdHook *)
    intros [<- | []]. unfold gsReqRecdHook.
    repeat case_match; simpl; try (apply maps_same; reflexivity);
      eapply maps_installed; reflexivity.
  - intros [<- | []]. unfold gsIncomingBlockHook. same_maps.
  - intros [<- | []]. unfold gsOutgoingBlockHook. same_maps.
  - intros [<- | []]. unfold gsBlockSentHook. same_maps.
  - intros [<- | []]. unfold gsIncomingResponseHook. same_maps.
  - intros [<- | []]. unfold gsRequestUpdatedHook. same_maps.
  - intros [<- | []]. unfold gsCompletedResponseListener. same_maps.
  - intros [<- | []]. unfold gsRequestorCancelledListener. same_maps.
  - intros [<- | []]. unfold gsNetworkSendErrorListener. same_maps.
  - intros [<- | []]. unfold gsNetworkReceiveErrorListener. same_maps.
Qed.

Lemma maps_change_keys_lead_back ko t t' :
  maps_change ko t t' ->
  (forall k, ko = Some k -> graphsyncRequestMap t !! k = None) ->
  keys_lead_back t -> keys_lead_back t'.
Proof.
  intros Hch Hfresh Hinv c' k'.
  destruct Hch as [Hc Hg | c k Hko Hc Hg | c k Hck Hc Hg]; rewrite Hc, Hg.
  - apply Hinv.
  - specialize (Hfresh k Hko).
    destruct (decide (c = c')) as [-> | Hne].
    + rewrite lookup_insert_eq. intros [= <-]. apply lookup_insert_eq.
    + rewrite lookup_insert_ne by done. intros Hl.
      pose proof (Hinv _ _ Hl) as Hb.
      rewrite lookup_insert_ne; [exact Hb | congruence].
  - destruct (decide (c = c')) as [-> | Hne].
    + rewrite lookup_delete_eq. discriminate.
    + rewrite lookup_delete_ne by done. intros Hl.
      pose proof (Hinv _ _ Hl) as Hb. pose proof (Hinv _ _ Hck) as Hb'.
      rewrite lookup_delete_ne; [exact Hb | congruence].
Qed.

End RegistryProperties.

(** C1 (amended).  In every registry state observed while the engine
    never reuses a request key, each channel's engine key leads back to
    the channel: if [key(c) = k] then [channelOf(k) = c]. *)
Theorem C1_keys_lead_back :
  forall GetTransferData ToExtensionData ChannelID_String EncodeCidSet t,
    observable_fresh GetTransferData ToExtensionData ChannelID_String
      EncodeCidSet t ->
    keys_lead_back t.
Proof.
  intros G T S E t Hobs. induction Hobs as [pid gs | o t t' _ IH Hfresh Hin].
  - intros c k. simpl. rewrite lookup_empty. discriminate.
  - apply (maps_change_keys_lead_back (installs o t) t t').
    + eapply run_maps. exact Hin.
    + intros k Hk. unfold engine_key_fresh in Hfresh. rewrite Hk in Hfresh.
      exact Hfresh.
    + exact IH.
Qed.

Lemma observable_fresh_observable G T S E t :
  observable_fresh G T S E t -> observable G T S E t.
Proof.
  induction 1 as [pid gs | o t t' _ IH _ Hin].
  - apply observable_new.
  - eapply observable_step; [exact IH | exact Hin].
Qed.

Lemma Sample_restarted_observable_fresh :
  observable_fresh Sample.GetTransferData Sample.ToExtensionData
    Sample.ChannelID_String Sample.EncodeCidSet Sample.restarted.
Proof.
  eapply (observable_fresh_step _ _ _ _
            (OpOutgoingRequestHook Sample.remote (Sample.engineRequest 2))
            Sample.rerequested); [| vm_compute; reflexivity | left; reflexivity].
  eapply (observable_fresh_step _ _ _ _ Sample.reopen Sample.opened);
    [| exact I | left; reflexivity].
  eapply (observable_fresh_step _ _ _ _
            (OpOutgoingRequestHook Sample.remote (Sample.engineRequest 1))
            Sample.requested); [| vm_compute; reflexivity | left; reflexivity].
  eapply (observable_fresh_step _ _ _ _ Sample.reopen
            (Sample.bound (None, None))); [| exact I | left; reflexivity].
  eapply (observable_fresh_step _ _ _ _
            (OpSetEventHandler (Sample.session (None, None))));
    [| exact I | left; reflexivity].
  apply (observable_fresh_new _ _ _ _ Sample.self Sample.engine).
Defined.

Lemma C1_keys_lead_back_witness :
  observable_fresh Sample.GetTransferData Sample.ToExtensionData
    Sample.ChannelID_String Sample.EncodeCidSet Sample.restarted /\
  keys_lead_back Sample.restarted.
Proof.
  split; [exact Sample_restarted_observable_fresh |].
  exact (C1_keys_lead_back _ _ _ _ _ Sample_restarted_observable_fresh).
Defined.

(** C1 (as stated) fails.  After the outgoing-request hook has fired for
    engine request 1 and, on a restart, for engine request 2 of the same
    channel, the key-to-channel map still sends the old key to the
    channel while the channel's key is the new one. *)
Lemma C1_stale_key_after_restart :
  observable Sample.GetTransferData Sample.ToExtensionData
    Sample.ChannelID_String Sample.EncodeCidSet Sample.restarted /\
  graphsyncRequestMap Sample.restarted !! mkKey 1 Sample.self
    = Some Sample.pull7 /\
  channelIDMap Sample.restarted !! Sample.pull7 = Some (mkKey 2 Sample.self) /\
  ~ mutual_inverses Sample.restarted.
Proof.
  assert (H1 : graphsyncRequestMap Sample.restarted !! mkKey 1 Sample.self
               = Some Sample.pull7) by (vm_compute; reflexivity).
  assert (H2 : channelIDMap Sample.restarted !! Sample.pull7
               = Some (mkKey 2 Sample.self)) by (vm_compute; reflexivity).
  split;
    [exact (observable_fresh_observable _ _ _ _ _
              Sample_restarted_observable_fresh) |].
  split; [exact H1 |]. split; [exact H2 |].
  intros [_ Hback]. apply Hback in H1. rewrite H1 in H2. discriminate.
Qed.

(** ** Terminal outcomes: proofs *)

Lemma gsResponseStatusCodeString_symbol status name :
  gsResponseStatusCodes status = Some name ->
  gsResponseStatusCodeString status = name.
Proof. unfold gsResponseStatusCodeString. intros ->. reflexivity. Qed.

Lemma session_events_app tr1 tr2 :
  session_events (tr1 ++ tr2) = session_events tr1 ++ session_events tr2.
Proof. unfold session_events. apply omap_app. Qed.

(** C2 (amended).  With a session bound: a request-context-cancelled error
    fires [OnRequestTimedOut] alone; a request-cancelled error or a
    [RequestCancelled] status fires nothing; on the executor side a
    request whose own context is cancelled fires nothing either; every
    other outcome fires [OnChannelCompleted] once, with a nil error
    exactly for a nil last error (executor) or [RequestCompletedFull]
    (responder), and otherwise with the wrapped engine error or the name
    of the status code. *)
Theorem C2_terminal_classification :
  forall t h, events t = Some h ->
    executor_classifies t /\ responder_classifies t.
Proof.
  intros t h Hev. split.
  - intros ctxErr chid errChan latch evs lastError.
    subst evs lastError. unfold executeGsRequest. rewrite Hev.
    rewrite session_events_app.
    destruct (consumeResponses errChan) as [e |] eqn:Hlast.
    + repeat split.
      * intros [= ->]. reflexivity.
      * intros [= ->]. reflexivity.
      * intros Hctx. destruct e; try congruence;
          destruct ctxErr; try congruence; reflexivity.
      * intros ->. destruct e; try congruence;
          (eexists; split;
           [destruct (completedRequestListener t); reflexivity |];
           split; [split; discriminate | intros e' [= <-]; reflexivity]).
    + repeat split; try discriminate.
      * intros Hctx. destruct ctxErr; [reflexivity | congruence].
      * intros ->. exists None. split.
        -- destruct (completedRequestListener t); reflexivity.
        -- split; [tauto | discriminate].
  - intros p0 request status chid Hk evs. subst evs.
    unfold gsCompletedResponseListener. rewrite Hk, Hev. split.
    + intros ->. reflexivity.
    + intros Hnc. destruct (decide (status = RequestCancelled)) as [|_];
        [contradiction |].
      destruct (decide (status <> RequestCompletedFull)) as [Hnf | Hf].
      * eexists. split.
        -- destruct (completedResponseListener t); reflexivity.
        -- split; [split; [discriminate | contradiction] | reflexivity].
      * exists None. split.
        -- destruct (completedResponseListener t); reflexivity.
        -- split; [| contradiction]. split; [| reflexivity].
           intros _. destruct (decide (status = RequestCompletedFull));
             [assumption | contradiction].
Qed.

Lemma C2_terminal_classification_witness :
  events (Sample.bound (None, None)) = Some (Sample.session (None, None)) /\
  executor_classifies (Sample.bound (None, None)) /\
  responder_classifies (Sample.bound (None, None)).
Proof.
  split; [reflexivity |].
  apply (C2_terminal_classification (Sample.bound (None, None))
           (Sample.session (None, None))).
  reflexivity.
Defined.

(** C2 (as stated) fails on the executor side.  The streams of the request
    end without an error, so the outcome is neither request-context-
    cancelled nor request-cancelled, but the request's own context is
    cancelled: no session callback fires, where the claim has
    [OnChannelCompleted(channel, nil)]. *)
Lemma C2_cancelled_context_fires_nothing :
  consumeResponses [] = None /\
  session_events
    (executeGsRequest (Sample.bound (None, None)) (Some ContextCanceled)
       Sample.pull7 [] 0%nat) = [] /\
  session_events
    (executeGsRequest (Sample.bound (None, None)) (Some ContextCanceled)
       Sample.pull7 [] 0%nat) <> [EvChannelCompleted Sample.pull7 None].
Proof. repeat split. discriminate. Qed.

(** ** The cancel-and-reopen wait *)

Ltac decide_select :=
  unfold waitForCancelComplete, select, minGSCancelWait, maxGSCancelWait;
  cbn -[Z.min Z.max Z.add];
  repeat (rewrite ?filter_cons, ?filter_nil;
          cbn -[Z.min Z.max Z.add];
          unfold select;
          try case_decide);
  try lia; try reflexivity; try (repeat f_equal; lia).

(** C3 (amended).  [waitForCancelComplete] waits for the latch or for the
    [maxGSCancelWait] ceiling.  When the latch closes first it sleeps a
    further [minGSCancelWait] and then returns nil; when the ceiling is
    reached first it returns nil at once, without the further sleep.  The
    context aborts either wait with its error. *)
Theorem C3_waitForCancelComplete :
  forall now err done completed,
    let ctx := mkContext done err in
    let wait := waitForCancelComplete now ctx completed in
    (* the latch closes first and the caller stays for the sleep *)
    (forall tc, completed = Some tc ->
       Z.max now tc < now + maxGSCancelWait ->
       (forall td, done = Some td ->
                   Z.max now tc + minGSCancelWait < td) ->
       wait = [(Z.max now tc + minGSCancelWait, None)]) /\
    (* the latch closes first and the caller leaves during the sleep *)
    (forall tc td, completed = Some tc -> done = Some td ->
       Z.max now tc < now + maxGSCancelWait ->
       Z.max now tc < td < Z.max now tc + minGSCancelWait ->
       wait = [(td, Some err)]) /\
    (* the ceiling is reached first *)
    ((forall tc, completed = Some tc -> now + maxGSCancelWait < tc) ->
     (forall td, done = Some td -> now + maxGSCancelWait < td) ->
     wait = [(now + maxGSCancelWait, None)]) /\
    (* the caller leaves during the first wait *)
    (forall td, done = Some td ->
       Z.max now td < now + maxGSCancelWait ->
       (forall tc, completed = Some tc -> Z.max now td < Z.max now tc) ->
       wait = [(Z.max now td, Some err)]).
Proof.
  intros now err done completed ctx wait. subst ctx wait.
  unfold minGSCancelWait, maxGSCancelWait.
  split; [| split; [| split]].
  - intros tc -> Hlt Hdone. destruct done as [td |].
    + specialize (Hdone td eq_refl). decide_select.
    + decide_select.
  - intros tc td -> -> Hlt Hbetween. decide_select.
  - intros Hlatch Hdone. destruct completed as [tc |], done as [td |];
      try specialize (Hlatch _ eq_refl); try specialize (Hdone _ eq_refl);
      decide_select.
  - intros td -> Hlt Hlatch. destruct completed as [tc |];
      try specialize (Hlatch _ eq_refl); decide_select.
Qed.

Lemma C3_waitForCancelComplete_witness :
  waitForCancelComplete 0 (mkContext None ContextCanceled) (Some 250)
    = [(350, None)] /\
  waitForCancelComplete 0 (mkContext (Some 300) ContextCanceled) (Some 250)
    = [(300, Some ContextCanceled)] /\
  waitForCancelComplete 0 (mkContext None ContextCanceled) None
    = [(1000, None)] /\
  waitForCancelComplete 0 (mkContext (Some 40) ContextCanceled) (Some 250)
    = [(40, Some ContextCanceled)].
Proof.
  split; [| split; [| split]].
  - destruct (C3_waitForCancelComplete 0 ContextCanceled None (Some 250))
      as (H & _).
    apply (H 250); [reflexivity | reflexivity | discriminate].
  - destruct (C3_waitForCancelComplete 0 ContextCanceled (Some 300) (Some 250))
      as (_ & H & _).
    apply (H 250 300); [reflexivity | reflexivity | reflexivity |].
    unfold minGSCancelWait. simpl. lia.
  - destruct (C3_waitForCancelComplete 0 ContextCanceled None None)
      as (_ & _ & H & _).
    apply H; discriminate.
  - destruct (C3_waitForCancelComplete 0 ContextCanceled (Some 40) (Some 250))
      as (_ & _ & _ & H).
    apply (H 40); [reflexivity | reflexivity |].
    intros tc [= <-]. reflexivity.
Defined.

(** C3 (as stated) fails.  The latch is never closed and the caller's
    context is never done: the code returns when the one-second ceiling is
    reached, where the wait worded by the claim sleeps a further 100 ms. *)
Lemma C3_no_sleep_after_ceiling :
  waitForCancelComplete 0 (mkContext None ContextCanceled) None
    = [(1000, None)] /\
  waitForCancelComplete_as_specified 0 (mkContext None ContextCanceled) None
    = [(1100, None)] /\
  waitForCancelComplete 0 (mkContext None ContextCanceled) None
    <> waitForCancelComplete_as_specified 0 (mkContext None ContextCanceled)
         None.
Proof. split; [reflexivity | split; [reflexivity | discriminate]]. Qed.

(** ** A response message that cannot be serialized *)

(** When the session's response message cannot be serialized, the
    incoming-request hook hands the session's own error (possibly nil, or
    the pause sentinel) to [TerminateWithError], whatever the
    serialization error is. *)
Lemma gsReqRecdHook_serialization_failure
  (GetTransferData : list ExtensionData -> option Message * option error)
  (ToExtensionData :
     Message -> list ExtensionName -> list ExtensionData * option error)
  (ChannelID_String : ChannelID -> string)
  t h p0 request req rm err exts extensionErr :
  GetTransferData (req_exts request) = (Some (MsgRequest req), None) ->
  events t = Some h ->
  OnRequestReceived h (mkChannelID p0 (peerID t) (XferID req)) req
    = (Some rm, err) ->
  ToExtensionData rm (supportedExtensions t) = (exts, Some extensionErr) ->
  hook_actions
    (snd (gsReqRecdHook GetTransferData ToExtensionData ChannelID_String
            t p0 request))
  = [TerminateWithError err].
Proof.
  intros HG Hev Hans Hser. unfold gsReqRecdHook.
  rewrite HG, Hev. simpl. rewrite Hans, Hser. reflexivity.
Qed.

(** C4, evaluated.  The session answers with a response message that the
    codec rejects as malformed.  The incoming-request, request-updated
    and incoming-response hooks call [TerminateWithError] with the
    session's error, here nil, and not with the codec's error; the
    outgoing-block hook, in the same situation, passes the codec's
    error. *)
Lemma C4_hooks_terminate_with_session_error :
  Sample.ToExtensionData Sample.tooBig defaultSupportedExtensions
    = ([], Some Sample.malformed) /\
  hook_actions
    (snd (gsReqRecdHook Sample.GetTransferData Sample.ToExtensionData
            Sample.ChannelID_String
            (Sample.bound (Some Sample.tooBig, None))
            Sample.remote (Sample.engineRequest 1)))
    = [TerminateWithError None] /\
  hook_actions
    (snd (gsReqRecdHook Sample.GetTransferData Sample.ToExtensionData
            Sample.ChannelID_String
            (Sample.bound (Some Sample.tooBig, Some ErrPause))
            Sample.remote (Sample.engineRequest 1)))
    = [TerminateWithError (Some ErrPause)] /\
  hook_actions
    (snd (gsRequestUpdatedHook Sample.GetTransferData Sample.ToExtensionData
            (Sample.serving (Some Sample.tooBig, None)
               (mkKey 1 Sample.remote))
            Sample.remote (Sample.engineRequest 1) (Sample.engineRequest 1)))
    = [TerminateWithError None] /\
  hook_actions
    (snd (gsIncomingResponseHook Sample.GetTransferData Sample.ToExtensionData
            (Sample.serving (Some Sample.tooBig, None) (mkKey 1 Sample.self))
            Sample.remote
            (mkResponseData 1 (req_exts (Sample.engineRequest 1)))))
    = [TerminateWithError None] /\
  hook_actions
    (snd (gsOutgoingBlockHook Sample.ToExtensionData
            (Sample.serving (Some Sample.tooBig, None)
               (mkKey 1 Sample.remote))
            Sample.remote (Sample.engineRequest 1) Sample.block))
    = [TerminateWithError (Some Sample.malformed)].
Proof. repeat split; vm_compute; reflexivity. Qed.

(** ** The incoming-request hook at the registry *)

Section IncomingRequest.

Variable GetTransferData : list ExtensionData -> option Message * option error.
Variable ToExtensionData :
  Message -> list ExtensionName -> list ExtensionData * option error.
Variable ChannelID_String : ChannelID -> string.

Local Abbreviation hook :=
  (gsReqRecdHook GetTransferData ToExtensionData ChannelID_String).

(** What the hook does once it has reached the registry. *)
Lemma gsReqRecdHook_at_registry t p0 request msg rm err exts :
  reaches_registry GetTransferData ToExtensionData t p0 request msg rm err
    exts ->
  let chid := incomingChannel t p0 msg in
  let gsKey := mkKey (req_ID request) p0 in
  let paused := isPause err in
  let force :=
    match channelXferStarted t !! chid with
    | Some started => negb started && negb paused
    | None => false
    end in
  exists ev,
    snd (hook t p0 request) =
      [Ev ev] ++ sends exts
        ++ (if paused then [Act PauseResponse] else [])
        ++ [Lock]
        ++ (if force then [Act PauseResponse] else [])
        ++ (if decide (chid ∈ requestorCancelledMap t)
            then sends (default [] (pendingExtensions t !! chid)) else [])
        ++ (if decide (chid ∈ stores t)
            then [Act (UsePersistenceOption
                         (persistenceOption ChannelID_String chid))]
            else [])
        ++ [Unlock; Act ValidateRequest] /\
    channelXferStarted (fst (hook t p0 request)) =
      <[chid := negb (paused || force)]> (channelXferStarted t) /\
    pendingExtensions (fst (hook t p0 request)) =
      (if decide (chid ∈ requestorCancelledMap t)
       then delete chid (pendingExtensions t)
       else pendingExtensions t) /\
    requestorCancelledMap (fst (hook t p0 request)) =
      (if decide (chid ∈ requestorCancelledMap t)
       then requestorCancelledMap t ∖ {[chid]}
       else requestorCancelledMap t) /\
    channelIDMap (fst (hook t p0 request)) = <[chid := gsKey]> (channelIDMap t) /\
    graphsyncRequestMap (fst (hook t p0 request)) =
      <[gsKey := chid]> (graphsyncRequestMap t).
Proof.
  intros [Hours (h & Hev & Hans) Hnf Hser]. simpl.
  unfold gsReqRecdHook. rewrite Hours, Hev.
  assert (Hfatal : isFatal err = false).
  { destruct Hnf as [-> | ->]; reflexivity. }
  destruct msg as [req | resp]; simpl in Hans |- *.
  - rewrite Hans, Hser, Hfatal. eexists. unfold sends. cbn.
    repeat (destruct (decide _)); try contradiction;
      repeat split; reflexivity.
  - injection Hans as <- Herr. rewrite Herr. simpl in Hser.
    injection Hser as <-. rewrite Hfatal. eexists. unfold sends. cbn.
    repeat (destruct (decide _)); try contradiction;
      repeat split; reflexivity.
Qed.

End IncomingRequest.

Lemma hook_actions_app tr1 tr2 :
  hook_actions (tr1 ++ tr2) = hook_actions tr1 ++ hook_actions tr2.
Proof. unfold hook_actions. apply omap_app. Qed.

Lemma hook_actions_sends exts :
  hook_actions (sends exts) = map SendExtensionData exts.
Proof. induction exts as [| e l IH]; [reflexivity | simpl; now f_equal]. Qed.

Lemma pauses_response_app tr1 tr2 :
  pauses_response (tr1 ++ tr2) = pauses_response tr1 || pauses_response tr2.
Proof.
  unfold pauses_response. rewrite hook_actions_app.
  apply eq_true_iff_eq. rewrite orb_true_iff, !bool_decide_eq_true.
  apply elem_of_app.
Qed.

Lemma pauses_response_sends exts : pauses_response (sends exts) = false.
Proof.
  unfold pauses_response. rewrite hook_actions_sends.
  apply bool_decide_eq_false. intros Hin.
  apply list_elem_of_fmap in Hin as (e & He & _). discriminate.
Qed.

(** C5 (amended).  In an invocation of the incoming-request hook that
    reaches the registry, that is, one the hook does not terminate
    before: if the channel has a transfer-started flag, the flag is
    false and the session did not ask for a pause, the hook pauses the
    response all the same and leaves the flag false; and in every case
    the flag ends up true exactly when this invocation did not pause the
    response. *)
Theorem C5_transfer_started_flag :
  forall GetTransferData ToExtensionData ChannelID_String
         t p0 request msg rm err exts,
    reaches_registry GetTransferData ToExtensionData t p0 request msg rm err
      exts ->
    let chid := incomingChannel t p0 msg in
    let r := gsReqRecdHook GetTransferData ToExtensionData ChannelID_String
               t p0 request in
    (channelXferStarted t !! chid = Some false -> err <> Some ErrPause ->
     pauses_response (snd r) = true /\
     channelXferStarted (fst r) !! chid = Some false) /\
    channelXferStarted (fst r) !! chid
      = Some (negb (pauses_response (snd r))).
Proof.
  intros G T S t p0 request msg rm err exts Hreach chid r. subst r.
  destruct (gsReqRecdHook_at_registry G T S t p0 request msg rm err exts
              Hreach) as (ev & Htr & Hflag & _).
  fold chid in Htr, Hflag.
  assert (Hpaused :
    pauses_response (snd (gsReqRecdHook G T S t p0 request))
    = isPause err
      || match channelXferStarted t !! chid with
         | Some started => negb started && negb (isPause err)
         | None => false
         end).
  { rewrite Htr. rewrite !pauses_response_app.
    destruct (isPause err), (channelXferStarted t !! chid) as [[] |];
      repeat (destruct (decide _));
      rewrite ?pauses_response_sends; reflexivity. }
  rewrite Hflag, lookup_insert_eq, Hpaused. split; [| reflexivity].
  intros Hfalse Hnp. rewrite Hfalse.
  assert (isPause err = false) as ->.
  { apply bool_decide_eq_false. exact Hnp. }
  split; reflexivity.
Qed.

Lemma C5_transfer_started_flag_witness :
  reaches_registry Sample.GetTransferData Sample.ToExtensionData
    Sample.pausedServing Sample.remote (Sample.engineRequest 2)
    Sample.request7 None None [] /\
  pauses_response
    (snd (gsReqRecdHook Sample.GetTransferData Sample.ToExtensionData
            Sample.ChannelID_String Sample.pausedServing Sample.remote
            (Sample.engineRequest 2))) = true /\
  channelXferStarted
    (fst (gsReqRecdHook Sample.GetTransferData Sample.ToExtensionData
            Sample.ChannelID_String Sample.pausedServing Sample.remote
            (Sample.engineRequest 2))) !! Sample.served7 = Some false.
Proof.
  assert (Hreach :
    reaches_registry Sample.GetTransferData Sample.ToExtensionData
      Sample.pausedServing Sample.remote (Sample.engineRequest 2)
      Sample.request7 None None []).
  { split; [reflexivity | | left; reflexivity | reflexivity].
    exists (Sample.session (None, None)). split; reflexivity. }
  split; [exact Hreach |].
  destruct (C5_transfer_started_flag _ _ Sample.ChannelID_String _ _ _ _ _ _ _
              Hreach) as [Hforce _].
  apply Hforce; [vm_compute; reflexivity | discriminate].
Defined.

Lemma Refusal_paused_observable :
  observable Refusal.GetTransferData Sample.ToExtensionData
    Sample.ChannelID_String Sample.EncodeCidSet Refusal.paused.
Proof.
  eapply (observable_step _ _ _ _
            (OpReqRecdHook Sample.remote (Sample.engineRequest 1))
            Refusal.bound); [| left; reflexivity].
  eapply (observable_step _ _ _ _ (OpSetEventHandler Refusal.session));
    [| left; reflexivity].
  apply (observable_new _ _ _ _ Sample.self Sample.engine).
Qed.

(** C5 (as stated) fails.  The responder has answered a pull and paused
    it, so the channel's transfer-started flag exists and is false.  The
    requestor restarts the pull and the session refuses the restart: its
    return is an error, not the pause sentinel.  The hook terminates the
    request and never pauses the response, where the claim has it paused
    anyway.  On a channel that has no flag the same refusal leaves the
    response unpaused and the flag unset, where the claim has the flag
    set to true. *)
Lemma C5_refused_restart_is_not_paused :
  observable Refusal.GetTransferData Sample.ToExtensionData
    Sample.ChannelID_String Sample.EncodeCidSet Refusal.paused /\
  events Refusal.paused = Some Refusal.session /\
  Refusal.GetTransferData (req_exts (Refusal.restartOf7 2))
    = (Some Refusal.restart7, None) /\
  incomingChannel Refusal.paused Sample.remote Refusal.restart7
    = Sample.served7 /\
  incomingAnswer Refusal.session Refusal.paused Sample.remote Refusal.restart7
    = (None, Some refused) /\
  Some refused <> Some ErrPause /\
  channelXferStarted Refusal.paused !! Sample.served7 = Some false /\
  hook_actions (snd (Refusal.hook Refusal.paused (Refusal.restartOf7 2)))
    = [TerminateWithError (Some refused)] /\
  pauses_response (snd (Refusal.hook Refusal.paused (Refusal.restartOf7 2)))
    = false /\
  channelXferStarted Refusal.bound !! Sample.served7 = None /\
  pauses_response (snd (Refusal.hook Refusal.bound (Refusal.restartOf7 2)))
    = false /\
  channelXferStarted (fst (Refusal.hook Refusal.bound (Refusal.restartOf7 2)))
    !! Sample.served7 = None.
Proof.
  split; [exact Refusal_paused_observable |].
  split; [reflexivity |].
  split; [reflexivity |].
  split; [reflexivity |].
  split; [reflexivity |].
  split; [discriminate |].
  split; [vm_compute; reflexivity |].
  split; [vm_compute; reflexivity |].
  split; [vm_compute; reflexivity |].
  split; [vm_compute; reflexivity |].
  split; vm_compute; reflexivity.
Qed.

(** ** Deferred extensions *)

Lemma gsKeyFromChannelID_known t ws chid key :
  channelIDMap t !! chid = Some key ->
  gsKeyFromChannelID t ws chid = Some (key, None, t, [RLock; RUnlock]).
Proof. intros H. destruct ws; simpl; rewrite H; reflexivity. Qed.

(** C6 (amended).  On the responder side, [ResumeChannel] called while
    the requestor-cancelled flag is set makes no engine call and appends
    the serialized message to the channel's deferred extensions.  An
    incoming-request hook of the channel that reaches the registry, that
    is, one the hook does not terminate before, sends the deferred
    extensions in the order in which they were queued, removes them and
    clears the flag. *)
Theorem C6_deferred_extensions :
  forall GetTransferData ToExtensionData ChannelID_String t,
    (forall h chid key msg exts ws,
       events t = Some h ->
       channelIDMap t !! chid = Some key ->
       p key <> peerID t ->
       chid ∈ requestorCancelledMap t ->
       ToExtensionData msg (supportedExtensions t) = (exts, None) ->
       exists tr,
         ResumeChannel ToExtensionData t ws (Some msg) chid
         = Some (None,
                 set_pendingExtensions
                   (<[chid := default [] (pendingExtensions t !! chid)
                                ++ exts]> (pendingExtensions t)) t,
                 tr) /\
         engine_calls tr = []) /\
    (forall p0 request msg rm err exts,
       reaches_registry GetTransferData ToExtensionData t p0 request msg rm
         err exts ->
       let chid := incomingChannel t p0 msg in
       let r := gsReqRecdHook GetTransferData ToExtensionData
                  ChannelID_String t p0 request in
       chid ∈ requestorCancelledMap t ->
       (exists pre post,
          snd r = pre ++ sends (default [] (pendingExtensions t !! chid))
                    ++ post /\
          forall e, Act (SendExtensionData e) ∉ post) /\
       pendingExtensions (fst r) !! chid = None /\
       chid ∉ requestorCancelledMap (fst r)).
Proof.
  intros G T S t. split.
  - intros h chid key msg exts ws Hev Hkey Hremote Hcancelled Hser.
    unfold ResumeChannel.
    rewrite Hev, (gsKeyFromChannelID_known _ _ _ _ Hkey), Hser.
    destruct (decide (p key = peerID t)) as [| _]; [contradiction |].
    destruct (decide (chid ∈ requestorCancelledMap t)) as [_ |];
      [| contradiction].
    eexists. split; [reflexivity | reflexivity].
  - intros p0 request msg rm err exts Hreach chid r Hcancelled. subst r.
    destruct (gsReqRecdHook_at_registry G T S t p0 request msg rm err exts
                Hreach) as (ev & Htr & _ & Hpe & Hrc & _).
    fold chid in Htr, Hpe, Hrc.
    destruct (decide (chid ∈ requestorCancelledMap t)) as [_ |];
      [| contradiction].
    split; [| split].
    + exists ([Ev ev] ++ sends exts
               ++ (if isPause err then [Act PauseResponse] else [])
               ++ [Lock]
               ++ (if match channelXferStarted t !! chid with
                      | Some started => negb started && negb (isPause err)
                      | None => false
                      end
                   then [Act PauseResponse] else [])),
             ((if decide (chid ∈ stores t)
               then [Act (UsePersistenceOption (persistenceOption S chid))]
               else [])
                ++ [Unlock; Act ValidateRequest]).
      split.
      * rewrite Htr. rewrite <- !app_assoc. reflexivity.
      * intros e He. apply elem_of_app in He as [He | He].
        -- destruct (decide (chid ∈ stores t));
             [apply list_elem_of_singleton in He; discriminate
             | apply elem_of_nil in He; exact He].
        -- apply elem_of_cons in He as [He | He]; [discriminate |].
           apply list_elem_of_singleton in He. discriminate.
    + rewrite Hpe. apply lookup_delete_eq.
    + rewrite Hrc. intros Hin. apply elem_of_difference in Hin as [_ Hn].
      apply Hn, elem_of_singleton. reflexivity.
Qed.

Lemma C6_deferred_extensions_witness :
  (exists tr,
     ResumeChannel Sample.ToExtensionData Sample.cancelledServing []
       (Some Sample.accepted7) Sample.served7
     = Some (None, Sample.deferring, tr) /\
     engine_calls tr = []) /\
  (exists pre post,
     snd (gsReqRecdHook Sample.GetTransferData Sample.ToExtensionData
            Sample.ChannelID_String Sample.deferring Sample.remote
            (Sample.engineRequest 2))
     = pre ++ sends Sample.deferred7 ++ post /\
     forall e, Act (SendExtensionData e) ∉ post) /\
  pendingExtensions
    (fst (gsReqRecdHook Sample.GetTransferData Sample.ToExtensionData
            Sample.ChannelID_String Sample.deferring Sample.remote
            (Sample.engineRequest 2))) !! Sample.served7 = None /\
  Sample.served7
    ∉ requestorCancelledMap
        (fst (gsReqRecdHook Sample.GetTransferData Sample.ToExtensionData
                Sample.ChannelID_String Sample.deferring Sample.remote
                (Sample.engineRequest 2))).
Proof.
  split.
  - destruct (C6_deferred_extensions Sample.GetTransferData
                Sample.ToExtensionData Sample.ChannelID_String
                Sample.cancelledServing) as [Hresume _].
    apply (Hresume (Sample.session (None, None)) Sample.served7
             (mkKey 1 Sample.remote) Sample.accepted7 Sample.deferred7 []).
    + reflexivity.
    + vm_compute. reflexivity.
    + discriminate.
    + apply (bool_decide_unpack _). vm_compute. exact I.
    + reflexivity.
  - destruct (C6_deferred_extensions Sample.GetTransferData
                Sample.ToExtensionData Sample.ChannelID_String
                Sample.deferring) as [_ Hreplay].
    apply (Hreplay Sample.remote (Sample.engineRequest 2) Sample.request7
             None None []).
    + split; [reflexivity | | left; reflexivity | reflexivity].
      exists (Sample.session (None, None)). split; reflexivity.
    + apply (bool_decide_unpack _). vm_compute. exact I.
Defined.

Lemma Refusal_resumed_observable :
  observable Refusal.GetTransferData Sample.ToExtensionData
    Sample.ChannelID_String Sample.EncodeCidSet Refusal.resumed.
Proof.
  eapply (observable_step _ _ _ _
            (OpResumeChannel false (Some Sample.accepted7) Sample.served7)
            Refusal.cancelled); [| left; reflexivity].
  eapply (observable_step _ _ _ _
            (OpRequestorCancelledListener Sample.remote
               (Sample.engineRequest 1))
            Refusal.paused); [| left; reflexivity].
  exact Refusal_paused_observable.
Qed.

(** C6 (as stated) fails.  The responder has answered a pull, the
    requestor has cancelled its engine request, and [ResumeChannel] has
    queued the session's response without an engine call.  The next
    incoming-request hook of the channel carries a restart that the
    session refuses: the hook terminates the request, sends none of the
    deferred extensions, and leaves them and the requestor-cancelled flag
    in the registry, where the claim has them sent, emptied and
    cleared. *)
Lemma C6_refused_restart_keeps_deferred :
  observable Refusal.GetTransferData Sample.ToExtensionData
    Sample.ChannelID_String Sample.EncodeCidSet Refusal.resumed /\
  Sample.served7 ∈ requestorCancelledMap Refusal.cancelled /\
  (exists tr,
     ResumeChannel Sample.ToExtensionData Refusal.cancelled []
       (Some Sample.accepted7) Sample.served7
     = Some (None, Refusal.resumed, tr) /\
     engine_calls tr = []) /\
  pendingExtensions Refusal.resumed !! Sample.served7
    = Some Sample.deferred7 /\
  Sample.deferred7 <> [] /\
  Refusal.GetTransferData (req_exts (Refusal.restartOf7 2))
    = (Some Refusal.restart7, None) /\
  incomingChannel Refusal.resumed Sample.remote Refusal.restart7
    = Sample.served7 /\
  hook_actions (snd (Refusal.hook Refusal.resumed (Refusal.restartOf7 2)))
    = [TerminateWithError (Some refused)] /\
  pendingExtensions (fst (Refusal.hook Refusal.resumed (Refusal.restartOf7 2)))
    !! Sample.served7 = Some Sample.deferred7 /\
  Sample.served7
    ∈ requestorCancelledMap
        (fst (Refusal.hook Refusal.resumed (Refusal.restartOf7 2))).
Proof.
  split; [exact Refusal_resumed_observable |].
  split; [apply (bool_decide_unpack _); vm_compute; exact I |].
  split.
  { eexists. split; vm_compute; reflexivity. }
  split; [vm_compute; reflexivity |].
  split; [discriminate |].
  split; [reflexivity |].
  split; [reflexivity |].
  split; [vm_compute; reflexivity |].
  split; [vm_compute; reflexivity |].
  apply (bool_decide_unpack _). vm_compute. exact I.
Qed.

(** ** Shutdown and cleanup *)

Lemma engine_calls_app tr1 tr2 :
  engine_calls (tr1 ++ tr2) = engine_calls tr1 ++ engine_calls tr2.
Proof. unfold engine_calls. apply omap_app. Qed.

Lemma quiet_session_events {A} (f : A -> Call) (l : list A) :
  (forall x, match f x with Ev _ => False | _ => True end) ->
  session_events (map f l) = [].
Proof.
  intros Hf. induction l as [| x l IH]; [reflexivity |].
  simpl. specialize (Hf x). destruct (f x); try contradiction; exact IH.
Qed.



(** A second [CleanupChannel] finds nothing to remove. *)
Lemma CleanupChannel_idempotent (ChannelID_String : ChannelID -> string)
  t chid :
  let t1 := fst (CleanupChannel ChannelID_String t chid) in
  fst (CleanupChannel ChannelID_String t1 chid) = t1.
Proof.
  unfold CleanupChannel.
  destruct (channelIDMap t !! chid) as [k |] eqn:Hk; simpl.
  - rewrite lookup_delete_eq. reflexivity.
  - rewrite Hk. reflexivity.
Qed.



(** ** Restart of a peer-received channel *)

(** [NewRequest] returns a request or an error, never both or neither. *)
Lemma NewRequest_cases Encode id isRestart isPull vtype voucher baseCid sel :
  (exists e,
     Restart.NewRequest Encode id isRestart isPull vtype voucher baseCid sel
     = (None, Some e)) \/
  (exists req,
     Restart.NewRequest Encode id isRestart isPull vtype voucher baseCid sel
     = (Some req, None)).
Proof.
  unfold Restart.NewRequest.
  destruct (Encode voucher) as [vbytes [e |]]; [left; eauto |].
  destruct (decide (baseCid = cid_Undef)); [left | right]; eauto.
Qed.

(** C8.  In both peer-received restart flavours, when the original request
    cannot be reconstructed or the voucher is rejected, the restart
    returns that error and hands no message to the messaging layer; and in
    every run a message is sent only after the voucher was validated. *)
Theorem C8_revalidation_before_network :
  forall Encode validateVoucher networkSend peerID isPull channel,
    let r := restartManagerPeerReceive Encode validateVoucher networkSend
               peerID isPull channel in
    (forall e,
       revalidation_fails Encode validateVoucher peerID channel isPull e ->
       fst r = Some e /\ sent_messages (snd r) = []) /\
    (forall pre to msg post,
       snd r = pre ++ Restart.SendMessage to msg :: post ->
       exists sender req base sel,
         Restart.ValidateVoucher sender req isPull base sel ∈ pre /\
         validateVoucher sender req isPull base sel = None).
Proof.
  intros Encode validateVoucher networkSend peerID isPull channel r.
  assert (Hr : r =
    match Restart.validateRestartVoucher Encode validateVoucher peerID channel
            isPull with
    | (Some err, effs) => (Some err, effs)
    | (None, effs) =>
      (networkSend (Restart.cs_OtherParty channel peerID)
         (Restart.RestartRequest (Restart.cs_ChannelID channel)),
       effs ++ [Restart.SendMessage (Restart.cs_OtherParty channel peerID)
                  (Restart.RestartRequest (Restart.cs_ChannelID channel))])
    end).
  { subst r. unfold restartManagerPeerReceive. destruct isPull; reflexivity. }
  rewrite Hr. clear Hr r. unfold revalidation_fails.
  unfold Restart.validateRestartVoucher.
  destruct (NewRequest_cases Encode (ID (Restart.cs_ChannelID channel)) false
              isPull (Restart.voucher_Type (Restart.cs_Voucher channel))
              (Restart.cs_Voucher channel) (Restart.cs_BaseCID channel)
              (Restart.cs_Selector channel)) as [[e' ->] | [req ->]]; simpl.
  - split.
    + intros e [[= ->] | (req & [=] & _)]. split; reflexivity.
    + intros pre to msg post H. destruct pre; discriminate.
  - destruct (validateVoucher _ _ _ _ _) as [e' |] eqn:Hval; simpl; split.
    + intros e [[=] | (req' & [= <-] & Hval')].
      rewrite Hval in Hval'. injection Hval' as ->. split; reflexivity.
    + intros pre to msg post H.
      destruct pre as [| x [| y pre]]; discriminate.
    + intros e [[=] | (req' & [= <-] & Hval')].
      rewrite Hval in Hval'. discriminate.
    + intros pre to msg post H.
      destruct pre as [| x [| y pre]]; try discriminate.
      * injection H as <- _.
        exists (Restart.cs_OtherParty channel peerID), req,
          (Restart.cs_BaseCID channel), (Restart.cs_Selector channel).
        split; [apply elem_of_cons; left; reflexivity | exact Hval].
      * injection H as _ H. destruct pre; discriminate.
Qed.

Lemma C8_revalidation_before_network_witness :
  revalidation_fails sampleEncode sampleValidateVoucher Sample.self
    forgedChannel false rejected /\
  (fst (restartManagerPeerReceive sampleEncode sampleValidateVoucher
          sampleNetworkSend Sample.self false forgedChannel) = Some rejected /\
   sent_messages
     (snd (restartManagerPeerReceive sampleEncode sampleValidateVoucher
             sampleNetworkSend Sample.self false forgedChannel)) = []) /\
  revalidation_fails sampleEncode sampleValidateVoucher Sample.self
    rootlessChannel true (Errorf "base CID must be defined" []) /\
  (fst (restartManagerPeerReceive sampleEncode sampleValidateVoucher
          sampleNetworkSend Sample.self true rootlessChannel)
   = Some (Errorf "base CID must be defined" []) /\
   sent_messages
     (snd (restartManagerPeerReceive sampleEncode sampleValidateVoucher
             sampleNetworkSend Sample.self true rootlessChannel)) = []).
Proof.
  assert (Hforged :
    revalidation_fails sampleEncode sampleValidateVoucher Sample.self
      forgedChannel false rejected).
  { right. eexists. split; reflexivity. }
  assert (Hrootless :
    revalidation_fails sampleEncode sampleValidateVoucher Sample.self
      rootlessChannel true (Errorf "base CID must be defined" [])).
  { left. reflexivity. }
  split; [exact Hforged |]. split.
  - destruct (C8_revalidation_before_network sampleEncode
                sampleValidateVoucher sampleNetworkSend Sample.self false
                forgedChannel) as [Hfail _].
    exact (Hfail rejected Hforged).
  - split; [exact Hrootless |].
    destruct (C8_revalidation_before_network sampleEncode
                sampleValidateVoucher sampleNetworkSend Sample.self true
                rootlessChannel) as [Hfail _].
    exact (Hfail _ Hrootless).
Defined.

(** ** Session callbacks and the registry lock *)

(** Both network-error listeners call the session while they hold the
    registry lock, whenever they find a channel. *)
Lemma gsNetworkSendErrorListener_calls_under_lock t h p0 request gserr chid :
  events t = Some h ->
  graphsyncRequestMap t !! mkKey (req_ID request) p0 = Some chid ->
  snd (gsNetworkSendErrorListener t p0 request gserr)
    = [Lock; Ev (EvSendDataError chid gserr); Unlock] /\
  callbacks_unlocked false
    (snd (gsNetworkSendErrorListener t p0 request gserr)) = false.
Proof.
  intros Hev Hk. unfold gsNetworkSendErrorListener. rewrite Hk, Hev.
  split; reflexivity.
Qed.

(** C9, evaluated.  On the restarted pull of the sample, a send error and
    a receive error reported by the engine reach the session while the
    registry lock is held: [OnSendDataError] and [OnReceiveDataError] are
    called between [Lock] and [Unlock].  The incoming-block hook, on the
    same registry, releases the lock before it calls the session. *)
Lemma C9_network_listeners_call_under_lock :
  snd (gsNetworkSendErrorListener Sample.restarted Sample.remote
         (Sample.engineRequest 2) connectionReset)
    = [Lock; Ev (EvSendDataError Sample.pull7 connectionReset); Unlock] /\
  callbacks_unlocked false
    (snd (gsNetworkSendErrorListener Sample.restarted Sample.remote
            (Sample.engineRequest 2) connectionReset)) = false /\
  snd (gsNetworkReceiveErrorListener Sample.restarted Sample.remote
         connectionReset)
    = [Lock; Ev (EvReceiveDataError Sample.pull7 connectionReset);
       Ev (EvReceiveDataError Sample.pull7 connectionReset); Unlock] /\
  callbacks_unlocked false
    (snd (gsNetworkReceiveErrorListener Sample.restarted Sample.remote
            connectionReset)) = false /\
  callbacks_unlocked false
    (snd (gsIncomingBlockHook Sample.restarted Sample.remote
            (mkResponseData 2 []) Sample.block)) = true.
Proof. repeat split; vm_compute; reflexivity. Qed.

(** Entries that are hook actions leave the lock as it is. *)
Lemma callbacks_unlocked_acts held (acts : list HookAction) tr :
  callbacks_unlocked held (map Act acts ++ tr) = callbacks_unlocked held tr.
Proof. induction acts as [| a l IH]; [reflexivity | exact IH]. Qed.

Lemma callbacks_unlocked_acts_only held (acts : list HookAction) :
  callbacks_unlocked held (map Act acts) = true.
Proof. induction acts as [| a l IH]; [reflexivity | exact IH]. Qed.

Lemma sends_as_acts exts :
  map (fun e => Act (SendExtensionData e)) exts
  = map Act (map SendExtensionData exts).
Proof. rewrite map_map. reflexivity. Qed.

Lemma updates_as_acts exts :
  map (fun e => Act (UpdateRequestWithExtensions e)) exts
  = map Act (map UpdateRequestWithExtensions exts).
Proof. rewrite map_map. reflexivity. Qed.

Section SiblingHooks.

Variable GetTransferData : list ExtensionData -> option Message * option error.
Variable ToExtensionData :
  Message -> list ExtensionName -> list ExtensionData * option error.
Variable ChannelID_String : ChannelID -> string.

Ltac unlocked :=
  repeat case_match; simplify_eq;
  repeat (progress (simpl;
                    rewrite ?sends_as_acts, ?updates_as_acts,
                      ?callbacks_unlocked_acts,
                      ?callbacks_unlocked_acts_only));
  try reflexivity.

(** The other nine hooks and listeners call the session only while the
    registry lock is not held. *)
Lemma sibling_hooks_call_unlocked t p0 request update response block status :
  callbacks_unlocked false
    (snd (gsOutgoingRequestHook GetTransferData ChannelID_String t p0 request))
    = true /\
  callbacks_unlocked false
    (snd (gsIncomingBlockHook t p0 response block)) = true /\
  callbacks_unlocked false
    (snd (gsBlockSentHook t p0 request block)) = true /\
  callbacks_unlocked false
    (snd (gsCompletedResponseListener t p0 request status)) = true /\
  callbacks_unlocked false
    (snd (gsRequestorCancelledListener t p0 request)) = true /\
  callbacks_unlocked false
    (snd (gsOutgoingBlockHook ToExtensionData t p0 request block)) = true /\
  callbacks_unlocked false
    (snd (gsRequestUpdatedHook GetTransferData ToExtensionData t p0 request
            update)) = true /\
  callbacks_unlocked false
    (snd (gsIncomingResponseHook GetTransferData ToExtensionData t p0
            response)) = true /\
  callbacks_unlocked false
    (snd (gsReqRecdHook GetTransferData ToExtensionData ChannelID_String
            t p0 request)) = true.
Proof.
  repeat apply conj.
  - unfold gsOutgoingRequestHook. unlocked.
  - unfold gsIncomingBlockHook. unlocked.
  - unfold gsBlockSentHook. unlocked.
  - unfold gsCompletedResponseListener. unlocked.
  - unfold gsRequestorCancelledListener. unlocked.
  - unfold gsOutgoingBlockHook. unlocked.
  - unfold gsRequestUpdatedHook, processExtension. unlocked.
  - unfold gsIncomingResponseHook, processExtension. unlocked.
  - unfold gsReqRecdHook. unlocked.
Qed.

End SiblingHooks.

(** ** Awaiting the engine key *)

(** A caller whose context is done after any number of wake-ups that
    found the channel still pending is told that the channel is not
    found. *)
Lemma gsKeyFromChannelID_gives_up t (ts : list Transport) ws chid :
  Forall (fun t' => channelIDMap t' !! chid = None /\ is_Some (pending t' !! chid))
    (t :: ts) ->
  exists t' tr,
    gsKeyFromChannelID t (map LatchClosed ts ++ CtxDone :: ws) chid
    = Some (zeroKey, Some ErrChannelNotFound, t', tr).
Proof.
  revert t. induction ts as [| t1 ts IH]; intros t Hall.
  - apply Forall_cons in Hall as [[Hk [l Hl]] _]. simpl.
    rewrite Hk, Hl. eauto.
  - apply Forall_cons in Hall as [[Hk [l Hl]] Hall]. simpl.
    rewrite Hk, Hl. destruct (IH t1 Hall) as (t' & tr & ->). eauto.
Qed.



(** ** Further properties: cleanup *)

Section Cleanup.

Variable ChannelID_String : ChannelID -> string.

(** X1.  [CleanupChannel] is idempotent: a second call right after the
    first finds no key, changes nothing and calls nothing but the lock.
    The same holds for a channel whose key was never assigned: its cancel
    handle and pending latch stay. *)
Theorem X1_CleanupChannel_idempotent :
  forall t chid,
    let t1 := fst (CleanupChannel ChannelID_String t chid) in
    CleanupChannel ChannelID_String t1 chid = (t1, [Lock; Unlock]) /\
    (channelIDMap t !! chid = None -> CleanupChannel ChannelID_String t chid = (t, [Lock; Unlock])).
Proof.
  intros t chid t1. subst t1. unfold CleanupChannel. split.
  - destruct (channelIDMap t !! chid) as [k |] eqn:Hk; simpl.
    + rewrite lookup_delete_eq. reflexivity.
    + rewrite Hk. reflexivity.
  - intros ->. reflexivity.
Qed.

(** X2.  [CleanupChannel] of a channel whose key is known removes the
    key from the key-to-channel map and the channel from every
    per-channel map; the records of every other channel, and every other
    key, stay as they were. *)
Theorem X2_CleanupChannel_removes_the_record :
  forall t chid key,
    channelIDMap t !! chid = Some key ->
    let t1 := fst (CleanupChannel ChannelID_String t chid) in
    (channelIDMap t1 !! chid = None /\
     graphsyncRequestMap t1 !! key = None /\
     contextCancelMap t1 !! chid = None /\
     pending t1 !! chid = None /\
     pendingExtensions t1 !! chid = None /\
     channelXferStarted t1 !! chid = None /\
     (chid ∉ requestorCancelledMap t1) /\
     (chid ∉ stores t1)) /\
    (forall c, c <> chid ->
       channelIDMap t1 !! c = channelIDMap t !! c /\
       contextCancelMap t1 !! c = contextCancelMap t !! c /\
       pending t1 !! c = pending t !! c /\
       pendingExtensions t1 !! c = pendingExtensions t !! c /\
       channelXferStarted t1 !! c = channelXferStarted t !! c /\
       (c ∈ requestorCancelledMap t1 <-> c ∈ requestorCancelledMap t) /\
       (c ∈ stores t1 <-> c ∈ stores t)) /\
    (forall k, k <> key ->
       graphsyncRequestMap t1 !! k = graphsyncRequestMap t !! k).
Proof.
  intros t chid key Hk t1. subst t1. unfold CleanupChannel. rewrite Hk.
  simpl. split; [| split].
  - rewrite !lookup_delete_eq. repeat split; try reflexivity.
    + intros Hin. apply elem_of_difference in Hin as [_ Hn].
      apply Hn, elem_of_singleton. reflexivity.
    + intros Hin. apply elem_of_difference in Hin as [_ Hn].
      apply Hn, elem_of_singleton. reflexivity.
  - intros c Hne. rewrite !lookup_delete_ne by congruence.
    repeat split; try reflexivity.
    + intros Hin. apply elem_of_difference in Hin as [Hin _]. exact Hin.
    + intros Hin. apply elem_of_difference. split; [exact Hin |].
      intros Hs. apply elem_of_singleton in Hs. contradiction.
    + intros Hin. apply elem_of_difference in Hin as [Hin _]. exact Hin.
    + intros Hin. apply elem_of_difference. split; [exact Hin |].
      intros Hs. apply elem_of_singleton in Hs. contradiction.
  - intros k Hne. rewrite lookup_delete_ne by congruence. reflexivity.
Qed.

End Cleanup.

Lemma X1_CleanupChannel_idempotent_witness :
  channelIDMap Sample.requested !! Sample.pull7 = None /\
  CleanupChannel Sample.ChannelID_String Sample.requested Sample.pull7
    = (Sample.requested, [Lock; Unlock]).
Proof.
  assert (H : channelIDMap Sample.requested !! Sample.pull7 = None)
    by (vm_compute; reflexivity).
  split; [exact H |].
  destruct (X1_CleanupChannel_idempotent Sample.ChannelID_String
              Sample.requested Sample.pull7) as [_ Hnone].
  exact (Hnone H).
Defined.

Lemma X2_CleanupChannel_removes_the_record_witness :
  channelIDMap Sample.restarted !! Sample.pull7 = Some (mkKey 2 Sample.self) /\
  channelIDMap
    (fst (CleanupChannel Sample.ChannelID_String Sample.restarted Sample.pull7))
    !! Sample.pull7 = None /\
  graphsyncRequestMap
    (fst (CleanupChannel Sample.ChannelID_String Sample.restarted Sample.pull7))
    !! mkKey 1 Sample.self = Some Sample.pull7.
Proof.
  assert (H : channelIDMap Sample.restarted !! Sample.pull7
              = Some (mkKey 2 Sample.self)) by (vm_compute; reflexivity).
  split; [exact H |].
  destruct (X2_CleanupChannel_removes_the_record Sample.ChannelID_String
              Sample.restarted Sample.pull7 _ H) as ((Hgone & _) & _ & Hkeys).
  split; [exact Hgone |].
  rewrite Hkeys by discriminate. vm_compute. reflexivity.
Defined.

(** ** Further properties: awaiting the engine key *)

(** X3.  Whatever wakes the caller, [gsKeyFromChannelID] returns either
    the key that the registry it last read holds for the channel, with a
    nil error, or the zero key with [ErrChannelNotFound]; it never returns
    another error, and never a key together with an error. *)
Theorem X3_gsKeyFromChannelID_sound :
  forall ws t chid key err t' tr,
    gsKeyFromChannelID t ws chid = Some (key, err, t', tr) ->
    (err = None /\ channelIDMap t' !! chid = Some key) \/
    (err = Some ErrChannelNotFound /\ key = zeroKey /\
     channelIDMap t' !! chid = None).
Proof.
  induction ws as [| w ws IH]; intros t chid key err t' tr; simpl.
  - destruct (channelIDMap t !! chid) as [k |] eqn:Hk.
    + intros [= <- <- <- <-]. left. split; [reflexivity | exact Hk].
    + destruct (pending t !! chid); [discriminate |].
      intros [= <- <- <- <-]. right. repeat split. exact Hk.
  - destruct (channelIDMap t !! chid) as [k |] eqn:Hk.
    + intros [= <- <- <- <-]. left. split; [reflexivity | exact Hk].
    + destruct (pending t !! chid).
      * destruct w as [| t1].
        -- intros [= <- <- <- <-]. right. repeat split. exact Hk.
        -- destruct (gsKeyFromChannelID t1 ws chid)
             as [[[[k1 e1] t2] tr1] |] eqn:Hrec; [| discriminate].
           intros [= <- <- <- <-]. exact (IH _ _ _ _ _ _ Hrec).
      * intros [= <- <- <- <-]. right. repeat split. exact Hk.
Qed.

Lemma X3_gsKeyFromChannelID_sound_witness :
  gsKeyFromChannelID Sample.requested [LatchClosed Sample.opened] Sample.pull7
    = Some (mkKey 1 Sample.self, None, Sample.opened,
            [RLock; RUnlock; RLock; RUnlock]) /\
  channelIDMap Sample.opened !! Sample.pull7 = Some (mkKey 1 Sample.self).
Proof.
  assert (H :
    gsKeyFromChannelID Sample.requested [LatchClosed Sample.opened]
      Sample.pull7
    = Some (mkKey 1 Sample.self, None, Sample.opened,
            [RLock; RUnlock; RLock; RUnlock])) by (vm_compute; reflexivity).
  split; [exact H |].
  destruct (X3_gsKeyFromChannelID_sound _ _ _ _ _ _ _ H)
    as [[_ Hk] | [Hne _]]; [exact Hk | discriminate].
Defined.

(** X4.  A caller blocked on the pending latch stays blocked until
    something wakes it: with no wake-up, a channel that is pending and has
    no key gives no result; and when the latch is closed and the key is
    there, the caller gets exactly that key. *)
Theorem X4_gsKeyFromChannelID_waits_for_the_hook :
  forall t chid latch,
    channelIDMap t !! chid = None ->
    pending t !! chid = Some latch ->
    gsKeyFromChannelID t [] chid = None /\
    (forall t' key ws,
       channelIDMap t' !! chid = Some key ->
       gsKeyFromChannelID t (LatchClosed t' :: ws) chid
       = Some (key, None, t', [RLock; RUnlock; RLock; RUnlock])).
Proof.
  intros t chid latch Hk Hp. split.
  - simpl. rewrite Hk, Hp. reflexivity.
  - intros t' key ws Hk'. simpl. rewrite Hk, Hp.
    rewrite (gsKeyFromChannelID_known _ _ _ _ Hk'). reflexivity.
Qed.

Lemma X4_gsKeyFromChannelID_waits_for_the_hook_witness :
  channelIDMap Sample.requested !! Sample.pull7 = None /\
  pending Sample.requested !! Sample.pull7 = Some 0%nat /\
  gsKeyFromChannelID Sample.requested [] Sample.pull7 = None.
Proof.
  assert (Hk : channelIDMap Sample.requested !! Sample.pull7 = None)
    by (vm_compute; reflexivity).
  assert (Hp : pending Sample.requested !! Sample.pull7 = Some 0%nat)
    by (vm_compute; reflexivity).
  split; [exact Hk |]. split; [exact Hp |].
  exact (proj1 (X4_gsKeyFromChannelID_waits_for_the_hook _ _ _ Hk Hp)).
Defined.

(** ** Further properties: what every observable registry satisfies *)

Section Invariants.

Variable GetTransferData : list ExtensionData -> option Message * option error.
Variable ToExtensionData :
  Message -> list ExtensionName -> list ExtensionData * option error.
Variable ChannelID_String : ChannelID -> string.
Variable EncodeCidSet : gset Cid -> list Byte.byte * option error.

Local Abbreviation run' :=
  (run GetTransferData ToExtensionData ChannelID_String EncodeCidSet).

Ltac leaf :=
  repeat case_match; simpl in *; simplify_eq; simpl;
  solve [econstructor; first [reflexivity | eassumption]].

Ltac one Hin :=
  repeat case_match; simplify_eq; simpl in Hin; try contradiction;
  destruct Hin as [<- | []]; leaf.

Ltac awaited t ctxDone chid :=
  destruct (events t); [| intros [<- | []]; leaf];
  let Hk := fresh "Hk" in
  destruct (gsKeyFromChannelID t (wakes ctxDone) chid)
    as [[[[?k0 ?e0] ?t1] ?tr0] |] eqn:Hk; [| intros []];
  apply gsKeyFromChannelID_settled in Hk as ->;
  let Hin := fresh "Hin" in intros Hin; one Hin.

Ltac by_operation o t :=
  destruct o; simpl;
  [ intros [<- | []]; unfold SetEventHandler; leaf
  | unfold OpenChannel; let Hin := fresh "Hin" in intros Hin;
    repeat case_match; simpl in Hin;
    repeat (rewrite in_map_iff in Hin; destruct Hin as (? & <- & Hin));
    try (destruct Hin as [<- | []]); leaf
  | unfold PauseChannel;
    match goal with |- context [wakes ?d] =>
      match goal with |- context [gsKeyFromChannelID _ _ ?c] =>
        awaited t d c end end
  | unfold ResumeChannel;
    match goal with |- context [wakes ?d] =>
      match goal with |- context [gsKeyFromChannelID _ _ ?c] =>
        awaited t d c end end
  | unfold CloseChannel;
    match goal with |- context [wakes ?d] =>
      match goal with |- context [gsKeyFromChannelID _ _ ?c] =>
        awaited t d c end end
  | intros [<- | []]; unfold CleanupChannel; leaf
  | intros [<- | []]; unfold UseStore; leaf
  | intros [<- | []]; unfold Shutdown; leaf
  | intros [<- | []]; unfold gsOutgoingRequestHook; leaf
  | intros [<- | []]; unfold gsReqRecdHook; leaf
  | intros [<- | []]; unfold gsIncomingBlockHook; leaf
  | intros [<- | []]; unfold gsOutgoingBlockHook; leaf
  | intros [<- | []]; unfold gsBlockSentHook; leaf
  | intros [<- | []]; unfold gsIncomingResponseHook; leaf
  | intros [<- | []]; unfold gsRequestUpdatedHook; leaf
  | intros [<- | []]; unfold gsCompletedResponseListener; leaf
  | intros [<- | []]; unfold gsRequestorCancelledListener; leaf
  | intros [<- | []]; unfold gsNetworkSendErrorListener; leaf
  | intros [<- | []]; unfold gsNetworkReceiveErrorListener; leaf ].

Lemma run_latches o t t' : In t' (run' o t) -> latches_change t t'.
Proof. by_operation o t. Qed.

Lemma run_deferred o t t' : In t' (run' o t) -> deferred_change t t'.
Proof. by_operation o t. Qed.


End Invariants.

(** X5.  In every observable registry, a channel with a pending latch
    has a cancel handle: latches are created by [OpenChannel] together
    with the handle, and only cleanup removes a handle. *)
Theorem X5_pending_latch_has_cancel_handle :
  forall GetTransferData ToExtensionData ChannelID_String EncodeCidSet t,
    observable GetTransferData ToExtensionData ChannelID_String EncodeCidSet
      t ->
    pending_has_handle t.
Proof.
  intros G T S E t Hobs. induction Hobs as [pid gs | o t t' _ IH Hin].
  - intros c [l Hl]. simpl in Hl. rewrite lookup_empty in Hl. discriminate.
  - intros c. apply run_latches in Hin.
    destruct Hin as [Hp Hc | c0 l rq Hp Hc | c0 Hp Hc | c0 Hp Hc];
      rewrite Hp, Hc.
    + apply IH.
    + destruct (decide (c0 = c)) as [-> | Hne].
      * rewrite !lookup_insert_eq. eauto.
      * rewrite !lookup_insert_ne by done. apply IH.
    + destruct (decide (c0 = c)) as [-> | Hne].
      * rewrite lookup_delete_eq. intros [? [=]].
      * rewrite lookup_delete_ne by done. apply IH.
    + destruct (decide (c0 = c)) as [-> | Hne].
      * rewrite lookup_delete_eq. intros [? [=]].
      * rewrite !lookup_delete_ne by done. apply IH.
Qed.

(** X6.  In every observable registry, extensions are deferred only for
    a channel whose requestor-cancelled flag is set. *)
Theorem X6_deferred_only_while_cancelled :
  forall GetTransferData ToExtensionData ChannelID_String EncodeCidSet t,
    observable GetTransferData ToExtensionData ChannelID_String EncodeCidSet
      t ->
    deferred_only_while_cancelled t.
Proof.
  intros G T S E t Hobs. induction Hobs as [pid gs | o t t' _ IH Hin].
  - intros c [l Hl]. simpl in Hl. rewrite lookup_empty in Hl. discriminate.
  - intros c. apply run_deferred in Hin.
    destruct Hin as [Hp Hc | c0 Hp Hc | c0 l Hin Hp Hc | c0 Hp Hc];
      rewrite Hp, Hc.
    + apply IH.
    + intros Hs. apply elem_of_union. right. apply IH, Hs.
    + destruct (decide (c0 = c)) as [-> | Hne].
      * intros _. exact Hin.
      * rewrite lookup_insert_ne by done. apply IH.
    + destruct (decide (c0 = c)) as [-> | Hne].
      * rewrite lookup_delete_eq. intros [? [=]].
      * rewrite lookup_delete_ne by done. intros Hs.
        apply elem_of_difference. split; [apply IH, Hs |].
        intros Hc'. apply elem_of_singleton in Hc'. congruence.
Qed.



(** The pull of the sample once it has been reopened: the latch of the
    new engine request is pending. *)
Lemma Sample_rerequested_observable :
  observable Sample.GetTransferData Sample.ToExtensionData
    Sample.ChannelID_String Sample.EncodeCidSet Sample.rerequested.
Proof.
  eapply (observable_step _ _ _ _ Sample.reopen Sample.opened);
    [| left; reflexivity].
  eapply (observable_step _ _ _ _
            (OpOutgoingRequestHook Sample.remote (Sample.engineRequest 1))
            Sample.requested); [| left; reflexivity].
  eapply (observable_step _ _ _ _ Sample.reopen (Sample.bound (None, None)));
    [| left; reflexivity].
  eapply (observable_step _ _ _ _
            (OpSetEventHandler (Sample.session (None, None))));
    [| left; reflexivity].
  apply (observable_new _ _ _ _ Sample.self Sample.engine).
Defined.

Lemma X5_pending_latch_has_cancel_handle_witness :
  observable Sample.GetTransferData Sample.ToExtensionData
    Sample.ChannelID_String Sample.EncodeCidSet Sample.rerequested /\
  pending Sample.rerequested !! Sample.pull7 = Some 3%nat /\
  is_Some (contextCancelMap Sample.rerequested !! Sample.pull7).
Proof.
  assert (Hlatch : pending Sample.rerequested !! Sample.pull7 = Some 3%nat)
    by (vm_compute; reflexivity).
  split; [exact Sample_rerequested_observable |].
  split; [exact Hlatch |].
  apply (X5_pending_latch_has_cancel_handle _ _ _ _ _
           Sample_rerequested_observable).
  exists 3%nat. exact Hlatch.
Defined.

(** The responder has answered a pull, the requestor has cancelled its
    engine request and [ResumeChannel] has queued the session's
    response. *)
Lemma answeredDeferring_observable :
  observable Sample.GetTransferData Sample.ToExtensionData
    Sample.ChannelID_String Sample.EncodeCidSet answeredDeferring.
Proof.
  eapply (observable_step _ _ _ _
            (OpResumeChannel false (Some Sample.accepted7) Sample.served7)
            answeredCancelled); [| left; reflexivity].
  eapply (observable_step _ _ _ _
            (OpRequestorCancelledListener Sample.remote
               (Sample.engineRequest 1))
            answeredServing); [| left; reflexivity].
  eapply (observable_step _ _ _ _
            (OpReqRecdHook Sample.remote (Sample.engineRequest 1))
            (Sample.bound (None, None))); [| left; reflexivity].
  eapply (observable_step _ _ _ _
            (OpSetEventHandler (Sample.session (None, None))));
    [| left; reflexivity].
  apply (observable_new _ _ _ _ Sample.self Sample.engine).
Defined.

Lemma X6_deferred_only_while_cancelled_witness :
  observable Sample.GetTransferData Sample.ToExtensionData
    Sample.ChannelID_String Sample.EncodeCidSet answeredDeferring /\
  pendingExtensions answeredDeferring !! Sample.served7
    = Some Sample.deferred7 /\
  Sample.served7 ∈ requestorCancelledMap answeredDeferring.
Proof.
  assert (Hqueued : pendingExtensions answeredDeferring !! Sample.served7
                    = Some Sample.deferred7) by (vm_compute; reflexivity).
  split; [exact answeredDeferring_observable |].
  split; [exact Hqueued |].
  apply (X6_deferred_only_while_cancelled _ _ _ _ _
           answeredDeferring_observable).
  exists Sample.deferred7. exact Hqueued.
Defined.


(** ** Further properties: store overrides *)

(** X8.  [UseStore] registers the persistence option of a channel once:
    after a successful call the channel is flagged and a further call
    returns nil without calling the engine; when the engine refuses, the
    error is returned and the channel is not flagged.  [CleanupChannel]
    of a flagged channel with a known key unregisters the option under
    the same name, and makes no engine call for an unflagged one. *)
Theorem X8_UseStore_registers_once :
  forall ChannelID_String t chid,
    let name := persistenceOption ChannelID_String chid in
    let use := UseStore ChannelID_String in
    (chid ∉ stores t ->
     gs t (GsRegisterPersistenceOption name) = None ->
     fst (fst (use t chid)) = None /\
     engine_calls (snd (use t chid)) = [GsRegisterPersistenceOption name] /\
     chid ∈ stores (snd (fst (use t chid))) /\
     use (snd (fst (use t chid))) chid
       = (None, snd (fst (use t chid)), [Lock; Unlock])) /\
    (forall e,
       chid ∉ stores t ->
       gs t (GsRegisterPersistenceOption name) = Some e ->
       use t chid = (Some e, t, [Lock; Gs (GsRegisterPersistenceOption name);
                                 Unlock])) /\
    (forall key,
       channelIDMap t !! chid = Some key ->
       engine_calls (snd (CleanupChannel ChannelID_String t chid))
       = if decide (chid ∈ stores t)
         then [GsUnregisterPersistenceOption name] else []).
Proof.
  intros S t chid name use. subst name use. split; [| split].
  - intros Hnin Hok. unfold UseStore.
    destruct (decide (chid ∈ stores t)) as [| _]; [contradiction |].
    rewrite Hok. simpl. repeat split.
    + apply elem_of_union. left. apply elem_of_singleton. reflexivity.
    + destruct (decide (chid ∈ {[chid]} ∪ stores t)) as [_ | Hn];
        [reflexivity |].
      exfalso. apply Hn, elem_of_union. left. apply elem_of_singleton.
      reflexivity.
  - intros e Hnin Herr. unfold UseStore.
    destruct (decide (chid ∈ stores t)) as [| _]; [contradiction |].
    rewrite Herr. reflexivity.
  - intros key Hk. unfold CleanupChannel. rewrite Hk. simpl.
    rewrite engine_calls_app.
    destruct (decide (chid ∈ stores t)); reflexivity.
Qed.

Lemma X8_UseStore_registers_once_witness :
  (Sample.pull7 ∉ stores Sample.restarted) /\
  fst (fst (UseStore Sample.ChannelID_String Sample.restarted Sample.pull7))
    = None /\
  Sample.pull7
    ∈ stores
        (snd (fst (UseStore Sample.ChannelID_String Sample.restarted
                     Sample.pull7))).
Proof.
  assert (Hn : Sample.pull7 ∉ stores Sample.restarted).
  { intros Hin. apply elem_of_empty in Hin. exact Hin. }
  split; [exact Hn |].
  destruct (X8_UseStore_registers_once Sample.ChannelID_String
              Sample.restarted Sample.pull7) as [Hok _].
  destruct (Hok Hn eq_refl) as (Hnil & _ & Hin & _).
  split; [exact Hnil | exact Hin].
Defined.

(** ** Further properties: opening a channel *)

Section Opening.

Variable ToExtensionData :
  Message -> list ExtensionName -> list ExtensionData * option error.
Variable EncodeCidSet : gset Cid -> list Byte.byte * option error.

(** X9.  [OpenChannel] fails early without touching anything: with no
    session bound it returns [ErrHandlerNotSet], and when the message
    cannot be serialized it returns the codec's error; in both cases the
    registry is unchanged and nothing is called, not even a lock. *)
Theorem X9_OpenChannel_fails_early :
  forall t now ctx closedAt dataSender chid root stor dns msg,
    (events t = None ->
     OpenChannel ToExtensionData EncodeCidSet t now ctx closedAt dataSender chid root stor dns msg
     = [(Some ErrHandlerNotSet, t, [])]) /\
    (forall h exts err,
       events t = Some h ->
       ToExtensionData msg (supportedExtensions t) = (exts, Some err) ->
       OpenChannel ToExtensionData EncodeCidSet t now ctx closedAt dataSender chid root stor dns msg
       = [(Some err, t, [])]).
Proof.
  intros. unfold OpenChannel. split.
  - intros ->. reflexivity.
  - intros h exts err -> ->. reflexivity.
Qed.

(** X10.  A first [OpenChannel] for a channel (no cancel handle yet),
    with a session bound and a message that serializes, has one outcome.
    It records a pending latch and a cancel handle for the channel.  When
    the do-not-send list is empty or encodes, it returns nil and calls
    the engine once, with the context of the cancel handle and with the
    message's extensions followed by the do-not-send extension if the
    list is not empty, then starts the executor on that context and on
    the handle's latch.  When the list does not encode, it returns the
    wrapped error and makes no engine call, yet the latch and the handle
    stay recorded. *)
Theorem X10_OpenChannel_first_open :
  forall t now ctx closedAt dataSender chid root stor dns msg h exts,
    events t = Some h ->
    ToExtensionData msg (supportedExtensions t) = (exts, None) ->
    contextCancelMap t !! chid = None ->
    exists err t1 tr latch handle,
      OpenChannel ToExtensionData EncodeCidSet t now ctx closedAt dataSender chid root stor dns msg
        = [(err, t1, tr)] /\
      pending t1 !! chid = Some latch /\
      contextCancelMap t1 !! chid = Some handle /\
      channelIDMap t1 = channelIDMap t /\
      graphsyncRequestMap t1 = graphsyncRequestMap t /\
      (dns = [] ->
       err = None /\
       tr = [ChanLock chid; Lock; Unlock;
             Gs (GsRequest (cancel handle) dataSender root stor exts);
             GoExecuteGsRequest (cancel handle) chid (completed handle);
             ChanUnlock chid]) /\
      (dns <> [] -> snd (EncodeCidSet (list_to_set dns)) = None ->
       err = None /\
       tr = [ChanLock chid; Lock; Unlock;
             Gs (GsRequest (cancel handle) dataSender root stor
                   (exts ++ [mkExt ExtensionDoNotSendCIDs
                               (fst (EncodeCidSet (list_to_set dns)))]));
             GoExecuteGsRequest (cancel handle) chid (completed handle);
             ChanUnlock chid]) /\
      (forall e, dns <> [] -> snd (EncodeCidSet (list_to_set dns)) = Some e ->
       err = Some (ErrorfW "failed to encode cid set: %w" e) /\
       engine_calls tr = []).
Proof.
  intros t now ctx closedAt dataSender chid root stor dns msg h exts
    Hev Hser Hnew.
  unfold OpenChannel. rewrite Hev, Hser, Hnew.
  destruct dns as [| c dns].
  - simpl. do 5 eexists. split; [reflexivity |]. simpl.
    rewrite !lookup_insert_eq.
    split; [reflexivity |]. split; [reflexivity |].
    split; [reflexivity |]. split; [reflexivity |].
    split; [| split].
    + intros _. rewrite app_nil_r. split; reflexivity.
    + intros Hne. contradiction.
    + intros e Hne. contradiction.
  - destruct (EncodeCidSet (list_to_set (c :: dns))) as [bz [e |]] eqn:Henc;
      cbn -[list_to_set].
    + do 5 eexists. split; [reflexivity |]. simpl.
      rewrite !lookup_insert_eq.
      split; [reflexivity |]. split; [reflexivity |].
      split; [reflexivity |]. split; [reflexivity |].
      split; [| split].
      * discriminate.
      * intros _ [=].
      * intros e' _ [= <-]. split; reflexivity.
    + do 5 eexists. split; [reflexivity |]. simpl.
      rewrite !lookup_insert_eq.
      split; [reflexivity |]. split; [reflexivity |].
      split; [reflexivity |]. split; [reflexivity |].
      split; [| split].
      * discriminate.
      * intros _ _. split; reflexivity.
      * intros e' _ [=].
Qed.

End Opening.

Lemma X9_OpenChannel_fails_early_witness :
  OpenChannel Sample.ToExtensionData Sample.EncodeCidSet
    (NewTransport Sample.self Sample.engine) 0 Sample.patient Sample.closedAt
    Sample.remote Sample.pull7 "root" "selector" [] Sample.request7
    = [(Some ErrHandlerNotSet, NewTransport Sample.self Sample.engine, [])] /\
  OpenChannel Sample.ToExtensionData Sample.EncodeCidSet
    (Sample.bound (None, None)) 0 Sample.patient Sample.closedAt
    Sample.remote Sample.pull7 "root" "selector" [] Sample.tooBig
    = [(Some Sample.malformed, Sample.bound (None, None), [])].
Proof.
  split.
  - apply (X9_OpenChannel_fails_early Sample.ToExtensionData
             Sample.EncodeCidSet). reflexivity.
  - apply (proj2 (X9_OpenChannel_fails_early Sample.ToExtensionData
                    Sample.EncodeCidSet _ _ _ _ _ _ _ _ _ _)
             (Sample.session (None, None)) []); reflexivity.
Defined.

Lemma X10_OpenChannel_first_open_witness :
  exists err t1 tr latch handle,
    OpenChannel Sample.ToExtensionData Sample.EncodeCidSet
      (Sample.bound (None, None)) 0 Sample.patient Sample.closedAt
      Sample.remote Sample.pull7 "root" "selector" ["c1"; "c2"]
      Sample.request7 = [(err, t1, tr)] /\
    pending t1 !! Sample.pull7 = Some latch /\
    contextCancelMap t1 !! Sample.pull7 = Some handle.
Proof.
  destruct (X10_OpenChannel_first_open Sample.ToExtensionData
              Sample.EncodeCidSet (Sample.bound (None, None)) 0 Sample.patient
              Sample.closedAt Sample.remote Sample.pull7 "root" "selector"
              ["c1"; "c2"] Sample.request7 (Sample.session (None, None))
              (fst (Sample.ToExtensionData Sample.request7
                      defaultSupportedExtensions))
              eq_refl eq_refl eq_refl)
    as (err & t1 & tr & latch & handle & H1 & H2 & H3 & _).
  exists err, t1, tr, latch, handle. auto.
Defined.

(** ** Further properties: cancel-and-reopen *)

(** A caller that never gives up is never refused by the wait, and the
    wait always ends: the ceiling sees to that. *)
Lemma waitForCancelComplete_patient now err completed :
  waitForCancelComplete now (mkContext None err) completed <> [] /\
  Forall (fun w => snd w = None)
    (waitForCancelComplete now (mkContext None err) completed).
Proof.
  destruct completed as [tc |];
    decide_select; (split; [discriminate | repeat constructor]).
Qed.

Lemma waitForCancelComplete_outcomes now ctx completed :
  waitForCancelComplete now ctx completed <> [] /\
  Forall (fun w =>
            now <= fst w <= now + maxGSCancelWait + minGSCancelWait /\
            (snd w = None \/ snd w = Some (ctx_Err ctx)))
    (waitForCancelComplete now ctx completed).
Proof.
  destruct ctx as [[td |] err], completed as [tc |];
    unfold minGSCancelWait, maxGSCancelWait;
    decide_select;
    (split; [discriminate |
             repeat constructor; cbn [fst snd ctx_Err]; auto; lia]).
Qed.

(** X11.  The cancel wait always ends, whatever the latch and the
    caller's context do: it has an outcome, every outcome returns between
    [now] and [now + maxGSCancelWait + minGSCancelWait], and the only
    error it returns is the error of the caller's context. *)
Theorem X11_waitForCancelComplete_is_bounded :
  forall now ctx completed,
    waitForCancelComplete now ctx completed <> [] /\
    Forall (fun w =>
              now <= fst w <= now + maxGSCancelWait + minGSCancelWait /\
              (snd w = None \/ snd w = Some (ctx_Err ctx)))
      (waitForCancelComplete now ctx completed).
Proof. exact waitForCancelComplete_outcomes. Qed.

Section Reopening.

Variable ToExtensionData :
  Message -> list ExtensionName -> list ExtensionData * option error.
Variable EncodeCidSet : gset Cid -> list Byte.byte * option error.

(** X12.  [OpenChannel] for a channel that already has a cancel handle
    always has an outcome, and every outcome first cancels the old
    request under the registry lock and ends by releasing the channel
    lock.  An outcome either returns the error of the caller's context,
    with the registry unchanged and nothing else called, or replaces the
    cancel handle and the pending latch by new ones.  A caller whose
    context is never done always gets the second. *)
Theorem X12_OpenChannel_cancels_before_reopening :
  forall t now ctx closedAt dataSender chid root stor dns msg h exts old,
    events t = Some h ->
    ToExtensionData msg (supportedExtensions t) = (exts, None) ->
    contextCancelMap t !! chid = Some old ->
    let outcomes :=
      OpenChannel ToExtensionData EncodeCidSet t now ctx closedAt dataSender
        chid root stor dns msg in
    let reopened r :=
      contextCancelMap (snd (fst r)) !! chid
        = Some (mkCancelRequest (S (nextID t)) (S (S (nextID t)))) /\
      pending (snd (fst r)) !! chid = Some (nextID t) in
    outcomes <> [] /\
    Forall (fun r =>
              exists rest,
                snd r = [ChanLock chid; Lock; CancelCtx (cancel old); Unlock]
                          ++ rest ++ [ChanUnlock chid] /\
                ((fst (fst r) = Some (ctx_Err ctx) /\ snd (fst r) = t /\
                  rest = []) \/ reopened r))
      outcomes /\
    (ctx_Done ctx = None -> Forall reopened outcomes).
Proof.
  intros t now ctx closedAt dataSender chid root stor dns msg h exts old
    Hev Hser Hold outcomes reopened. subst outcomes reopened.
  unfold OpenChannel. rewrite Hev, Hser, Hold.
  destruct (waitForCancelComplete_outcomes now ctx (closedAt (completed old)))
    as [Hne Hall].
  rewrite map_map. split; [| split].
  - destruct (waitForCancelComplete now ctx (closedAt (completed old)));
      [contradiction | discriminate].
  - apply Forall_map. eapply Forall_impl; [exact Hall |].
    intros [tw [e |]] [_ [Hw | Hw]]; simpl in Hw |- *; try discriminate.
    + injection Hw as ->. exists []. split; [reflexivity |]. left. auto.
    + destruct dns as [| c dns].
      * eexists [Lock; Unlock; _; _]. split; [reflexivity |]. right.
        simpl. rewrite !lookup_insert_eq. auto.
      * destruct (EncodeCidSet (list_to_set (c :: dns))) as [bz [e |]];
          cbn -[list_to_set].
        -- exists [Lock; Unlock]. split; [reflexivity |]. right.
           rewrite !lookup_insert_eq. auto.
        -- eexists [Lock; Unlock; _; _]. split; [reflexivity |]. right.
           rewrite !lookup_insert_eq. auto.
  - intros Hpatient. apply Forall_map.
    destruct ctx as [done err]. simpl in Hpatient. subst done.
    destruct (waitForCancelComplete_patient now err
                (closedAt (completed old))) as [_ Hnil].
    eapply Forall_impl; [exact Hnil |].
    intros [tw e] Hw. simpl in Hw. subst e. simpl.
    destruct dns as [| c dns].
    + simpl. rewrite !lookup_insert_eq. auto.
    + destruct (EncodeCidSet (list_to_set (c :: dns))) as [bz [e |]];
        cbn -[list_to_set]; rewrite !lookup_insert_eq; auto.
Qed.

End Reopening.

Lemma X12_OpenChannel_cancels_before_reopening_witness :
  contextCancelMap Sample.opened !! Sample.pull7
    = Some (mkCancelRequest 1%nat 2%nat) /\
  OpenChannel Sample.ToExtensionData Sample.EncodeCidSet Sample.opened 0
    Sample.patient Sample.closedAt Sample.remote Sample.pull7 "root"
    "selector" [] Sample.request7 <> [].
Proof.
  assert (Hold : contextCancelMap Sample.opened !! Sample.pull7
                 = Some (mkCancelRequest 1%nat 2%nat)) by (vm_compute; reflexivity).
  split; [exact Hold |].
  exact (proj1 (X12_OpenChannel_cancels_before_reopening
                  Sample.ToExtensionData Sample.EncodeCidSet Sample.opened 0
                  Sample.patient Sample.closedAt Sample.remote Sample.pull7
                  "root" "selector" [] Sample.request7
                  (Sample.session (None, None))
                  (fst (Sample.ToExtensionData Sample.request7
                          defaultSupportedExtensions))
                  (mkCancelRequest 1%nat 2%nat) eq_refl eq_refl Hold)).
Defined.

(** ** Further properties: the hooks *)

Section Hooks.

Variable GetTransferData : list ExtensionData -> option Message * option error.
Variable ToExtensionData :
  Message -> list ExtensionName -> list ExtensionData * option error.
Variable ChannelID_String : ChannelID -> string.


End Hooks.


(** ** Further properties: block hooks *)

Section BlockHooks.

Variable ToExtensionData :
  Message -> list ExtensionName -> list ExtensionData * option error.

Lemma session_events_sends exts : session_events (sends exts) = [].
Proof. apply quiet_session_events. intros; exact I. Qed.

(** The actions and the callback of the outgoing-block hook for a block
    that is sent and whose request the registry knows. *)
Lemma gsOutgoingBlockHook_known t h p0 request block chid :
  events t = Some h ->
  graphsyncRequestMap t !! mkKey (req_ID request) p0 = Some chid ->
  BlockSizeOnWire block <> 0%N ->
  let answer := OnDataQueued h chid (blk_Link block) (BlockSize block) in
  let r := gsOutgoingBlockHook ToExtensionData t p0 request block in
  fst r = t /\
  session_events (snd r)
    = [EvDataQueued chid (blk_Link block) (BlockSize block)] /\
  hook_actions (snd r)
    = if isFatal (snd answer) then [TerminateWithError (snd answer)]
      else (if isPause (snd answer) then [PauseResponse] else [])
             ++ match fst answer with
                | None => []
                | Some m =>
                  match ToExtensionData m (supportedExtensions t) with
                  | (_, Some e) => [TerminateWithError (Some e)]
                  | (exts, None) => map SendExtensionData exts
                  end
                end.
Proof.
  intros Hev Hk Hsize answer r. subst answer r. unfold gsOutgoingBlockHook.
  apply N.eqb_neq in Hsize. rewrite Hsize, Hk, Hev.
  destruct (OnDataQueued h chid (blk_Link block) (BlockSize block))
    as [msg err]. cbn [fst snd].
  destruct (isFatal err); [repeat split; reflexivity |].
  destruct msg as [m |].
  - destruct (ToExtensionData m (supportedExtensions t)) as [l [e |]].
    + destruct (isPause err); repeat split; reflexivity.
    + cbn [fst snd]. split; [reflexivity |].
      rewrite !session_events_app, !hook_actions_app.
      fold (sends l). rewrite hook_actions_sends.
      rewrite session_events_sends.
      destruct (isPause err); split; reflexivity.
  - destruct (isPause err); repeat split; reflexivity.
Qed.

(** X14.  For a block of a request the registry knows, the incoming-block
    hook and the outgoing-block hook call the session once and leave the
    registry alone.  On the pause sentinel they pause first; on any
    other error they terminate with that error
    and do nothing else, so the outgoing-block hook sends none of the
    extensions of the message the session returned; on nil they do not
    pause. *)
Theorem X14_block_hooks_pause_or_terminate :
  forall t h p0 request response block chid,
    events t = Some h ->
    (graphsyncRequestMap t !! mkKey (resp_RequestID response) (peerID t)
       = Some chid ->
     let err := OnDataReceived h chid (blk_Link block) (BlockSize block) in
     let r := gsIncomingBlockHook t p0 response block in
     fst r = t /\
     session_events (snd r)
       = [EvDataReceived chid (blk_Link block) (BlockSize block)] /\
     hook_actions (snd r)
       = match err with
         | None => []
         | Some ErrPause => [PauseRequest]
         | Some _ => [TerminateWithError err]
         end) /\
    (graphsyncRequestMap t !! mkKey (req_ID request) p0 = Some chid ->
     BlockSizeOnWire block <> 0%N ->
     let answer := OnDataQueued h chid (blk_Link block) (BlockSize block) in
     let r := gsOutgoingBlockHook ToExtensionData t p0 request block in
     fst r = t /\
     session_events (snd r)
       = [EvDataQueued chid (blk_Link block) (BlockSize block)] /\
     (snd answer = Some ErrPause ->
      head (hook_actions (snd r)) = Some PauseResponse) /\
     (forall e, snd answer = Some e -> e <> ErrPause ->
      hook_actions (snd r) = [TerminateWithError (Some e)]) /\
     (snd answer = None -> PauseResponse ∉ hook_actions (snd r))).
Proof.
  intros t h p0 request response block chid Hev. split.
  - intros Hk err r. subst err r. unfold gsIncomingBlockHook.
    rewrite Hk, Hev.
    destruct (OnDataReceived h chid (blk_Link block) (BlockSize block))
      as [e |]; [destruct e |]; repeat split; reflexivity.
  - intros Hk Hsize answer r.
    destruct (gsOutgoingBlockHook_known t h p0 request block chid Hev Hk Hsize)
      as (Hsame & Hevs & Hacts).
    fold answer in Hacts. fold r in Hsame, Hevs, Hacts.
    split; [exact Hsame |]. split; [exact Hevs |]. rewrite Hacts.
    destruct answer as [msg err]. cbn [fst snd]. split; [| split].
    + intros ->. reflexivity.
    + intros e -> Hne.
      assert (Hf : isFatal (Some e) = true).
      { unfold isFatal, isPause.
        rewrite bool_decide_eq_true_2 by discriminate.
        rewrite bool_decide_eq_false_2 by congruence. reflexivity. }
      rewrite Hf. reflexivity.
    + intros ->. change (isFatal None) with false.
      change (isPause None) with false. cbn iota. simpl.
      destruct msg as [m |]; [| apply not_elem_of_nil].
      destruct (ToExtensionData m (supportedExtensions t)) as [l [e |]].
      * intros Hin. apply list_elem_of_singleton in Hin. discriminate.
      * intros Hin. apply list_elem_of_fmap in Hin as (? & [=] & _).
Qed.

End BlockHooks.

Lemma X14_block_hooks_pause_or_terminate_witness :
  hook_actions
    (snd (gsIncomingBlockHook Sample.restarted Sample.remote
            (mkResponseData 2 []) Sample.block)) = [] /\
  head (hook_actions
          (snd (gsOutgoingBlockHook Sample.ToExtensionData
                  (Sample.serving (None, Some ErrPause)
                     (mkKey 1 Sample.remote))
                  Sample.remote (Sample.engineRequest 1) Sample.block)))
    = Some PauseResponse.
Proof.
  split.
  - destruct (X14_block_hooks_pause_or_terminate Sample.ToExtensionData
                Sample.restarted (Sample.session (None, None)) Sample.remote
                (Sample.engineRequest 2) (mkResponseData 2 []) Sample.block
                Sample.pull7 eq_refl) as [Hin _].
    assert (Hk : graphsyncRequestMap Sample.restarted
                   !! mkKey 2 (peerID Sample.restarted) = Some Sample.pull7)
      by (vm_compute; reflexivity).
    destruct (Hin Hk) as (_ & _ & Hacts). exact Hacts.
  - destruct (X14_block_hooks_pause_or_terminate Sample.ToExtensionData
                (Sample.serving (None, Some ErrPause) (mkKey 1 Sample.remote))
                (Sample.session (None, Some ErrPause)) Sample.remote
                (Sample.engineRequest 1) (mkResponseData 1 []) Sample.block
                Sample.served7 eq_refl) as [_ Hout].
    assert (Hk : graphsyncRequestMap
                   (Sample.serving (None, Some ErrPause)
                      (mkKey 1 Sample.remote))
                   !! mkKey 1 Sample.remote = Some Sample.served7)
      by (vm_compute; reflexivity).
    assert (Hsize : BlockSizeOnWire Sample.block <> 0%N) by discriminate.
    destruct (Hout Hk Hsize) as (_ & _ & Hpause & _).
    apply Hpause. reflexivity.
Defined.

(** X15.  A block that is not sent on the wire (size on the wire 0)
    makes the block-sent listener and the outgoing-block hook return at
    once: no lock, no session callback, no hook action.  For a block that
    is sent, the block-sent listener reports the size of the block, not
    its size on the wire, and never acts on the request. *)
Theorem X15_blocks_not_on_the_wire :
  forall ToExtensionData t p0 request block,
    (BlockSizeOnWire block = 0%N ->
     gsBlockSentHook t p0 request block = (t, []) /\
     gsOutgoingBlockHook ToExtensionData t p0 request block = (t, [])) /\
    (forall h chid,
       BlockSizeOnWire block <> 0%N ->
       events t = Some h ->
       graphsyncRequestMap t !! mkKey (req_ID request) p0 = Some chid ->
       gsBlockSentHook t p0 request block
       = (t, [RLock; RUnlock;
              Ev (EvDataSent chid (blk_Link block) (BlockSize block))])).
Proof.
  intros T t p0 request block. split.
  - intros Hz. unfold gsBlockSentHook, gsOutgoingBlockHook. rewrite Hz.
    split; reflexivity.
  - intros h chid Hnz Hev Hk. unfold gsBlockSentHook.
    apply N.eqb_neq in Hnz. rewrite Hnz, Hk, Hev. reflexivity.
Qed.

Lemma X15_blocks_not_on_the_wire_witness :
  gsOutgoingBlockHook Sample.ToExtensionData
    (Sample.serving (None, None) (mkKey 1 Sample.remote)) Sample.remote
    (Sample.engineRequest 1) (mkBlock "link" 1024 0)
  = (Sample.serving (None, None) (mkKey 1 Sample.remote), []).
Proof.
  destruct (X15_blocks_not_on_the_wire Sample.ToExtensionData
              (Sample.serving (None, None) (mkKey 1 Sample.remote))
              Sample.remote (Sample.engineRequest 1) (mkBlock "link" 1024 0))
    as [Hzero _].
  exact (proj2 (Hzero eq_refl)).
Defined.

(** ** Further properties: updates, cancellation and resumption *)

Section Updates.

Variable GetTransferData : list ExtensionData -> option Message * option error.
Variable ToExtensionData :
  Message -> list ExtensionName -> list ExtensionData * option error.
Variable ChannelID_String : ChannelID -> string.

(** X16.  An update whose payload runs against the direction of the
    channel is refused without telling the session: a request carried
    over a channel that is not the remote peer's pull, or a response
    carried over a channel that is not this node's push, makes the
    incoming-response hook and the request-updated hook terminate the
    engine request with an explicit error and nothing else. *)
Theorem X16_updates_against_the_channel_are_refused :
  forall t h p0 chid msg exts,
    events t = Some h ->
    GetTransferData exts = (Some msg, None) ->
    chid <>
      (if IsRequest msg then mkChannelID p0 (peerID t) (MsgTransferID msg)
       else mkChannelID (peerID t) p0 (MsgTransferID msg)) ->
    let refusal :=
      ErrorNew (if IsRequest msg then "received request on response channel"
                else "received response on request channel") in
    (forall id,
       graphsyncRequestMap t !! mkKey id (peerID t) = Some chid ->
       gsIncomingResponseHook GetTransferData ToExtensionData t p0
         (mkResponseData id exts)
       = (t, [RLock; RUnlock; Act (TerminateWithError (Some refusal))])) /\
    (forall request,
       graphsyncRequestMap t !! mkKey (req_ID request) p0 = Some chid ->
       gsRequestUpdatedHook GetTransferData ToExtensionData t p0 request
         (mkRequestData (req_ID request) exts)
       = (t, [RLock; RUnlock; Act (TerminateWithError (Some refusal))])).
Proof.
  intros t h p0 chid msg exts Hev HG Hne refusal. subst refusal. split.
  - intros id Hk. unfold gsIncomingResponseHook, processExtension. simpl.
    rewrite Hk, Hev, HG. destruct msg as [req | resp]; simpl in Hne |- *.
    + destruct (decide _) as [_ | Hn]; [reflexivity |].
      exfalso. apply Hn. exact Hne.
    + destruct (decide _) as [_ | Hn]; [reflexivity |].
      exfalso. apply Hn. exact Hne.
  - intros request Hk. unfold gsRequestUpdatedHook, processExtension. simpl.
    rewrite Hk, Hev, HG. destruct msg as [req | resp]; simpl in Hne |- *.
    + destruct (decide _) as [_ | Hn]; [reflexivity |].
      exfalso. apply Hn. exact Hne.
    + destruct (decide _) as [_ | Hn]; [reflexivity |].
      exfalso. apply Hn. exact Hne.
Qed.

(** X17.  A request the registry does not know is none of the
    transport's business: the hooks and listeners that look a request up
    leave the registry alone, call no session callback and take no hook
    action. *)
Theorem X17_unknown_requests_are_ignored :
  forall t p0 request update response block status gserr,
    graphsyncRequestMap t !! mkKey (req_ID request) p0 = None ->
    graphsyncRequestMap t !! mkKey (req_ID request) (peerID t) = None ->
    graphsyncRequestMap t !! mkKey (resp_RequestID response) (peerID t)
      = None ->
    Forall (fun r => fst r = t /\ session_events (snd r) = [] /\
                     hook_actions (snd r) = [])
      [gsIncomingBlockHook t p0 response block;
       gsOutgoingBlockHook ToExtensionData t p0 request block;
       gsBlockSentHook t p0 request block;
       gsIncomingResponseHook GetTransferData ToExtensionData t p0 response;
       gsRequestUpdatedHook GetTransferData ToExtensionData t p0 request
         update;
       gsCompletedResponseListener t p0 request status;
       gsRequestorCancelledListener t p0 request;
       gsNetworkSendErrorListener t p0 request gserr].
Proof.
  intros t p0 request update response block status gserr Hr Hl Hresp.
  repeat constructor;
    unfold gsIncomingBlockHook, gsOutgoingBlockHook, gsBlockSentHook,
      gsIncomingResponseHook, gsRequestUpdatedHook,
      gsCompletedResponseListener, gsRequestorCancelledListener,
      gsNetworkSendErrorListener;
    rewrite ?Hr, ?Hl, ?Hresp; try reflexivity;
    destruct (BlockSizeOnWire block =? 0)%N; reflexivity.
Qed.

End Updates.

Lemma X16_updates_against_the_channel_are_refused_witness :
  gsIncomingResponseHook Sample.GetTransferData Sample.ToExtensionData
    Sample.restarted Sample.remote
    (mkResponseData 2 (req_exts (Sample.engineRequest 2)))
  = (Sample.restarted,
     [RLock; RUnlock;
      Act (TerminateWithError
             (Some (ErrorNew "received request on response channel")))]).
Proof.
  destruct (X16_updates_against_the_channel_are_refused
              Sample.GetTransferData Sample.ToExtensionData Sample.restarted
              (Sample.session (None, None)) Sample.remote Sample.pull7
              Sample.request7 (req_exts (Sample.engineRequest 2))
              eq_refl eq_refl) as [Hresp _].
  - discriminate.
  - apply Hresp. vm_compute. reflexivity.
Defined.

Lemma X17_unknown_requests_are_ignored_witness :
  let r := gsCompletedResponseListener (Sample.bound (None, None))
             Sample.remote (Sample.engineRequest 1) RequestCompletedFull in
  fst r = Sample.bound (None, None) /\
  session_events (snd r) = [] /\ hook_actions (snd r) = [].
Proof.
  pose proof (X17_unknown_requests_are_ignored Sample.GetTransferData
                Sample.ToExtensionData (Sample.bound (None, None))
                Sample.remote (Sample.engineRequest 1)
                (Sample.engineRequest 1) (mkResponseData 1 []) Sample.block
                RequestCompletedFull connectionReset eq_refl eq_refl eq_refl)
    as Hall.
  do 5 apply Forall_inv_tail in Hall. apply Forall_inv in Hall. exact Hall.
Defined.

(** X18.  Once the requestor has cancelled its engine request, the
    responder's [PauseChannel] and [CloseChannel] for the channel return
    nil without calling the engine. *)
Theorem X18_cancelled_requestor_needs_no_engine_call :
  forall t h p0 request chid key ws,
    events t = Some h ->
    graphsyncRequestMap t !! mkKey (req_ID request) p0 = Some chid ->
    channelIDMap t !! chid = Some key ->
    p key <> peerID t ->
    let t1 := fst (gsRequestorCancelledListener t p0 request) in
    chid ∈ requestorCancelledMap t1 /\
    (exists tr, PauseChannel t1 ws chid = Some (None, t1, tr) /\
                engine_calls tr = []) /\
    (exists tr, CloseChannel t1 ws chid = Some (None, t1, tr) /\
                engine_calls tr = []).
Proof.
  intros t h p0 request chid key ws Hev Hk Hc Hremote t1. subst t1.
  unfold gsRequestorCancelledListener. rewrite Hk. simpl.
  assert (Hin : chid ∈ {[chid]} ∪ requestorCancelledMap t).
  { apply elem_of_union. left. apply elem_of_singleton. reflexivity. }
  split; [exact Hin |].
  set (t1 := set_requestorCancelledMap ({[chid]} ∪ requestorCancelledMap t) t).
  assert (Hg : gsKeyFromChannelID t1 ws chid
               = Some (key, None, t1, [RLock; RUnlock])).
  { apply gsKeyFromChannelID_known. exact Hc. }
  split.
  - unfold PauseChannel. change (events t1) with (events t).
    rewrite Hev, Hg. change (peerID t1) with (peerID t).
    destruct (decide (p key = peerID t)) as [| _]; [contradiction |].
    change (requestorCancelledMap t1)
      with ({[chid]} ∪ requestorCancelledMap t).
    destruct (decide (chid ∈ {[chid]} ∪ requestorCancelledMap t)) as [_ |];
      [| contradiction].
    eexists. split; reflexivity.
  - unfold CloseChannel. change (events t1) with (events t).
    rewrite Hev, Hg. change (peerID t1) with (peerID t).
    destruct (decide (p key = peerID t)) as [| _]; [contradiction |].
    change (requestorCancelledMap t1)
      with ({[chid]} ∪ requestorCancelledMap t).
    destruct (decide (chid ∈ {[chid]} ∪ requestorCancelledMap t)) as [_ |];
      [| contradiction].
    eexists. split; reflexivity.
Qed.

Lemma X18_cancelled_requestor_needs_no_engine_call_witness :
  Sample.served7 ∈ requestorCancelledMap Sample.cancelledServing /\
  exists tr,
    CloseChannel Sample.cancelledServing [] Sample.served7
      = Some (None, Sample.cancelledServing, tr) /\
    engine_calls tr = [].
Proof.
  destruct (X18_cancelled_requestor_needs_no_engine_call
              (Sample.serving (None, None) (mkKey 1 Sample.remote))
              (Sample.session (None, None)) Sample.remote
              (Sample.engineRequest 1) Sample.served7 (mkKey 1 Sample.remote)
              [] eq_refl) as (Hin & _ & Hclose).
  - vm_compute. reflexivity.
  - vm_compute. reflexivity.
  - discriminate.
  - split; [exact Hin | exact Hclose].
Defined.

(** ** Further properties: resuming a response *)

Section Resuming.

Variable GetTransferData : list ExtensionData -> option Message * option error.
Variable ToExtensionData :
  Message -> list ExtensionName -> list ExtensionData * option error.
Variable ChannelID_String : ChannelID -> string.

(** Whether the incoming-request hook pauses, once at the registry. *)
Lemma gsReqRecdHook_pauses t p0 request msg rm err exts :
  reaches_registry GetTransferData ToExtensionData t p0 request msg rm err
    exts ->
  let chid := incomingChannel t p0 msg in
  pauses_response (snd (gsReqRecdHook GetTransferData ToExtensionData
                 ChannelID_String t p0 request))
  = isPause err
    || match channelXferStarted t !! chid with
       | Some started => negb started && negb (isPause err)
       | None => false
       end.
Proof.
  intros Hreach chid.
  destruct (gsReqRecdHook_at_registry GetTransferData ToExtensionData
              ChannelID_String t p0 request msg rm err exts Hreach)
    as (ev & Htr & _).
  fold chid in Htr. rewrite Htr, !pauses_response_app.
  destruct (isPause err), (channelXferStarted t !! chid) as [[] |];
    repeat (destruct (decide _));
    rewrite ?pauses_response_sends; reflexivity.
Qed.

(** X19.  [ResumeChannel] on the responder side, for a channel whose
    requestor has not cancelled, unpauses the response at the engine with
    the message's extensions, returns the engine's answer and marks the
    transfer as started, whatever the engine answers.  The next incoming
    request of that channel that the session accepts without a pause is
    then not paused by the hook, and the transfer stays started. *)
Theorem X19_resumed_channel_restarts_unpaused :
  forall t h chid key msg exts ws,
    events t = Some h ->
    channelIDMap t !! chid = Some key ->
    p key <> peerID t ->
    chid ∉ requestorCancelledMap t ->
    match msg with
    | Some m => ToExtensionData m (supportedExtensions t)
    | None => ([], None)
    end = (exts, None) ->
    let call := GsUnpauseResponse (p key) (requestID key) exts in
    exists t1 tr,
      ResumeChannel ToExtensionData t ws msg chid
        = Some (gs t call, t1, tr) /\
      engine_calls tr = [call] /\
      channelXferStarted t1 !! chid = Some true /\
      (forall p0 request m rm exts',
         reaches_registry GetTransferData ToExtensionData t1 p0 request m rm
           None exts' ->
         incomingChannel t1 p0 m = chid ->
         pauses_response (snd (gsReqRecdHook GetTransferData ToExtensionData
                 ChannelID_String t1 p0 request)) = false /\
         channelXferStarted (fst (gsReqRecdHook GetTransferData ToExtensionData
                 ChannelID_String t1 p0 request)) !! chid = Some true).
Proof.
  intros t h chid key msg exts ws Hev Hk Hremote Hnc Hser call. subst call.
  exists (set_channelXferStarted (<[chid := true]> (channelXferStarted t)) t).
  eexists. split; [| split; [| split]].
  - unfold ResumeChannel.
    rewrite Hev, (gsKeyFromChannelID_known _ _ _ _ Hk), Hser.
    destruct (decide (p key = peerID t)) as [| _]; [contradiction |].
    destruct (decide (chid ∈ requestorCancelledMap t)) as [| _];
      [contradiction |].
    reflexivity.
  - reflexivity.
  - simpl. apply lookup_insert_eq.
  - intros p0 request m rm exts' Hreach Hchid.
    pose proof (gsReqRecdHook_pauses _ _ _ _ _ _ _ Hreach) as Hp.
    destruct (gsReqRecdHook_at_registry GetTransferData ToExtensionData
                ChannelID_String _ p0 request m rm None exts' Hreach)
      as (ev & _ & Hflag & _).
    simpl in Hp, Hflag. rewrite Hchid in Hp, Hflag.
    rewrite lookup_insert_eq in Hp, Hflag. simpl in Hp, Hflag.
    split; [exact Hp |]. rewrite Hflag. apply lookup_insert_eq.
Qed.

End Resuming.

Lemma X19_resumed_channel_restarts_unpaused_witness :
  channelXferStarted Sample.pausedServing !! Sample.served7 = Some false /\
  exists t1 tr,
    ResumeChannel Sample.ToExtensionData Sample.pausedServing []
      (Some Sample.accepted7) Sample.served7 = Some (None, t1, tr) /\
    channelXferStarted t1 !! Sample.served7 = Some true.
Proof.
  split; [vm_compute; reflexivity |].
  destruct (X19_resumed_channel_restarts_unpaused Sample.GetTransferData
              Sample.ToExtensionData Sample.ChannelID_String
              Sample.pausedServing (Sample.session (None, None))
              Sample.served7 (mkKey 1 Sample.remote) (Some Sample.accepted7)
              Sample.deferred7 [] eq_refl)
    as (t1 & tr & Hres & _ & Hflag & _).
  - vm_compute. reflexivity.
  - discriminate.
  - intros Hin. apply elem_of_empty in Hin. exact Hin.
  - reflexivity.
  - exists t1, tr. split; [exact Hres | exact Hflag].
Defined.

(** ** Further properties: validating or terminating an incoming request *)

Lemma hook_actions_cons c tr :
  hook_actions (c :: tr)
  = match c with Act a => a :: hook_actions tr | _ => hook_actions tr end.
Proof. destruct c; reflexivity. Qed.

Lemma hook_actions_send_map exts :
  hook_actions (map (fun e => Act (SendExtensionData e)) exts)
  = map SendExtensionData exts.
Proof. exact (hook_actions_sends exts). Qed.

Section Validating.

Variable GetTransferData : list ExtensionData -> option Message * option error.
Variable ToExtensionData :
  Message -> list ExtensionName -> list ExtensionData * option error.
Variable ChannelID_String : ChannelID -> string.

Lemma isFatal_false err :
  isFatal err = false -> err = None \/ err = Some ErrPause.
Proof.
  destruct err as [e |]; [| auto]. unfold isFatal, isPause.
  destruct (decide (e = ErrPause)) as [-> | Hne]; [auto |].
  rewrite bool_decide_eq_true_2 by discriminate.
  rewrite bool_decide_eq_false_2 by congruence. discriminate.
Qed.

(** The hook either reaches the registry, or leaves it alone and does not
    validate. *)
Lemma gsReqRecdHook_cases t p0 request :
  (exists msg rm err exts,
     reaches_registry GetTransferData ToExtensionData t p0 request msg rm err
       exts) \/
  (fst (gsReqRecdHook GetTransferData ToExtensionData
                 ChannelID_String t p0 request) = t /\
   ValidateRequest ∉ hook_actions (snd (gsReqRecdHook GetTransferData ToExtensionData
                 ChannelID_String t p0 request))).
Proof.
  unfold gsReqRecdHook.
  destruct (GetTransferData (req_exts request)) as [[msg |] [e |]] eqn:HG;
    try (right; split; [reflexivity |]; simpl; intros Hin;
         repeat (apply elem_of_cons in Hin as [Hin | Hin];
                 [discriminate |]);
         apply elem_of_nil in Hin; exact Hin).
  destruct (events t) as [h |] eqn:Hev;
    [| right; split; [reflexivity | apply not_elem_of_nil]].
  assert (Hshape : exists rm err ev,
    incomingAnswer h t p0 msg = (rm, err) /\
    match msg with
    | MsgRequest req =>
      let chid := mkChannelID p0 (peerID t) (MsgTransferID msg) in
      let '(rm, err) := OnRequestReceived h chid req in
      (chid, rm, err, Ev (EvRequestReceived chid req))
    | MsgResponse resp =>
      let chid := mkChannelID (peerID t) p0 (MsgTransferID msg) in
      (chid, None, OnResponseReceived h chid resp,
       Ev (EvResponseReceived chid resp))
    end = (incomingChannel t p0 msg, rm, err, Ev ev)).
  { destruct msg as [req | resp]; simpl.
    - destruct (OnRequestReceived h _ req) as [rm err]. eauto.
    - eauto. }
  destruct Hshape as (rm & err & ev & Hans & Hshape).
  cbv zeta in Hshape |- *.
  rewrite Hshape. clear Hshape.
  destruct (match rm with
            | Some rm0 => ToExtensionData rm0 (supportedExtensions t)
            | None => ([], None)
            end) as [exts [extensionErr |]] eqn:Hser.
  - right. split; [reflexivity |]. simpl.
    intros Hin. apply list_elem_of_singleton in Hin. discriminate.
  - destruct (isFatal err) eqn:Hfatal.
    + right. split; [reflexivity |]. cbn [snd].
      rewrite !hook_actions_app, hook_actions_send_map.
      intros Hin. apply elem_of_app in Hin as [Hin | Hin];
        [apply elem_of_nil in Hin; exact Hin |].
      apply elem_of_app in Hin as [Hin | Hin].
      * apply list_elem_of_fmap in Hin as (? & [=] & _).
      * apply list_elem_of_singleton in Hin. discriminate.
    + left. exists msg, rm, err, exts. split.
      * exact HG.
      * exists h. split; [exact Hev | exact Hans].
      * apply isFatal_false, Hfatal.
      * exact Hser.
Qed.

(** The actions of the hook once it has reached the registry. *)
Lemma gsReqRecdHook_actions_at_registry t p0 request msg rm err exts :
  reaches_registry GetTransferData ToExtensionData t p0 request msg rm err
    exts ->
  exists pauses store,
    hook_actions (snd (gsReqRecdHook GetTransferData ToExtensionData
                 ChannelID_String t p0 request))
    = map SendExtensionData exts ++ pauses
        ++ map SendExtensionData
             (if decide (incomingChannel t p0 msg ∈ requestorCancelledMap t)
              then default []
                     (pendingExtensions t !! incomingChannel t p0 msg)
              else [])
        ++ store ++ [ValidateRequest] /\
    Forall (fun a => a = PauseResponse) pauses /\
    Forall (fun a => exists n, a = UsePersistenceOption n) store.
Proof.
  intros Hreach.
  destruct (gsReqRecdHook_at_registry GetTransferData ToExtensionData
              ChannelID_String t p0 request msg rm err exts Hreach)
    as (ev & Htr & _).
  rewrite Htr. clear Htr.
  exists ((if isPause err then [PauseResponse] else [])
            ++ (if match channelXferStarted t !! incomingChannel t p0 msg with
                   | Some started => negb started && negb (isPause err)
                   | None => false
                   end
                then [PauseResponse] else [])),
    (if decide (incomingChannel t p0 msg ∈ stores t)
     then [UsePersistenceOption
             (persistenceOption ChannelID_String (incomingChannel t p0 msg))]
     else []).
  split; [| split].
  - rewrite !hook_actions_app, hook_actions_sends.
    destruct (isPause err),
      (match channelXferStarted t !! incomingChannel t p0 msg with
       | Some started => negb started && negb _
       | None => false
       end),
      (decide (incomingChannel t p0 msg ∈ requestorCancelledMap t)),
      (decide (incomingChannel t p0 msg ∈ stores t));
      rewrite ?hook_actions_sends; reflexivity.
  - destruct (isPause err),
      (match channelXferStarted t !! incomingChannel t p0 msg with
       | Some started => negb started && negb _
       | None => false
       end); repeat constructor.
  - destruct (decide _); repeat constructor. eauto.
Qed.

(** X20.  The incoming-request hook never both validates and terminates
    a request.  When it validates, it has recorded the request's key for
    a channel, in both maps; when it terminates, it has left the registry
    as it was. *)
Theorem X20_validated_or_terminated :
  forall t p0 request,
    let r :=
      gsReqRecdHook GetTransferData ToExtensionData ChannelID_String
        t p0 request in
    let key := mkKey (req_ID request) p0 in
    (ValidateRequest ∈ hook_actions (snd r) ->
     (forall e, TerminateWithError e ∉ hook_actions (snd r)) /\
     exists chid,
       graphsyncRequestMap (fst r) !! key = Some chid /\
       channelIDMap (fst r) !! chid = Some key) /\
    (forall e, TerminateWithError e ∈ hook_actions (snd r) ->
     fst r = t /\ ValidateRequest ∉ hook_actions (snd r)).
Proof.
  intros t p0 request r key. subst r key.
  destruct (gsReqRecdHook_cases t p0 request)
    as [(msg & rm & err & exts & Hreach) | [Hsame Hnv]].
  - destruct (gsReqRecdHook_actions_at_registry _ _ _ _ _ _ _ Hreach)
      as (pauses & store & Hacts & Hp & Hs).
    assert (Hnt : forall e, TerminateWithError e
                              ∉ hook_actions (snd (gsReqRecdHook GetTransferData ToExtensionData
                 ChannelID_String t p0 request))).
    { intros e. rewrite Hacts, !elem_of_app. intros Hin.
      destruct Hin as [Hin | [Hin | [Hin | [Hin | Hin]]]].
      - apply list_elem_of_fmap in Hin as (? & [=] & _).
      - rewrite Forall_forall in Hp. apply Hp in Hin. discriminate.
      - apply list_elem_of_fmap in Hin as (? & [=] & _).
      - rewrite Forall_forall in Hs. apply Hs in Hin as [n [=]].
      - apply list_elem_of_singleton in Hin. discriminate. }
    split.
    + intros _. split; [exact Hnt |].
      destruct (gsReqRecdHook_at_registry GetTransferData ToExtensionData
                  ChannelID_String t p0 request msg rm err exts Hreach)
        as (ev & _ & _ & _ & _ & Hc & Hg).
      exists (incomingChannel t p0 msg). rewrite Hc, Hg.
      rewrite !lookup_insert_eq. split; reflexivity.
    + intros e He. exfalso. exact (Hnt e He).
  - split.
    + intros Hv. contradiction.
    + intros e _. split; [exact Hsame | exact Hnv].
Qed.

End Validating.

Lemma X20_validated_or_terminated_witness :
  ValidateRequest
    ∈ hook_actions
        (snd (gsReqRecdHook Sample.GetTransferData Sample.ToExtensionData
                Sample.ChannelID_String (Sample.bound (None, None))
                Sample.remote (Sample.engineRequest 1))) /\
  exists chid,
    graphsyncRequestMap
      (fst (gsReqRecdHook Sample.GetTransferData Sample.ToExtensionData
              Sample.ChannelID_String (Sample.bound (None, None))
              Sample.remote (Sample.engineRequest 1)))
      !! mkKey 1 Sample.remote = Some chid.
Proof.
  assert (Hv :
    ValidateRequest
      ∈ hook_actions
          (snd (gsReqRecdHook Sample.GetTransferData Sample.ToExtensionData
                  Sample.ChannelID_String (Sample.bound (None, None))
                  Sample.remote (Sample.engineRequest 1)))).
  { apply list_elem_of_In. vm_compute. left. reflexivity. }
  split; [exact Hv |].
  destruct (X20_validated_or_terminated Sample.GetTransferData
              Sample.ToExtensionData Sample.ChannelID_String
              (Sample.bound (None, None)) Sample.remote
              (Sample.engineRequest 1)) as [Hval _].
  destruct (Hval Hv) as (_ & chid & Hg & _).
  exists chid. exact Hg.
Defined.

(** ** Further properties: network errors *)

(** X21.  With a session bound, the receive-error listener leaves the
    registry alone and calls [OnReceiveDataError], with the engine's
    error, exactly for the channels of the key-to-channel map whose
    initiator or responder is the peer of the error: once per engine key
    of such a channel, and for no other channel. *)
Theorem X21_receive_error_fan_out :
  forall t h p0 gserr,
    events t = Some h ->
    let r := gsNetworkReceiveErrorListener t p0 gserr in
    let involved (kc : graphsyncKey * ChannelID) :=
      Initiator (snd kc) = p0 \/ Responder (snd kc) = p0 in
    fst r = t /\
    (forall chid,
       EvReceiveDataError chid gserr ∈ session_events (snd r) <->
       (exists k, graphsyncRequestMap t !! k = Some chid) /\
       (Initiator chid = p0 \/ Responder chid = p0)) /\
    Forall (fun e => exists chid, e = EvReceiveDataError chid gserr)
      (session_events (snd r)) /\
    length (session_events (snd r))
      = length (filter involved (map_to_list (graphsyncRequestMap t))).
Proof.
  intros t h p0 gserr Hev r involved.
  set (hit := filter (fun chid => ~ (Initiator chid <> p0 /\ Responder chid <> p0))
                (map snd (map_to_list (graphsyncRequestMap t)))).
  assert (Hr : fst r = t /\
               session_events (snd r)
               = map (fun chid => EvReceiveDataError chid gserr) hit).
  { subst r. unfold gsNetworkReceiveErrorListener. fold hit. rewrite Hev.
    destruct hit as [| c hit']; [split; reflexivity |]. split; [reflexivity |].
    cbn [snd]. rewrite !session_events_app. simpl.
    rewrite app_nil_r. f_equal.
    clear. induction hit' as [| c l IH]; [reflexivity |]. simpl. now f_equal. }
  destruct Hr as [Hsame Hevs]. split; [exact Hsame |]. rewrite Hevs.
  assert (Hiff : forall c : ChannelID,
            ~ (Initiator c <> p0 /\ Responder c <> p0) <->
            (Initiator c = p0 \/ Responder c = p0)).
  { intros c. destruct (decide (Initiator c = p0)), (decide (Responder c = p0));
      tauto. }
  split; [| split].
  - intros chid. rewrite list_elem_of_In, in_map_iff. split.
    + intros (c & [= <-] & Hin). apply list_elem_of_In in Hin.
      subst hit. apply list_elem_of_filter in Hin as [HP Hin].
      apply list_elem_of_In, in_map_iff in Hin as ([k c'] & Hc & Hin).
      simpl in Hc. subst c'. apply list_elem_of_In in Hin.
      apply elem_of_map_to_list in Hin. split; [eauto | apply Hiff, HP].
    + intros [[k Hk] Hinv]. exists chid. split; [reflexivity |].
      apply list_elem_of_In. subst hit. apply list_elem_of_filter.
      split; [apply Hiff, Hinv |].
      apply list_elem_of_In, in_map_iff. exists (k, chid).
      split; [reflexivity |]. apply list_elem_of_In, elem_of_map_to_list.
      exact Hk.
  - apply Forall_forall. intros e He.
    apply list_elem_of_In, in_map_iff in He as (c & <- & _). eauto.
  - rewrite length_map. subst hit involved. clear.
    induction (map_to_list (graphsyncRequestMap t)) as [| [k c] l IH];
      [reflexivity |].
    simpl. rewrite !filter_cons. simpl.
    destruct (decide (~ (Initiator c <> p0 /\ Responder c <> p0))) as [Hy | Hn],
      (decide (Initiator c = p0 \/ Responder c = p0)) as [Hy' | Hn'];
      simpl; try (rewrite IH; reflexivity).
    + exfalso. destruct (decide (Initiator c = p0)), (decide (Responder c = p0));
        tauto.
    + exfalso. tauto.
Qed.

Lemma X21_receive_error_fan_out_witness :
  events Sample.restarted = Some (Sample.session (None, None)) /\
  (EvReceiveDataError Sample.pull7 connectionReset
     ∈ session_events
         (snd (gsNetworkReceiveErrorListener Sample.restarted Sample.remote
                 connectionReset))) /\
  length
    (session_events
       (snd (gsNetworkReceiveErrorListener Sample.restarted Sample.remote
               connectionReset))) = 2%nat.
Proof.
  split; [reflexivity |].
  destruct (X21_receive_error_fan_out Sample.restarted
              (Sample.session (None, None)) Sample.remote connectionReset
              eq_refl) as (_ & Hiff & _ & Hlen).
  split.
  - apply Hiff. split; [| right; reflexivity].
    exists (mkKey 2 Sample.self). vm_compute. reflexivity.
  - rewrite Hlen. vm_compute. reflexivity.
Defined.

(** ** Further properties: the registry lock *)

Lemma well_locked_quiet s (quiet tr : list Call) :
  Forall (fun c => is_lock_op c = false) quiet ->
  well_locked s (quiet ++ tr) = well_locked s tr.
Proof.
  induction 1 as [| c l Hc _ IH]; [reflexivity |].
  simpl. destruct c; try discriminate; exact IH.
Qed.

Lemma well_locked_map {A} s (f : A -> Call) (l : list A) tr :
  (forall x, is_lock_op (f x) = false) ->
  well_locked s (map f l ++ tr) = well_locked s tr.
Proof.
  intros Hf. apply well_locked_quiet. apply Forall_forall.
  intros c Hc. apply list_elem_of_In, in_map_iff in Hc as (x & <- & _).
  apply Hf.
Qed.

Lemma well_locked_map_only {A} s (f : A -> Call) (l : list A) :
  (forall x, is_lock_op (f x) = false) ->
  well_locked s (map f l) = well_locked s [].
Proof.
  intros Hf. rewrite <- (app_nil_r (map f l)). apply well_locked_map, Hf.
Qed.

(** The look-ups of [gsKeyFromChannelID] take and release the read lock. *)
Lemma well_locked_await ws t chid k e t' tr rest :
  gsKeyFromChannelID t ws chid = Some (k, e, t', tr) ->
  well_locked Free (tr ++ rest) = well_locked Free rest.
Proof.
  revert t k e t' tr. induction ws as [| w ws IH]; intros t k e t' tr; simpl.
  - repeat case_match; intros; simplify_eq; reflexivity.
  - destruct (channelIDMap t !! chid); [intros [= <- <- <- <-]; reflexivity |].
    destruct (pending t !! chid); [| intros [= <- <- <- <-]; reflexivity].
    destruct w as [| t1]; [intros [= <- <- <- <-]; reflexivity |].
    destruct (gsKeyFromChannelID t1 ws chid) as [[[[k1 e1] t2] tr1] |] eqn:Hrec;
      [| discriminate].
    intros [= <- <- <- <-]. simpl. exact (IH _ _ _ _ _ Hrec).
Qed.

Section Locks.

Variable GetTransferData : list ExtensionData -> option Message * option error.
Variable ToExtensionData :
  Message -> list ExtensionName -> list ExtensionData * option error.
Variable ChannelID_String : ChannelID -> string.
Variable EncodeCidSet : gset Cid -> list Byte.byte * option error.

Ltac locked :=
  repeat case_match; simplify_eq;
  repeat (progress (simpl;
                    rewrite ?well_locked_map by (intros; reflexivity);
                    rewrite ?well_locked_map_only by (intros; reflexivity)));
  try reflexivity.

Ltac awaiting t ws chid :=
  destruct (events t); [| intros; simplify_eq; reflexivity];
  let Hk := fresh "Hk" in
  destruct (gsKeyFromChannelID t ws chid) as [[[[?k0 ?e0] ?t1] ?tr0] |] eqn:Hk;
    [| discriminate];
  intros; repeat case_match; simplify_eq; cbn [snd fst];
  first [ apply (well_locked_await _ _ _ _ _ _ _ [] ) in Hk;
          rewrite app_nil_r in Hk; exact Hk
        | rewrite (well_locked_await _ _ _ _ _ _ _ _ Hk); reflexivity ].

(** A façade call that awaits the engine key uses the lock properly,
    whatever wakes it. *)
Lemma awaiting_calls_well_locked t ws msg chid :
  (forall r, PauseChannel t ws chid = Some r ->
             well_locked Free (snd r) = true) /\
  (forall r, ResumeChannel ToExtensionData t ws msg chid = Some r ->
             well_locked Free (snd r) = true) /\
  (forall r, CloseChannel t ws chid = Some r ->
             well_locked Free (snd r) = true).
Proof.
  split; [| split]; intros r.
  - unfold PauseChannel. awaiting t ws chid.
  - unfold ResumeChannel. awaiting t ws chid.
  - unfold CloseChannel. awaiting t ws chid.
Qed.

(** X22.  No operation of the transport misuses the registry lock or
    returns holding it: in every trace of every façade call and of every
    hook, the lock is taken only when free, released only by the kind of
    unlock that matches, and free at the end; for the calls that await
    the engine key, this holds whatever wakes them. *)
Theorem X22_registry_lock_is_released :
  (forall o t tr,
     In tr (traces GetTransferData ToExtensionData ChannelID_String
              EncodeCidSet o t) ->
     well_locked Free tr = true) /\
  (forall t ws msg chid r,
     PauseChannel t ws chid = Some r \/
     ResumeChannel ToExtensionData t ws msg chid = Some r \/
     CloseChannel t ws chid = Some r ->
     well_locked Free (snd r) = true).
Proof.
  split; [| intros t ws msg chid r [Hr | [Hr | Hr]];
            [exact (proj1 (awaiting_calls_well_locked t ws msg chid) r Hr)
            | exact (proj1 (proj2 (awaiting_calls_well_locked t ws msg chid))
                       r Hr)
            | exact (proj2 (proj2 (awaiting_calls_well_locked t ws msg chid))
                       r Hr)]].
  intros o t tr. destruct o; simpl.
  - intros [<- | []]. unfold SetEventHandler. locked.
  - unfold OpenChannel. intros Hin.
    repeat case_match; simpl in Hin;
      repeat (rewrite in_map_iff in Hin; destruct Hin as (? & <- & Hin));
      try (destruct Hin as [<- | []]); locked.
  - destruct (PauseChannel t (wakes ctxDone) chid) as [r |] eqn:Hr;
      [| intros []].
    intros [<- | []].
    exact (proj1 (awaiting_calls_well_locked t _ None chid) r Hr).
  - destruct (ResumeChannel ToExtensionData t (wakes ctxDone) msg chid)
      as [r |] eqn:Hr; [| intros []].
    intros [<- | []].
    exact (proj1 (proj2 (awaiting_calls_well_locked t _ msg chid)) r Hr).
  - destruct (CloseChannel t (wakes ctxDone) chid) as [r |] eqn:Hr;
      [| intros []].
    intros [<- | []].
    exact (proj2 (proj2 (awaiting_calls_well_locked t _ None chid)) r Hr).
  - intros [<- | []]. unfold CleanupChannel, cleanupChannel. locked.
  - intros [<- | []]. unfold UseStore. locked.
  - intros [<- | []]. unfold Shutdown. locked.
  - intros [<- | []]. unfold gsOutgoingRequestHook. locked.
  - intros [<- | []]. unfold gsReqRecdHook. locked.
  - intros [<- | []]. unfold gsIncomingBlockHook. locked.
  - intros [<- | []]. unfold gsOutgoingBlockHook. locked.
  - intros [<- | []]. unfold gsBlockSentHook. locked.
  - intros [<- | []]. unfold gsIncomingResponseHook, processExtension. locked.
  - intros [<- | []]. unfold gsRequestUpdatedHook, processExtension. locked.
  - intros [<- | []]. unfold gsCompletedResponseListener. locked.
  - intros [<- | []]. unfold gsRequestorCancelledListener. locked.
  - intros [<- | []]. unfold gsNetworkSendErrorListener. locked.
  - intros [<- | []]. unfold gsNetworkReceiveErrorListener. locked.
Qed.

End Locks.

Lemma X22_registry_lock_is_released_witness :
  In (snd (gsReqRecdHook Sample.GetTransferData Sample.ToExtensionData
             Sample.ChannelID_String Sample.deferring Sample.remote
             (Sample.engineRequest 2)))
    (traces Sample.GetTransferData Sample.ToExtensionData
       Sample.ChannelID_String Sample.EncodeCidSet
       (OpReqRecdHook Sample.remote (Sample.engineRequest 2))
       Sample.deferring) /\
  well_locked Free
    (snd (gsReqRecdHook Sample.GetTransferData Sample.ToExtensionData
            Sample.ChannelID_String Sample.deferring Sample.remote
            (Sample.engineRequest 2))) = true.
Proof.
  assert (Hin :
    In (snd (gsReqRecdHook Sample.GetTransferData Sample.ToExtensionData
               Sample.ChannelID_String Sample.deferring Sample.remote
               (Sample.engineRequest 2)))
      (traces Sample.GetTransferData Sample.ToExtensionData
         Sample.ChannelID_String Sample.EncodeCidSet
         (OpReqRecdHook Sample.remote (Sample.engineRequest 2))
         Sample.deferring)) by (left; reflexivity).
  split; [exact Hin |].
  exact (proj1 (X22_registry_lock_is_released Sample.GetTransferData
                  Sample.ToExtensionData Sample.ChannelID_String
                  Sample.EncodeCidSet) _ _ _ Hin).
Defined.

(** ** Further properties: reopening a channel on restart *)



(** X24.  [openPullRestartChannel] returns the error of the manager's
    [newRequest] without touching the transport; otherwise it opens the
    channel on the transport once, with the channel's base CID as root,
    after protecting the connection, and when the transport refuses with
    [e] it returns [e] wrapped as "Unable to send request" and records
    that same error on the channel.  It never sends a message itself. *)
Theorem X24_openPullRestartChannel :
  forall hasConfigurer newRequest transportOpen ChannelID_String peerID
         channel,
    let r := RestartOpen.openPullRestartChannel hasConfigurer newRequest
               transportOpen ChannelID_String peerID channel in
    let chid := Restart.cs_ChannelID channel in
    let to := Restart.cs_OtherParty channel peerID in
    let rebuilt :=
      newRequest (Restart.cs_Selector channel) true
        (Restart.cs_Voucher channel) (Restart.cs_BaseCID channel) to in
    (forall eff, In eff (snd r) -> forall p0 rq, eff <> RestartOpen.Send p0 rq) /\
    (forall e, snd rebuilt = Some e -> r = (Some e, [])) /\
    (forall req, rebuilt = (Some req, None) ->
       let opening :=
         RestartOpen.TransportOpen to chid (Restart.cs_BaseCID channel)
           (Restart.cs_Selector channel) req in
       exists configured,
         Forall (fun eff => eff = RestartOpen.Configure chid
                                    (Restart.cs_Voucher channel)) configured /\
         match transportOpen to chid (Restart.cs_BaseCID channel)
                 (Restart.cs_Selector channel) req with
         | None =>
           r = (None,
                configured
                  ++ [RestartOpen.Protect to (ChannelID_String chid); opening])
         | Some e =>
           r = (Some (ErrorfW "Unable to send request: %w" e),
                configured
                  ++ [RestartOpen.Protect to (ChannelID_String chid); opening;
                      RestartOpen.RecordError chid
                        (ErrorfW "Unable to send request: %w" e)])
         end).
Proof.
  intros hasConfigurer newRequest transportOpen S peerID channel r chid to
    rebuilt.
  subst r. unfold RestartOpen.openPullRestartChannel.
  fold chid to rebuilt. split; [| split].
  - intros eff Hin p0 rq Heq. subst eff.
    destruct rebuilt as [[req |] [e |]]; simpl in Hin; try contradiction.
    unfold RestartOpen.configure in Hin.
    destruct (transportOpen _ _ _ _ _), (hasConfigurer _); simpl in Hin;
      repeat (destruct Hin as [Hin | Hin]; [discriminate |]); exact Hin.
  - intros e He. destruct rebuilt as [[rq |] [e' |]]; simpl in He;
      try discriminate; injection He as ->; reflexivity.
  - intros req Hreq. cbv zeta. rewrite Hreq.
    exists (RestartOpen.configure hasConfigurer chid
              (Restart.cs_Voucher channel)).
    split.
    + unfold RestartOpen.configure. destruct (hasConfigurer _);
        repeat constructor.
    + destruct (transportOpen _ _ _ _ _); rewrite <- app_assoc; reflexivity.
Qed.

Lemma X24_openPullRestartChannel_witness :
  RestartOpen.openPullRestartChannel (fun _ => true)
    (fun _ _ _ _ _ => (None, Some rejected)) (fun _ _ _ _ _ => None)
    Sample.ChannelID_String Sample.self soundChannel
  = (Some rejected, []).
Proof.
  apply (proj1 (proj2 (X24_openPullRestartChannel (fun _ => true)
                         (fun _ _ _ _ _ => (None, Some rejected))
                         (fun _ _ _ _ _ => None) Sample.ChannelID_String
                         Sample.self soundChannel))).
  reflexivity.
Defined.

(** ** Further properties: the requestor side *)

Section Requestor.

Variable GetTransferData : list ExtensionData -> option Message * option error.
Variable ToExtensionData :
  Message -> list ExtensionName -> list ExtensionData * option error.
Variable ChannelID_String : ChannelID -> string.
Variable EncodeCidSet : gset Cid -> list Byte.byte * option error.


(** X26.  On the requestor side (the key's peer is the local peer),
    [PauseChannel] and [ResumeChannel] pass the call to the engine as
    [PauseRequest] and [UnpauseRequest] on the request of the key, return
    the engine's answer and leave the registry as it was; [CloseChannel]
    returns [ErrChannelNotFound] when the channel has no cancel handle. *)
Theorem X26_requestor_side_calls :
  forall t h chid key ws,
    events t = Some h ->
    channelIDMap t !! chid = Some key ->
    p key = peerID t ->
    PauseChannel t ws chid
      = Some (gs t (GsPauseRequest (requestID key)), t,
              [RLock; RUnlock; Gs (GsPauseRequest (requestID key))]) /\
    (forall msg exts,
       match msg with
       | Some m => ToExtensionData m (supportedExtensions t)
       | None => ([], None)
       end = (exts, None) ->
       ResumeChannel ToExtensionData t ws msg chid
       = Some (gs t (GsUnpauseRequest (requestID key) exts), t,
               [RLock; RUnlock; Gs (GsUnpauseRequest (requestID key) exts)])) /\
    (forall msg exts e,
       match msg with
       | Some m => ToExtensionData m (supportedExtensions t)
       | None => ([], None)
       end = (exts, Some e) ->
       ResumeChannel ToExtensionData t ws msg chid
       = Some (Some e, t, [RLock; RUnlock])) /\
    (contextCancelMap t !! chid = None ->
     CloseChannel t ws chid
     = Some (Some ErrChannelNotFound, t, [RLock; RUnlock; RLock; RUnlock])).
Proof.
  intros t h chid key ws Hev Hk Hlocal.
  pose proof (gsKeyFromChannelID_known t ws chid key Hk) as Hg.
  split; [| split; [| split]].
  - unfold PauseChannel. rewrite Hev, Hg.
    destruct (decide (p key = peerID t)); [reflexivity | contradiction].
  - intros msg exts Hser. unfold ResumeChannel. rewrite Hev, Hg, Hser.
    destruct (decide (p key = peerID t)); [reflexivity | contradiction].
  - intros msg exts e Hser. unfold ResumeChannel. rewrite Hev, Hg, Hser.
    reflexivity.
  - intros Hnone. unfold CloseChannel. rewrite Hev, Hg.
    destruct (decide (p key = peerID t)); [| contradiction].
    rewrite Hnone. reflexivity.
Qed.

End Requestor.


Lemma X26_requestor_side_calls_witness :
  channelIDMap Sample.opened !! Sample.pull7 = Some (mkKey 1 Sample.self) /\
  PauseChannel Sample.opened [] Sample.pull7
    = Some (None, Sample.opened, [RLock; RUnlock; Gs (GsPauseRequest 1)]).
Proof.
  assert (Hk : channelIDMap Sample.opened !! Sample.pull7
               = Some (mkKey 1 Sample.self)) by (vm_compute; reflexivity).
  split; [exact Hk |].
  exact (proj1 (X26_requestor_side_calls Sample.ToExtensionData Sample.opened
                  (Sample.session (None, None)) Sample.pull7
                  (mkKey 1 Sample.self) [] eq_refl Hk eq_refl)).
Defined.

(** ** Further properties: the executor and the status names *)

(** X27.  Whatever ends the streams, the executor closes the [completed]
    latch of its request exactly once, as its last step, after at most
    one session callback; this also holds when no session is bound. *)
Theorem X27_executor_closes_the_latch_last :
  forall t ctxErr chid errChan latch,
    exists body,
      executeGsRequest t ctxErr chid errChan latch
        = body ++ [CloseLatch latch] /\
      (forall l, CloseLatch l ∉ body) /\
      (length (session_events body) <= 1)%nat.
Proof.
  intros t ctxErr chid errChan latch. unfold executeGsRequest.
  eexists. split; [reflexivity |].
  destruct (consumeResponses errChan) as [e |], (events t) as [h |],
    ctxErr as [ce |], (completedRequestListener t);
    try destruct e; simpl; split;
    try (intros l Hin;
         repeat (apply elem_of_cons in Hin as [Hin | Hin]; [discriminate |]);
         apply elem_of_nil in Hin; exact Hin);
    lia.
Qed.

(** X28.  A status code outside [gsResponseStatusCodes] is named
    [RequestFailedUnknown]; on the listed codes the name determines the
    code. *)
Theorem X28_status_code_names :
  (forall n, gsResponseStatusCodeString (UnlistedStatus n)
             = "RequestFailedUnknown") /\
  (forall a b na nb,
     gsResponseStatusCodes a = Some na ->
     gsResponseStatusCodes b = Some nb ->
     gsResponseStatusCodeString a = gsResponseStatusCodeString b ->
     a = b).
Proof.
  split; [reflexivity |].
  intros a b na nb Ha Hb Hs.
  destruct a; try discriminate Ha; destruct b; try discriminate Hb;
    try reflexivity; discriminate Hs.
Qed.

Lemma X28_status_code_names_witness :
  gsResponseStatusCodes RequestRejected = Some "RequestRejected" /\
  gsResponseStatusCodeString RequestRejected
    <> gsResponseStatusCodeString RequestFailedBusy.
Proof.
  split; [reflexivity |].
  intros Hs.
  pose proof (proj2 X28_status_code_names RequestRejected RequestFailedBusy
                _ _ eq_refl eq_refl Hs) as Heq.
  discriminate Heq.
Defined.

(** ** Further properties: binding the session *)

(** X29.  [SetEventHandler] binds the first handler it is given and
    registers the eleven hooks, each once; a second call returns
    [ErrHandlerAlreadySet], registers nothing and keeps the first
    handler.  [Shutdown] of the bound transport then unregisters those
    eleven hooks, once each and in the order of their registration. *)
Theorem X29_SetEventHandler_binds_once :
  forall t h h',
    events t = None ->
    unregisterFuncs t = [] ->
    let t1 := snd (fst (SetEventHandler t h)) in
    fst (fst (SetEventHandler t h)) = None /\
    engine_calls (snd (SetEventHandler t h))
      = map GsRegisterHook registeredHooks /\
    NoDup registeredHooks /\ length registeredHooks = 11%nat /\
    events t1 = Some h /\
    SetEventHandler t1 h' = (Some ErrHandlerAlreadySet, t1, []) /\
    snd (Shutdown t1)
      = map UnregisterHook registeredHooks
          ++ [RLock]
          ++ map (fun e => CancelCtx (cancel (snd e)))
               (map_to_list (contextCancelMap t))
          ++ [RUnlock].
Proof.
  intros t h h' Hev Hun t1. subst t1. unfold SetEventHandler. rewrite Hev.
  simpl. rewrite Hun. simpl.
  split; [reflexivity |]. split; [reflexivity |].
  split; [| split; [reflexivity |]].
  - unfold registeredHooks. repeat constructor;
      rewrite ?elem_of_cons, ?elem_of_nil; intros Hin;
      repeat (destruct Hin as [Hin | Hin]; [discriminate |]); exact Hin.
  - split; [reflexivity |]. split; [reflexivity |].
    reflexivity.
Qed.

Lemma X29_SetEventHandler_binds_once_witness :
  SetEventHandler (Sample.bound (None, None)) refusingSession
  = (Some ErrHandlerAlreadySet, Sample.bound (None, None), []).
Proof.
  destruct (X29_SetEventHandler_binds_once
              (NewTransport Sample.self Sample.engine)
              (Sample.session (None, None)) refusingSession eq_refl eq_refl)
    as (_ & _ & _ & _ & _ & Hsecond & _).
  exact Hsecond.
Defined.
